(** * DUPSS front end: session entry flow and consultation meeting flow

    A shallow embedding of the logic of [Login.jsx] (the [Login] component
    and the [VideoMeeting] component that follows it in the same file).

    Every handler of the source is a computation in a small state-and-error
    monad over a [World]: browser storage, the state of the two React
    components, counters into the replies of the outside world, the pending
    timers and the log of effects.  The outside world (network, backend
    services, random identifiers, the JavaScript built-ins the file calls) is
    an [Env]; every theorem quantifies over it.

    Conventions of the model.
    - A string is the UTF-8 form of the JavaScript string; [trim] and
      [toUpperCase] work on its code points, with the white space of
      ECMAScript and the case mappings of Unicode 14.
    - A number is a binary64 floating-point number and prints as
      [Number::toString] prints it.
    - A thrown value is an Error object (name, message and, for a failure
      reported by the HTTP client, the data of the response).
    - State setters take effect at once.  A handler that every render
      creates anew sees the current state of its component.
      [handleShowEndDialog], which [useCallback] keeps from an earlier
      render, is given the state of the render it was created in.
    - The effect log [trace] and the console are kept newest first. *)

From stdpp Require Import gmap strings pretty.
From Stdlib Require Import ZArith NArith String Ascii List Lia.
From Stdlib Require Import PrimFloat.
From Stdlib Require FloatOps SpecFloat.
Import ListNotations.
Open Scope string_scope.

(** ** Strings *)

(** A string of the model is the UTF-8 form of the JavaScript string, as
    the literals of the source file are.  The built-ins that look at
    characters work on code points: [utf8_decode] reads them and
    [utf8_encode] writes them back.  A byte that belongs to no well-formed
    sequence is carried through as the number [rawByte] gives it, above every
    code point. *)
Definition rawByte (b : N) : N := (1114112 + b)%N.

Definition continues (b : N) : bool := ((128 <=? b) && (b <=? 191))%N.

Fixpoint utf8_decode (s : string) : list N :=
  match s with
  | EmptyString => []
  | String c1 r1 =>
      let b1 := N_of_ascii c1 in
      if (b1 <? 128)%N then b1 :: utf8_decode r1
      else
        match r1 with
        | String c2 r2 =>
            let b2 := N_of_ascii c2 in
            if negb (continues b2) then rawByte b1 :: utf8_decode r1
            else if ((194 <=? b1) && (b1 <=? 223))%N
            then ((b1 - 192) * 64 + (b2 - 128))%N :: utf8_decode r2
            else
              match r2 with
              | String c3 r3 =>
                  let b3 := N_of_ascii c3 in
                  let three := ((b1 - 224) * 4096 + (b2 - 128) * 64 + (b3 - 128))%N in
                  if negb (continues b3) then rawByte b1 :: utf8_decode r1
                  else if ((224 <=? b1) && (b1 <=? 239))%N
                  then if (2048 <=? three)%N then three :: utf8_decode r3
                       else rawByte b1 :: utf8_decode r1
                  else
                    match r3 with
                    | String c4 r4 =>
                        let b4 := N_of_ascii c4 in
                        let four := ((b1 - 240) * 262144 + (b2 - 128) * 4096
                                     + (b3 - 128) * 64 + (b4 - 128))%N in
                        if continues b4 && (240 <=? b1)%N && (b1 <=? 244)%N
                           && (65536 <=? four)%N && (four <? 1114112)%N
                        then four :: utf8_decode r4
                        else rawByte b1 :: utf8_decode r1
                    | EmptyString => rawByte b1 :: utf8_decode r1
                    end
              | EmptyString => rawByte b1 :: utf8_decode r1
              end
        | EmptyString => rawByte b1 :: utf8_decode r1
        end
  end.

Definition bytes (l : list N) : string :=
  fold_right (fun b s => String (ascii_of_N b) s) EmptyString l.

Definition utf8_encode_one (c : N) : string :=
  (if c <? 128 then bytes [c]
   else if c <? 2048 then bytes [192 + c / 64; 128 + c mod 64]
   else if c <? 65536
   then bytes [224 + c / 4096; 128 + (c / 64) mod 64; 128 + c mod 64]
   else if c <? 1114112
   then bytes [240 + c / 262144; 128 + (c / 4096) mod 64;
               128 + (c / 64) mod 64; 128 + c mod 64]
   else bytes [c - 1114112])%N.

Fixpoint utf8_encode (l : list N) : string :=
  match l with
  | [] => EmptyString
  | c :: rest => utf8_encode_one c +:+ utf8_encode rest
  end.

(** [String.prototype.toUpperCase]: every code point is replaced by its
    upper-case mapping of the Unicode character database (version 14),
    whatever the locale.  [caseRuns] lists the code points with a single
    upper-case letter as runs [(first, last, step, upper of first)] of equal
    distance to their upper-case letters; [specialUpper] lists the code
    points whose mapping has several code points. *)
Definition caseRuns : list (N * N * N * N) := [
  (97, 122, 1, 65); (181, 181, 1, 924); (224, 246, 1, 192); (248, 254, 1, 216);
  (255, 255, 1, 376); (257, 303, 2, 256); (305, 305, 1, 73); (307, 311, 2, 306);
  (314, 328, 2, 313); (331, 375, 2, 330); (378, 382, 2, 377); (383, 383, 1, 83);
  (384, 384, 1, 579); (387, 389, 2, 386); (392, 392, 1, 391); (396, 396, 1, 395);
  (402, 402, 1, 401); (405, 405, 1, 502); (409, 409, 1, 408); (410, 410, 1, 573);
  (414, 414, 1, 544); (417, 421, 2, 416); (424, 424, 1, 423); (429, 429, 1, 428);
  (432, 432, 1, 431); (436, 438, 2, 435); (441, 441, 1, 440); (445, 445, 1, 444);
  (447, 447, 1, 503); (453, 453, 1, 452); (454, 454, 1, 452); (456, 456, 1, 455);
  (457, 457, 1, 455); (459, 459, 1, 458); (460, 460, 1, 458); (462, 476, 2, 461);
  (477, 477, 1, 398); (479, 495, 2, 478); (498, 498, 1, 497); (499, 499, 1, 497);
  (501, 501, 1, 500); (505, 543, 2, 504); (547, 563, 2, 546); (572, 572, 1, 571);
  (575, 576, 1, 11390); (578, 578, 1, 577); (583, 591, 2, 582); (592, 592, 1, 11375);
  (593, 593, 1, 11373); (594, 594, 1, 11376); (595, 595, 1, 385); (596, 596, 1, 390);
  (598, 599, 1, 393); (601, 601, 1, 399); (603, 603, 1, 400); (604, 604, 1, 42923);
  (608, 608, 1, 403); (609, 609, 1, 42924); (611, 611, 1, 404); (613, 613, 1, 42893);
  (614, 614, 1, 42922); (616, 616, 1, 407); (617, 617, 1, 406); (618, 618, 1, 42926);
  (619, 619, 1, 11362); (620, 620, 1, 42925); (623, 623, 1, 412); (625, 625, 1, 11374);
  (626, 626, 1, 413); (629, 629, 1, 415); (637, 637, 1, 11364); (640, 640, 1, 422);
  (642, 642, 1, 42949); (643, 643, 1, 425); (647, 647, 1, 42929); (648, 648, 1, 430);
  (649, 649, 1, 580); (650, 651, 1, 433); (652, 652, 1, 581); (658, 658, 1, 439);
  (669, 669, 1, 42930); (670, 670, 1, 42928); (837, 837, 1, 921); (881, 883, 2, 880);
  (887, 887, 1, 886); (891, 893, 1, 1021); (940, 940, 1, 902); (941, 943, 1, 904);
  (945, 961, 1, 913); (962, 962, 1, 931); (963, 971, 1, 931); (972, 972, 1, 908);
  (973, 974, 1, 910); (976, 976, 1, 914); (977, 977, 1, 920); (981, 981, 1, 934);
  (982, 982, 1, 928); (983, 983, 1, 975); (985, 1007, 2, 984); (1008, 1008, 1, 922);
  (1009, 1009, 1, 929); (1010, 1010, 1, 1017); (1011, 1011, 1, 895);
  (1013, 1013, 1, 917); (1016, 1016, 1, 1015); (1019, 1019, 1, 1018);
  (1072, 1103, 1, 1040); (1104, 1119, 1, 1024); (1121, 1153, 2, 1120);
  (1163, 1215, 2, 1162); (1218, 1230, 2, 1217); (1231, 1231, 1, 1216);
  (1233, 1327, 2, 1232); (1377, 1414, 1, 1329); (4304, 4346, 1, 7312);
  (4349, 4351, 1, 7357); (5112, 5117, 1, 5104); (7296, 7296, 1, 1042);
  (7297, 7297, 1, 1044); (7298, 7298, 1, 1054); (7299, 7300, 1, 1057);
  (7301, 7301, 1, 1058); (7302, 7302, 1, 1066); (7303, 7303, 1, 1122);
  (7304, 7304, 1, 42570); (7545, 7545, 1, 42877); (7549, 7549, 1, 11363);
  (7566, 7566, 1, 42950); (7681, 7829, 2, 7680); (7835, 7835, 1, 7776);
  (7841, 7935, 2, 7840); (7936, 7943, 1, 7944); (7952, 7957, 1, 7960);
  (7968, 7975, 1, 7976); (7984, 7991, 1, 7992); (8000, 8005, 1, 8008);
  (8017, 8023, 2, 8025); (8032, 8039, 1, 8040); (8048, 8049, 1, 8122);
  (8050, 8053, 1, 8136); (8054, 8055, 1, 8154); (8056, 8057, 1, 8184);
  (8058, 8059, 1, 8170); (8060, 8061, 1, 8186); (8112, 8113, 1, 8120);
  (8126, 8126, 1, 921); (8144, 8145, 1, 8152); (8160, 8161, 1, 8168);
  (8165, 8165, 1, 8172); (8526, 8526, 1, 8498); (8560, 8575, 1, 8544);
  (8580, 8580, 1, 8579); (9424, 9449, 1, 9398); (11312, 11359, 1, 11264);
  (11361, 11361, 1, 11360); (11365, 11365, 1, 570); (11366, 11366, 1, 574);
  (11368, 11372, 2, 11367); (11379, 11379, 1, 11378); (11382, 11382, 1, 11381);
  (11393, 11491, 2, 11392); (11500, 11502, 2, 11499); (11507, 11507, 1, 11506);
  (11520, 11557, 1, 4256); (11559, 11559, 1, 4295); (11565, 11565, 1, 4301);
  (42561, 42605, 2, 42560); (42625, 42651, 2, 42624); (42787, 42799, 2, 42786);
  (42803, 42863, 2, 42802); (42874, 42876, 2, 42873); (42879, 42887, 2, 42878);
  (42892, 42892, 1, 42891); (42897, 42899, 2, 42896); (42900, 42900, 1, 42948);
  (42903, 42921, 2, 42902); (42933, 42947, 2, 42932); (42952, 42954, 2, 42951);
  (42961, 42961, 1, 42960); (42967, 42969, 2, 42966); (42998, 42998, 1, 42997);
  (43859, 43859, 1, 42931); (43888, 43967, 1, 5024); (65345, 65370, 1, 65313);
  (66600, 66639, 1, 66560); (66776, 66811, 1, 66736); (66967, 66977, 1, 66928);
  (66979, 66993, 1, 66940); (66995, 67001, 1, 66956); (67003, 67004, 1, 66964);
  (68800, 68850, 1, 68736); (71872, 71903, 1, 71840); (93792, 93823, 1, 93760);
  (125218, 125251, 1, 125184)]%N.

Definition specialUpper : list (N * list N) := [
  (223, [83; 83]); (329, [700; 78]); (496, [74; 780]); (912, [921; 776; 769]);
  (944, [933; 776; 769]); (1415, [1333; 1362]); (7830, [72; 817]); (7831, [84; 776]);
  (7832, [87; 778]); (7833, [89; 778]); (7834, [65; 702]); (8016, [933; 787]);
  (8018, [933; 787; 768]); (8020, [933; 787; 769]); (8022, [933; 787; 834]);
  (8064, [7944; 921]); (8065, [7945; 921]); (8066, [7946; 921]); (8067, [7947; 921]);
  (8068, [7948; 921]); (8069, [7949; 921]); (8070, [7950; 921]); (8071, [7951; 921]);
  (8072, [7944; 921]); (8073, [7945; 921]); (8074, [7946; 921]); (8075, [7947; 921]);
  (8076, [7948; 921]); (8077, [7949; 921]); (8078, [7950; 921]); (8079, [7951; 921]);
  (8080, [7976; 921]); (8081, [7977; 921]); (8082, [7978; 921]); (8083, [7979; 921]);
  (8084, [7980; 921]); (8085, [7981; 921]); (8086, [7982; 921]); (8087, [7983; 921]);
  (8088, [7976; 921]); (8089, [7977; 921]); (8090, [7978; 921]); (8091, [7979; 921]);
  (8092, [7980; 921]); (8093, [7981; 921]); (8094, [7982; 921]); (8095, [7983; 921]);
  (8096, [8040; 921]); (8097, [8041; 921]); (8098, [8042; 921]); (8099, [8043; 921]);
  (8100, [8044; 921]); (8101, [8045; 921]); (8102, [8046; 921]); (8103, [8047; 921]);
  (8104, [8040; 921]); (8105, [8041; 921]); (8106, [8042; 921]); (8107, [8043; 921]);
  (8108, [8044; 921]); (8109, [8045; 921]); (8110, [8046; 921]); (8111, [8047; 921]);
  (8114, [8122; 921]); (8115, [913; 921]); (8116, [902; 921]); (8118, [913; 834]);
  (8119, [913; 834; 921]); (8124, [913; 921]); (8130, [8138; 921]); (8131, [919; 921]);
  (8132, [905; 921]); (8134, [919; 834]); (8135, [919; 834; 921]); (8140, [919; 921]);
  (8146, [921; 776; 768]); (8147, [921; 776; 769]); (8150, [921; 834]);
  (8151, [921; 776; 834]); (8162, [933; 776; 768]); (8163, [933; 776; 769]);
  (8164, [929; 787]); (8166, [933; 834]); (8167, [933; 776; 834]); (8178, [8186; 921]);
  (8179, [937; 921]); (8180, [911; 921]); (8182, [937; 834]); (8183, [937; 834; 921]);
  (8188, [937; 921]); (64256, [70; 70]); (64257, [70; 73]); (64258, [70; 76]);
  (64259, [70; 70; 73]); (64260, [70; 70; 76]); (64261, [83; 84]); (64262, [83; 84]);
  (64275, [1348; 1350]); (64276, [1348; 1333]); (64277, [1348; 1339]);
  (64278, [1358; 1350]); (64279, [1348; 1341])]%N.

Definition inRun (c : N) (r : N * N * N * N) : bool :=
  let '(first, last, step, _) := r in
  ((first <=? c) && (c <=? last) && ((c - first) mod step =? 0))%N.

Definition upperCodes (c : N) : list N :=
  match List.find (fun p => (fst p =? c)%N) specialUpper with
  | Some (_, l) => l
  | None =>
      match List.find (inRun c) caseRuns with
      | Some (first, _, _, upperFirst) => [(upperFirst + (c - first))%N]
      | None => [c]
      end
  end.

Definition toUpperCase (s : string) : string :=
  utf8_encode (flat_map upperCodes (utf8_decode s)).

(** [String.prototype.trim] strips the white space and the line
    terminators of ECMAScript from both ends: tab, line feed, vertical tab,
    form feed, carriage return, space, no-break space, the byte order mark,
    the line and the paragraph separator, and the other space separators of
    Unicode. *)
Definition isWhiteSpace (c : N) : bool :=
  ((9 <=? c) && (c <=? 13) || (c =? 32) || (c =? 160) || (c =? 5760)
   || (8192 <=? c) && (c <=? 8202) || (c =? 8232) || (c =? 8233)
   || (c =? 8239) || (c =? 8287) || (c =? 12288) || (c =? 65279))%N.

Fixpoint trimStart (l : list N) : list N :=
  match l with
  | [] => []
  | c :: rest => if isWhiteSpace c then trimStart rest else l
  end.

Fixpoint trimEnd (l : list N) : list N :=
  match l with
  | [] => []
  | c :: rest =>
      match trimEnd rest with
      | [] => if isWhiteSpace c then [] else [c]
      | t => c :: t
      end
  end.

Definition trim (s : string) : string :=
  utf8_encode (trimEnd (trimStart (utf8_decode s))).

(** ** Numbers as text *)

Module Number.

(** [Number::toString] of ECMAScript for radix 10.  A finite number other
    than zero is [m * 2^e]; its text is made of the shortest run of decimal
    digits [s] and the exponent [n] for which [s * 10^(n - k)], [k] the
    number of digits, still rounds to the number, the closest to it when
    there are several. *)
Section Shortest.

Open Scope Z_scope.

(** The number is [m * 2^e] with [0 < m]. *)
Context (m e : Z).

(** Everything is counted in units of [2^(e - 2)]: the number is [4 * m]
    units, the next number up is 4 units away, the next one down 4 units or,
    below a power of two, 2 units.  [den] is the denominator of a unit and
    [grain] its numerator. *)
Definition grain : Z := 2 ^ Z.max (e - 2) 0.
Definition den : Z := 2 ^ Z.max (2 - e) 0.

Definition value : Z := 4 * m * grain.
Definition upper : Z := (4 * m + 2) * grain.
Definition lower : Z :=
  (4 * m - (if (m =? 2 ^ 52) && (-1074 <? e) then 1 else 2)) * grain.

(** Whether the bounds themselves round to the number: ties go to the
    even significand. *)
Definition inclusive : bool := Z.even m.

(** [10^n <= m * 2^e] *)
Definition atLeastPow10 (n : Z) : bool :=
  if 0 <=? n then 10 ^ n * den <=? value else den <=? value * 10 ^ (- n).

Fixpoint raise (fuel : nat) (n : Z) : Z :=
  match fuel with
  | O => n
  | S fuel' => if atLeastPow10 n then raise fuel' (n + 1) else n
  end.

Fixpoint descend (fuel : nat) (n : Z) : Z :=
  match fuel with
  | O => n
  | S fuel' => if atLeastPow10 (n - 1) then n else descend fuel' (n - 1)
  end.

(** The [n] with [10^(n - 1) <= m * 2^e < 10^n], found from the binary
    logarithm. *)
Definition decimalExponent : Z :=
  let guess := (Z.log2 value - Z.log2 den) * 1233 / 4096 in
  descend 4 (raise 4 guess).

(** [s * 10^p] against the bounds, both sides cleared of denominators. *)
Definition scaled (p x : Z) : Z := x * 10 ^ Z.max (- p) 0.
Definition candidate (p s : Z) : Z := s * den * 10 ^ Z.max p 0.

Definition rounds (p s : Z) : bool :=
  if inclusive
  then (scaled p lower <=? candidate p s) && (candidate p s <=? scaled p upper)
  else (scaled p lower <? candidate p s) && (candidate p s <? scaled p upper).

Definition distance (p s : Z) : Z := Z.abs (candidate p s - scaled p value).

(** The digits of length [k], if any run of that length rounds to the
    number. *)
Definition digitsOfLength (n k : Z) : option Z :=
  let p := n - k in
  let below := scaled p value / (den * 10 ^ Z.max p 0) in
  let above := below + 1 in
  match rounds p below, rounds p above with
  | true, true =>
      match distance p below ?= distance p above with
      | Lt => Some below
      | Gt => Some above
      | Eq => Some (if Z.even below then below else above)
      end
  | true, false => Some below
  | false, true => Some above
  | false, false => None
  end.

Fixpoint shortestFrom (fuel : nat) (n k : Z) : Z * Z :=
  match fuel with
  | O => (scaled (n - k) value / (den * 10 ^ Z.max (n - k) 0), k)
  | S fuel' =>
      match digitsOfLength n k with
      | Some s => (s, k)
      | None => shortestFrom fuel' n (k + 1)
      end
  end.

(** The digits [s], their number [k] and the exponent [n]. *)
Definition shortest : Z * Z * Z :=
  let n := decimalExponent in
  let '(s, k) := shortestFrom 17 n 1 in
  if s =? 10 ^ k then (1, 1, n + 1) else (s, k, n).

End Shortest.

Fixpoint zeros (n : nat) : string :=
  match n with
  | O => ""
  | S n' => String "0" (zeros n')
  end.

(** The notation of a number with digits [s], [k] of them, and exponent
    [n]: plain digits, a decimal point, or the exponent form. *)
Definition notation (s k n : Z) : string :=
  let digits := pretty (Z.to_N s) in
  if ((k <=? n) && (n <=? 21))%Z
  then digits +:+ zeros (Z.to_nat (n - k))
  else if ((0 <? n) && (n <=? 21))%Z
  then substring 0 (Z.to_nat n) digits +:+ "."
       +:+ substring (Z.to_nat n) (Z.to_nat (k - n)) digits
  else if ((-6 <? n) && (n <=? 0))%Z
  then "0." +:+ zeros (Z.to_nat (- n)) +:+ digits
  else
    let exponent := (if (0 <? n - 1)%Z then "+" else "-")
                    +:+ pretty (Z.to_N (Z.abs (n - 1))) in
    if (k =? 1)%Z
    then digits +:+ "e" +:+ exponent
    else substring 0 1 digits +:+ "." +:+ substring 1 (Z.to_nat (k - 1)) digits
         +:+ "e" +:+ exponent.

Definition toString (x : float) : string :=
  match FloatOps.Prim2SF x with
  | SpecFloat.S754_nan => "NaN"
  | SpecFloat.S754_zero _ => "0"
  | SpecFloat.S754_infinity false => "Infinity"
  | SpecFloat.S754_infinity true => "-Infinity"
  | SpecFloat.S754_finite negative m e =>
      let '(s, k, n) := shortest (Zpos m) e in
      (if negative then "-" else "") +:+ notation s k n
  end.

End Number.

(** ** JavaScript values *)

(** Values as [JSON.parse] and [response.json()] produce them, plus
    [undefined].  The fields of an object are its own properties; a lookup
    takes the first binding of a key. *)
#[local] Set Warnings "-register-all".

Inductive JsValue : Type :=
| VUndefined
| VNull
| VBool (b : bool)
| VNum (n : float)
| VStr (s : string)
| VArr (items : list JsValue)
| VObj (fields : list (string * JsValue)).

(** A thrown Error: [error.name], [error.message], [error.response?.data]. *)
Record JsError : Type := mkError {
  err_name : string;
  err_message : string;
  err_response_data : JsValue
}.

Definition Error (msg : string) : JsError := mkError "Error" msg VUndefined.
Definition TypeError (msg : string) : JsError := mkError "TypeError" msg VUndefined.
Definition SyntaxError (msg : string) : JsError := mkError "SyntaxError" msg VUndefined.

(** How an expression or a call completes. *)
Inductive Completion (A : Type) : Type :=
| Normal (a : A)
| Throw (e : JsError).
Arguments Normal {A} a.
Arguments Throw {A} e.

(** Truthiness, as [!x], [x && y], [x || y] and [if (x)] test it. *)
Definition truthy (v : JsValue) : bool :=
  match v with
  | VUndefined | VNull => false
  | VBool b => b
  | VNum n => negb (is_zero n || is_nan n)
  | VStr s => negb (s =? "")
  | VArr _ | VObj _ => true
  end.

Definition nullish (v : JsValue) : bool :=
  match v with
  | VUndefined | VNull => true
  | _ => false
  end.

Fixpoint assoc (k : string) (fields : list (string * JsValue)) : option JsValue :=
  match fields with
  | [] => None
  | (k', v) :: rest => if k' =? k then Some v else assoc k rest
  end.

(** [v.k] for the property names the source reads (none of them is a
    property of a prototype): undefined unless [v] is an object that owns
    [k]; a TypeError on null and undefined. *)
Definition getProp (v : JsValue) (k : string) : Completion JsValue :=
  match v with
  | VUndefined | VNull =>
      Throw (TypeError ("Cannot read properties of null or undefined, reading " +:+ k))
  | VObj fields => Normal (default VUndefined (assoc k fields))
  | _ => Normal VUndefined
  end.

(** [v?.k] *)
Definition getPropOpt (v : JsValue) (k : string) : JsValue :=
  match v with
  | VObj fields => default VUndefined (assoc k fields)
  | _ => VUndefined
  end.

(** [a || b] on values. *)
Definition jsOr (a b : JsValue) : JsValue := if truthy a then a else b.

Definition hasOwn (k : string) (fields : list (string * JsValue)) : bool :=
  match assoc k fields with Some _ => true | None => false end.

(** [String(v)], which is also the conversion of a template literal
    [`${v}`], of [s + v] and of a value stored with [setItem].  A number
    prints as [Number.toString] has it.  An array joins
    its elements with commas, null and undefined elements being empty.  An
    object without a [toString] of its own prints as [[object Object]]; with
    one (which is never callable in a parsed document) neither [toString] nor
    the inherited [valueOf] yields a primitive and the conversion throws. *)
Fixpoint toStringJs (v : JsValue) : Completion string :=
  match v with
  | VUndefined => Normal "undefined"
  | VNull => Normal "null"
  | VBool true => Normal "true"
  | VBool false => Normal "false"
  | VNum n => Normal (Number.toString n)
  | VStr s => Normal s
  | VArr items =>
      (fix join (l : list JsValue) : Completion string :=
         match l with
         | [] => Normal ""
         | x :: rest =>
             match (if nullish x then Normal "" else toStringJs x) with
             | Throw e => Throw e
             | Normal sx =>
                 match rest with
                 | [] => Normal sx
                 | _ :: _ =>
                     match join rest with
                     | Throw e => Throw e
                     | Normal sr => Normal (sx +:+ "," +:+ sr)
                     end
                 end
             end
         end) items
  | VObj fields =>
      if hasOwn "toString" fields
      then Throw (TypeError "Cannot convert object to primitive value")
      else Normal "[object Object]"
  end.

(** A string read from storage, a state variable or a route parameter,
    tested for truthiness: absent and empty are falsy. *)
Definition truthyText (o : option string) : bool :=
  match o with
  | Some s => negb (s =? "")
  | None => false
  end.

(** ** The outside world and the state of the page *)

(** A reply to [fetch]: the promise rejects (a network failure), or it
    resolves to a response with a status code (an unsigned 16-bit number,
    which prints in plain digits), a status text and a body that
    [response.json()] parses ([None]: the body is not JSON). *)
Inductive FetchReply : Type :=
| FetchReject (e : JsError)
| FetchResponse (status : N) (statusText : string) (body : option JsValue).

(** Calls of the service modules and HTTP clients the file imports. *)
Inductive ServiceCall : Type :=
| CLogin (username password : string)
| CAxiosPost (url : string) (body : JsValue)
| CApiPut (url : string) (body : JsValue)
| CSubmitSurvey (surveyId selectedOptionIds : JsValue).

(** The effects a handler has on the outside world, in the order issued. *)
Inductive Event : Type :=
| EFetch (method url : string) (bearer : option string) (body : option string)
| ECall (c : ServiceCall)
| ELocalSet (k v : string)
| ELocalRemove (k : string)
| ESessionSet (k v : string)
| ESessionRemove (k : string)
| ESuccessAlert (msg : string)
| EErrorAlert (msg : string)
| EStopScreenShare
| ELeave
| ETrackStop (track : nat)
| ENavigate (path : string)
| ERedirect (href : string)
| EPreventDefault.

Inductive ConsoleLine : Type :=
| ConsoleLog (msg : string)
| ConsoleWarn (msg : string)
| ConsoleError (msg : string).

(** Callbacks handed to [setTimeout]. *)
Inductive Timer : Type :=
| TOpenStartDialog (delay : nat).

(** What the file takes from its surroundings: configuration, the route,
    built-ins, the imported [getUserData], and the replies of the network, of
    the services and of [crypto.randomUUID], each indexed by the number of
    earlier requests of its kind. *)
Record Env : Type := mkEnv {
  API_URL : string;
  appointmentId : option string;
  returnUrl : option string;
  JSON_parse : string -> option JsValue;
  JSON_stringify : JsValue -> string;
  getUserData : gmap string string -> Completion JsValue;
  fetchReply : nat -> FetchReply;
  serviceReply : nat -> Completion JsValue;
  randomUUID : nat -> string
}.

(** State of the [Login] component. *)
Record LoginState : Type := mkLoginState {
  username : string;
  password : string;
  showPassword : bool;
  isLoading : bool;
  errors : list (string * string)
}.

(** The handle [useMeeting()] returns and [MeetingWrapper] stores in
    [meetingRef.current]; its [leave] and [stopScreenShare] are functions. *)
Record Meeting : Type := mkMeeting {
  localScreenShareOn : bool
}.

(** State of the [VideoMeeting] component; a media stream is the list of
    its tracks. *)
Record MeetingState : Type := mkMeetingState {
  meetingId : string;
  participantName : string;
  isMeetingStarted : bool;
  loading : bool;
  error : string;
  isConsultant : bool;
  openStartDialog : bool;
  openEndDialog : bool;
  consultantNote : string;
  customAudioStream : option (list nat);
  customVideoStream : option (list nat);
  meetingRef : option Meeting
}.

Record World : Type := mkWorld {
  localStorage : gmap string string;
  sessionStorage : gmap string string;
  fetches : nat;
  calls : nat;
  uuids : nat;
  timers : list Timer;
  trace : list Event;
  console : list ConsoleLine;
  form : LoginState;
  ui : MeetingState
}.

(** ** The monad of handlers *)

Definition M (A : Type) : Type := World -> Completion A * World.

#[global] Instance M_ret : MRet M := fun A a w => (Normal a, w).

#[global] Instance M_bind : MBind M := fun A B f m w =>
  match m w with
  | (Normal a, w') => f a w'
  | (Throw e, w') => (Throw e, w')
  end.

Definition throw {A : Type} (e : JsError) : M A := fun w => (Throw e, w).

(** [try { body } catch (e) { handler }] *)
Definition tryCatch {A : Type} (body : M A) (handler : JsError -> M A) : M A :=
  fun w =>
    match body w with
    | (Normal a, w') => (Normal a, w')
    | (Throw e, w') => handler e w'
    end.

(** [try { body } finally { fin }] *)
Definition tryFinally {A : Type} (body : M A) (fin : M unit) : M A :=
  fun w =>
    match body w with
    | (c, w') =>
        match fin w' with
        | (Normal _, w'') => (c, w'')
        | (Throw e, w'') => (Throw e, w'')
        end
    end.

(** An expression that may throw, evaluated inside a handler. *)
Definition eval {A : Type} (c : Completion A) : M A := fun w => (c, w).

Definition gets {A : Type} (f : World -> A) : M A := fun w => (Normal (f w), w).

Definition modify (f : World -> World) : M unit := fun w => (Normal tt, f w).

Definition withLocalStorage (f : gmap string string -> gmap string string) (w : World) : World :=
  match w with
  | mkWorld ls ss nf nc nu ts t c fo u => mkWorld (f ls) ss nf nc nu ts t c fo u
  end.

Definition withSessionStorage (f : gmap string string -> gmap string string) (w : World) : World :=
  match w with
  | mkWorld ls ss nf nc nu ts t c fo u => mkWorld ls (f ss) nf nc nu ts t c fo u
  end.

Definition withFetches (n : nat) (w : World) : World :=
  match w with
  | mkWorld ls ss nf nc nu ts t c fo u => mkWorld ls ss n nc nu ts t c fo u
  end.

Definition withCalls (n : nat) (w : World) : World :=
  match w with
  | mkWorld ls ss nf nc nu ts t c fo u => mkWorld ls ss nf n nu ts t c fo u
  end.

Definition withUuids (n : nat) (w : World) : World :=
  match w with
  | mkWorld ls ss nf nc nu ts t c fo u => mkWorld ls ss nf nc n ts t c fo u
  end.

Definition withTimers (ts' : list Timer) (w : World) : World :=
  match w with
  | mkWorld ls ss nf nc nu ts t c fo u => mkWorld ls ss nf nc nu ts' t c fo u
  end.

Definition withTrace (t' : list Event) (w : World) : World :=
  match w with
  | mkWorld ls ss nf nc nu ts t c fo u => mkWorld ls ss nf nc nu ts t' c fo u
  end.

Definition withConsole (c' : list ConsoleLine) (w : World) : World :=
  match w with
  | mkWorld ls ss nf nc nu ts t c fo u => mkWorld ls ss nf nc nu ts t c' fo u
  end.

Definition withForm (f : LoginState -> LoginState) (w : World) : World :=
  match w with
  | mkWorld ls ss nf nc nu ts t c fo u => mkWorld ls ss nf nc nu ts t c (f fo) u
  end.

Definition withUi (f : MeetingState -> MeetingState) (w : World) : World :=
  match w with
  | mkWorld ls ss nf nc nu ts t c fo u => mkWorld ls ss nf nc nu ts t c fo (f u)
  end.

Definition emit (e : Event) : M unit := modify (fun w => withTrace (e :: trace w) w).

Definition console_log (msg : string) : M unit :=
  modify (fun w => withConsole (ConsoleLog msg :: console w) w).
Definition console_warn (msg : string) : M unit :=
  modify (fun w => withConsole (ConsoleWarn msg :: console w) w).
Definition console_error (msg : string) : M unit :=
  modify (fun w => withConsole (ConsoleError msg :: console w) w).

(** [localStorage] and [sessionStorage]; [setItem] converts its value to a
    string. *)
Definition localStorage_getItem (k : string) : M (option string) :=
  gets (fun w => localStorage w !! k).

Definition localStorage_setItem (k : string) (v : JsValue) : M unit :=
  s ← eval (toStringJs v);
  modify (withLocalStorage (insert k s));;
  emit (ELocalSet k s).

Definition localStorage_removeItem (k : string) : M unit :=
  modify (withLocalStorage (delete k));;
  emit (ELocalRemove k).

Definition sessionStorage_getItem (k : string) : M (option string) :=
  gets (fun w => sessionStorage w !! k).

Definition sessionStorage_setItem (k : string) (v : JsValue) : M unit :=
  s ← eval (toStringJs v);
  modify (withSessionStorage (insert k s));;
  emit (ESessionSet k s).

Definition sessionStorage_removeItem (k : string) : M unit :=
  modify (withSessionStorage (delete k));;
  emit (ESessionRemove k).

Definition showSuccessAlert (msg : string) : M unit := emit (ESuccessAlert msg).
Definition showErrorAlert (msg : string) : M unit := emit (EErrorAlert msg).
Definition navigate (path : string) : M unit := emit (ENavigate path).
Definition setTimeout (t : Timer) : M unit :=
  modify (fun w => withTimers (timers w ++ [t]) w).

(** A response as [fetch] resolves it. *)
Record Response : Type := mkResponse {
  resp_status : N;
  resp_statusText : string;
  resp_body : option JsValue
}.

(** [response.ok] *)
Definition resp_ok (r : Response) : bool :=
  (200 <=? resp_status r)%N && (resp_status r <=? 299)%N.

(** [await response.json()] *)
Definition resp_json (r : Response) : M JsValue :=
  eval (match resp_body r with
        | Some v => Normal v
        | None => Throw (SyntaxError "Unexpected token in JSON")
        end).

(** [v === 'literal'] *)
Definition strictEqStr (v : JsValue) (s : string) : bool :=
  match v with
  | VStr t => t =? s
  | _ => false
  end.

(** A route parameter inside a template literal. *)
Definition paramText (o : option string) : string := default "undefined" o.

(** [{ status: "UNKNOWN" }] *)
Definition unknownStatus : JsValue := VObj [("status", VStr "UNKNOWN")].

(** State setters of [VideoMeeting]. *)
Definition setLoading (b : bool) : M unit :=
  modify (withUi (fun u =>
    match u with
    | mkMeetingState mid name started _ err consultant osd oed note audio video ref =>
        mkMeetingState mid name started b err consultant osd oed note audio video ref
    end)).

Definition setError (s : string) : M unit :=
  modify (withUi (fun u =>
    match u with
    | mkMeetingState mid name started busy _ consultant osd oed note audio video ref =>
        mkMeetingState mid name started busy s consultant osd oed note audio video ref
    end)).

Definition setIsMeetingStarted (b : bool) : M unit :=
  modify (withUi (fun u =>
    match u with
    | mkMeetingState mid name _ busy err consultant osd oed note audio video ref =>
        mkMeetingState mid name b busy err consultant osd oed note audio video ref
    end)).

Definition setOpenStartDialog (b : bool) : M unit :=
  modify (withUi (fun u =>
    match u with
    | mkMeetingState mid name started busy err consultant _ oed note audio video ref =>
        mkMeetingState mid name started busy err consultant b oed note audio video ref
    end)).

Definition setOpenEndDialog (b : bool) : M unit :=
  modify (withUi (fun u =>
    match u with
    | mkMeetingState mid name started busy err consultant osd _ note audio video ref =>
        mkMeetingState mid name started busy err consultant osd b note audio video ref
    end)).

Definition setConsultantNote (s : string) : M unit :=
  modify (withUi (fun u =>
    match u with
    | mkMeetingState mid name started busy err consultant osd oed _ audio video ref =>
        mkMeetingState mid name started busy err consultant osd oed s audio video ref
    end)).

(** [meetingRef.current = m] *)
Definition setMeetingRef (m : option Meeting) : M unit :=
  modify (withUi (fun u =>
    match u with
    | mkMeetingState mid name started busy err consultant osd oed note audio video _ =>
        mkMeetingState mid name started busy err consultant osd oed note audio video m
    end)).

(** State setters of [Login]. *)
Definition setIsLoading (b : bool) : M unit :=
  modify (withForm (fun f =>
    match f with
    | mkLoginState u p sp _ errs => mkLoginState u p sp b errs
    end)).

Definition setErrors (e : list (string * string)) : M unit :=
  modify (withForm (fun f =>
    match f with
    | mkLoginState u p sp busy _ => mkLoginState u p sp busy e
    end)).

(** The callback of a timer, and the run of every pending timer. *)
Definition runTimer (t : Timer) : M unit :=
  match t with
  | TOpenStartDialog _ => setOpenStartDialog true
  end.

Fixpoint runTimers (ts : list Timer) : M unit :=
  match ts with
  | [] => mret tt
  | t :: rest => runTimer t;; runTimers rest
  end.

Definition flushTimers : M unit :=
  ts ← gets timers;
  modify (withTimers []);;
  runTimers ts.

(** [stream.getTracks().forEach(track => track.stop())] under its
    [if (stream)] guard. *)
Fixpoint stopAll (tracks : list nat) : M unit :=
  match tracks with
  | [] => mret tt
  | t :: rest => emit (ETrackStop t);; stopAll rest
  end.

Definition stopTracks (stream : option (list nat)) : M unit :=
  match stream with
  | Some tracks => stopAll tracks
  | None => mret tt
  end.

Section Handlers.

Context (env : Env).

(** [fetch(url, { method, headers, body })]: the request is recorded and
    answered by the next reply of the network. *)
Definition fetch (method url : string) (bearer : option string)
    (body : option string) : M Response :=
  fun w =>
    let w' := withTrace (EFetch method url bearer body :: trace w)
                (withFetches (S (fetches w)) w) in
    match fetchReply env (fetches w) with
    | FetchReject e => (Throw e, w')
    | FetchResponse st txt b => (Normal (mkResponse st txt b), w')
    end.

(** A call of an imported service or HTTP client: it resolves to the data
    of the reply or rejects with its error. *)
Definition callService (c : ServiceCall) : M JsValue :=
  fun w =>
    (serviceReply env (calls w),
     withTrace (ECall c :: trace w) (withCalls (S (calls w)) w)).

Definition apiService_put (url : string) (body : JsValue) : M JsValue :=
  callService (CApiPut url body).

Definition crypto_randomUUID : M string :=
  fun w => (Normal (randomUUID env (uuids w)), withUuids (S (uuids w)) w).

(** [JSON.parse(s)] *)
Definition parseJson (s : string) : M JsValue :=
  eval (match JSON_parse env s with
        | Some v => Normal v
        | None => Throw (SyntaxError "Unexpected token in JSON")
        end).

(** [const userData = getUserData(); if (!userData || !userData.id) throw ...] *)
Definition requireUserData : M JsValue :=
  userData ← (fun w => (getUserData env (localStorage w), w));
  missing ← (if negb (truthy userData) then mret true
             else id ← eval (getProp userData "id"); mret (negb (truthy id)));
  if (missing : bool)
  then throw (Error "Không tìm thấy thông tin người dùng")
  else mret userData.

(** ** Status read of the appointment *)

Definition refreshAccessToken : M JsValue :=
  tryCatch
    (refreshToken ← localStorage_getItem "refreshToken";
     match refreshToken with
     | Some rt =>
         if rt =? "" then throw (Error "No refresh token available")
         else
           console_log "Attempting to refresh access token";;
           response ← fetch "POST" (API_URL env +:+ "/auth/refresh-token") None
                        (Some (JSON_stringify env (VObj [("refreshToken", VStr rt)])));
           if negb (resp_ok response)
           then throw (Error ("Failed to refresh token: " +:+ pretty (resp_status response)))
           else
             data ← resp_json response;
             accessToken ← (if truthy data then eval (getProp data "accessToken")
                            else mret VUndefined);
             if truthy data && truthy accessToken
             then
               console_log "Successfully refreshed access token";;
               localStorage_setItem "accessToken" accessToken;;
               mret accessToken
             else throw (Error "Invalid response from refresh token API")
     | None => throw (Error "No refresh token available")
     end)
    (fun error =>
       console_error "Error refreshing token:";;
       throw error).

(** The body of [fetchAppointmentWithTokenRefresh], with the function it
    calls for the retry as [self]. *)
Definition fetchAppointmentBody (self : bool -> M JsValue) (isRetry : bool) : M JsValue :=
  accessToken ← localStorage_getItem "accessToken";
  match accessToken with
  | Some token =>
      if token =? ""
      then console_error "No access token available";; mret unknownStatus
      else
        console_log "Making API call to check appointment status";;
        tryCatch
          (response ← fetch "GET"
                        (API_URL env +:+ "/appointments/" +:+ paramText (appointmentId env))
                        (Some token) None;
           console_log "API response status:";;
           if (resp_status response =? 401)%N && negb isRetry
           then
             console_log "Unauthorized error. Attempting to refresh token and retry...";;
             tryCatch
               (refreshAccessToken;;
                self true)
               (fun refreshError =>
                  console_error "Failed to refresh token:";;
                  mret unknownStatus)
           else if negb (resp_ok response)
           then
             console_error ("API error: " +:+ pretty (resp_status response) +:+ " "
                            +:+ resp_statusText response);;
             mret unknownStatus
           else
             data ← resp_json response;
             console_log "Full appointment data:";;
             status ← (if truthy data then eval (getProp data "status")
                       else mret VUndefined);
             if negb (truthy data) || negb (truthy status)
             then console_warn "Invalid data format from API";; mret unknownStatus
             else console_log "Appointment status from API:";; mret data)
          (fun error =>
             console_error "Error in fetchAppointmentWithTokenRefresh:";;
             mret unknownStatus)
  | None => console_error "No access token available";; mret unknownStatus
  end.

(** The retry ([isRetry = true]) never reaches the recursive call, so two
    unfoldings of the body tie the recursion; [fetchAppointment_unfold]
    below shows that the result satisfies the recursive equation of the
    source. *)
Definition fetchAppointmentRetry : M JsValue :=
  fetchAppointmentBody (fun _ => throw (Error "unreachable")) true.

Definition fetchAppointmentWithTokenRefresh (isRetry : bool) : M JsValue :=
  fetchAppointmentBody (fun _ => fetchAppointmentRetry) isRetry.

Definition checkAppointmentStatus : M JsValue :=
  tryCatch
    (requireUserData;;
     console_log "Checking appointment status for ID:";;
     fetchAppointmentWithTokenRefresh false)
    (fun error =>
       console_error "Error checking appointment status:";;
       mret unknownStatus).

(** ** Consultation meeting flow *)

(** [error.response?.data?.message || error.response?.data?.error ||
     error.message || 'Lỗi không xác định'] *)
Definition errorMessageOf (error : JsError) : JsValue :=
  jsOr (jsOr (jsOr (getPropOpt (err_response_data error) "message")
                   (getPropOpt (err_response_data error) "error"))
             (VStr (err_message error)))
       (VStr "Lỗi không xác định").

(** [handleOnMeetingLeave] as the render whose state is [seen] has created
    it: the two streams are the ones of that render, while [meetingRef] is a
    reference and is read as it is when the handler runs. *)
Definition handleOnMeetingLeaveOf (seen : MeetingState) : M unit :=
  ref ← gets (fun w => meetingRef (ui w));
  match ref with
  | Some _ => emit ELeave
  | None => mret tt
  end;;
  stopTracks (customAudioStream seen);;
  stopTracks (customVideoStream seen);;
  setMeetingRef None;;
  setIsMeetingStarted false;;
  navigate "/".

(** The handler of the current render, which [handleEndMeeting] and
    [handleConfirmEndMeeting] call. *)
Definition handleOnMeetingLeave : M unit :=
  seen ← gets ui;
  handleOnMeetingLeaveOf seen.

(** The cleanup the unmount effect returns. *)
Definition unmountCleanup : M unit :=
  ref ← gets (fun w => meetingRef (ui w));
  match ref with
  | Some meeting =>
      console_log "Unmounting VideoMeeting component - cleaning up meeting session";;
      tryCatch
        ((if localScreenShareOn meeting then emit EStopScreenShare else mret tt);;
         emit ELeave)
        (fun err => console_error "Error leaving meeting on unmount:")
  | None => mret tt
  end;;
  audio ← gets (fun w => customAudioStream (ui w));
  stopTracks audio;;
  video ← gets (fun w => customVideoStream (ui w));
  stopTracks video.

Definition onClickStartMeeting : M unit :=
  name ← gets (fun w => participantName (ui w));
  if trim name =? ""
  then setError "Vui lòng nhập tên của bạn"
  else
    tryCatch
      (setLoading true;;
       consultant ← gets (fun w => isConsultant (ui w));
       if (consultant : bool)
       then
         tryCatch
           (appointmentData ← checkAppointmentStatus;
            status ← eval (getProp appointmentData "status");
            console_log "Current appointment status:";;
            console_log "Status comparison:";;
            text ← eval (toStringJs status);
            let appointmentStatus := toUpperCase text in
            let confirmedStatus := "CONFIRMED" in
            console_log "Normalized status:";;
            console_log "Is exactly CONFIRMED:";;
            if appointmentStatus =? confirmedStatus
            then
              console_log "Should show start dialog now";;
              setLoading false;;
              setTimeout (TOpenStartDialog 100)
            else
              console_log ("Joining meeting directly as status is " +:+ text);;
              setIsMeetingStarted true;;
              setError "";;
              setLoading false)
           (fun statusError =>
              console_error "Failed to check appointment status:";;
              setLoading false;;
              setTimeout (TOpenStartDialog 100))
       else
         mid ← gets (fun w => meetingId (ui w));
         console_log ("Joining meeting " +:+ mid +:+ " as " +:+ name);;
         setIsMeetingStarted true;;
         setError "";;
         setLoading false)
      (fun error =>
         console_error "Error joining meeting:";;
         setError "Không thể tham gia cuộc họp";;
         setLoading false).

Definition handleConfirmStartMeeting : M unit :=
  tryCatch
    (setLoading true;;
     setOpenStartDialog false;;
     userData ← requireUserData;
     appointmentData ←
       tryCatch checkAppointmentStatus
         (fun statusError =>
            console_error "Failed to check appointment status:";;
            mret unknownStatus);
     status ← eval (getProp appointmentData "status");
     (if strictEqStr status "CONFIRMED"
      then
        console_log "Starting appointment with ID:";;
        console_log "Consultant ID:";;
        id ← eval (getProp userData "id");
        consultantId ← eval (toStringJs id);
        apiService_put ("/appointments/" +:+ paramText (appointmentId env)
                        +:+ "/start?consultantId=" +:+ consultantId) (VObj []);;
        showSuccessAlert "Bắt đầu buổi tư vấn thành công!"
      else if strictEqStr status "ON_GOING"
      then console_log "Appointment is already in ON_GOING status, joining directly"
      else if strictEqStr status "COMPLETED"
      then console_log "Appointment is already COMPLETED, joining directly"
      else
        text ← eval (toStringJs status);
        console_warn ("Appointment has status " +:+ text +:+ ", which might cause issues"));;
     mid ← gets (fun w => meetingId (ui w));
     name ← gets (fun w => participantName (ui w));
     console_log ("Joining meeting " +:+ mid +:+ " as " +:+ name +:+ " (consultant)");;
     setIsMeetingStarted true;;
     setError "")
    (fun error =>
       console_error "Error starting appointment:";;
       errorMessage ← eval (toStringJs (errorMessageOf error));
       showErrorAlert ("Không thể bắt đầu buổi tư vấn: " +:+ errorMessage);;
       setLoading false).

(** The promise chain [checkAppointmentStatus().then(...).catch(...)] run
    to its end. *)
Definition handleEndMeeting : M unit :=
  consultant ← gets (fun w => isConsultant (ui w));
  if (consultant : bool)
  then
    tryCatch
      (appointmentData ← checkAppointmentStatus;
       status ← eval (getProp appointmentData "status");
       if strictEqStr status "ON_GOING"
       then setOpenEndDialog true
       else handleOnMeetingLeave)
      (fun error =>
         console_error "Error checking status before ending:";;
         setOpenEndDialog true)
  else handleOnMeetingLeave.

Definition handleConfirmEndMeeting : M unit :=
  tryCatch
    (setOpenEndDialog false;;
     userData ← requireUserData;
     appointmentData ←
       tryCatch checkAppointmentStatus
         (fun statusError =>
            console_error "Failed to check appointment status:";;
            mret unknownStatus);
     status ← eval (getProp appointmentData "status");
     (if strictEqStr status "ON_GOING"
      then
        console_log "Ending appointment with ID:";;
        console_log "Consultant ID:";;
        console_log "With consultant note:";;
        id ← eval (getProp userData "id");
        consultantId ← eval (toStringJs id);
        note ← gets (fun w => consultantNote (ui w));
        apiService_put ("/appointments/" +:+ paramText (appointmentId env)
                        +:+ "/end?consultantId=" +:+ consultantId)
                       (VObj [("consultantNote", VStr note)]);;
        showSuccessAlert "Hoàn thành buổi tư vấn thành công!"
      else mret tt);;
     ref ← gets (fun w => meetingRef (ui w));
     match ref with
     | Some _ => emit ELeave
     | None => mret tt
     end;;
     handleOnMeetingLeave)
    (fun error =>
       console_error "Error ending appointment:";;
       errorMessage ← eval (toStringJs (errorMessageOf error));
       showErrorAlert ("Không thể kết thúc buổi tư vấn: " +:+ errorMessage)).

Definition getParticipantId : M (option string) :=
  userProfile ← localStorage_getItem "userProfile";
  userId ←
    (if truthyText userProfile
     then
       tryCatch
         (profile ← parseJson (default "" userProfile);
          id ← eval (getProp profile "id");
          if truthy id then mret id
          else
            userId ← eval (getProp profile "userId");
            if truthy userId then mret userId
            else eval (getProp profile "email"))
         (fun e =>
            console_error "Error parsing user profile";;
            mret VUndefined)
     else mret VUndefined);
  if truthy userId
  then
    text ← eval (toStringJs userId);
    mid ← gets (fun w => meetingId (ui w));
    let participantId := "user-" +:+ text +:+ "-meeting-" +:+ mid in
    console_log "Generated participant ID:";;
    mret (Some participantId)
  else
    stored ← sessionStorage_getItem "tempParticipantId";
    (if negb (truthyText stored)
     then
       uuid ← crypto_randomUUID;
       sessionStorage_setItem "tempParticipantId" (VStr uuid)
     else mret tt);;
    tempId ← sessionStorage_getItem "tempParticipantId";
    console_log "Using temporary participant ID:";;
    mret tempId.

(** The handler the meeting container receives as [onMeetingLeave]; the
    promise chain is run to its end.  [useCallback] keeps this handler from
    the render that created it, whose state is [seen]: its [isConsultant] and
    its [handleOnMeetingLeave] are the ones of that render. *)
Definition handleShowEndDialog (seen : MeetingState) : M unit :=
  if isConsultant seen
  then
    setConsultantNote "";;
    setOpenEndDialog true;;
    tryCatch
      (appointmentData ← checkAppointmentStatus;
       status ← eval (getProp appointmentData "status");
       if negb (strictEqStr status "ON_GOING")
       then
         setOpenEndDialog false;;
         handleOnMeetingLeaveOf seen
       else mret tt)
      (fun error =>
         console_error "Error checking status before ending:";;
         showErrorAlert ("Không thể kiểm tra trạng thái cuộc hẹn: "
                         +:+ (if err_message error =? "" then "Lỗi không xác định"
                              else err_message error)))
  else handleOnMeetingLeaveOf seen.

(** The [Hủy] buttons and [onClose] of the two dialogs. *)
Definition cancelStartDialog : M unit := setOpenStartDialog false.
Definition cancelEndDialog : M unit := setOpenEndDialog false.

(** ** Session entry flow *)

(** [{ success: true, message: ... }] and [{ success: false, message: ... }] *)
Definition surveySuccessRecord : JsValue :=
  VObj [("success", VBool true); ("message", VStr "Lưu khảo sát thành công")].

Definition surveyFailureRecord : JsValue :=
  VObj [("success", VBool false); ("message", VStr "Có lỗi xảy ra khi lưu khảo sát")].

Definition handlePendingSurveySubmission : M bool :=
  tryCatch
    (storedData ← localStorage_getItem "pendingSurveySubmission";
     if negb (truthyText storedData) then mret false
     else
       surveyData ← parseJson (default "" storedData);
       surveyId ← eval (getProp surveyData "surveyId");
       selectedOptionIds ← eval (getProp surveyData "selectedOptionIds");
       if negb (truthy surveyId) || negb (truthy selectedOptionIds)
       then throw (Error "Dữ liệu khảo sát không đầy đủ")
       else
         callService (CSubmitSurvey surveyId selectedOptionIds);;
         localStorage_removeItem "pendingSurveySubmission";;
         localStorage_setItem "surveySubmissionResult"
           (VStr (JSON_stringify env surveySuccessRecord));;
         mret true)
    (fun error =>
       console_error "Lỗi khi gửi dữ liệu khảo sát:";;
       localStorage_setItem "surveySubmissionResult"
         (VStr (JSON_stringify env surveyFailureRecord));;
       localStorage_removeItem "pendingSurveySubmission";;
       mret false).

(** The redirect both login paths end with. *)
Definition redirectAfterLoginSuccess : M unit :=
  redirectAfterLogin ← sessionStorage_getItem "redirectAfterLogin";
  if truthyText redirectAfterLogin
  then
    sessionStorage_removeItem "redirectAfterLogin";;
    emit (ERedirect (default "" redirectAfterLogin))
  else if truthyText (returnUrl env)
  then emit (ERedirect (default "" (returnUrl env)))
  else emit (ERedirect "/").

Definition handleGoogleLoginResponse (response : JsValue) : M unit :=
  setIsLoading true;;
  tryFinally
    (tryCatch
       (credential ← eval (getProp response "credential");
        data ← callService (CAxiosPost (API_URL env +:+ "/auth/google-login")
                              (VObj [("credential", credential)]));
        accessToken ← eval (getProp data "accessToken");
        refreshToken ← eval (getProp data "refreshToken");
        localStorage_setItem "accessToken" accessToken;;
        localStorage_setItem "refreshToken" refreshToken;;
        localStorage_setItem "loginSuccess" (VStr "true");;
        handlePendingSurveySubmission;;
        redirectAfterLoginSuccess)
       (fun error =>
          console_error "Google login error:";;
          showErrorAlert "Đăng nhập bằng Google thất bại. Vui lòng thử lại sau."))
    (setIsLoading false).

Definition validateForm : M bool :=
  u ← gets (fun w => username (form w));
  p ← gets (fun w => password (form w));
  let newErrors :=
    app (if trim u =? "" then [("username", "Username là bắt buộc")] else [])
        (if p =? "" then [("password", "Mật khẩu là bắt buộc")] else []) in
  setErrors newErrors;;
  mret (length newErrors =? 0)%nat.

(** Modelled from the spec: [login] of [services/authService], imported by
    the component and absent from the sources at hand.  The auth service
    answers a username and a password with an access token and a refresh
    token or with a failure, and a successful login persists the two tokens. *)
Definition login (u p : string) : M JsValue :=
  data ← callService (CLogin u p);
  accessToken ← eval (getProp data "accessToken");
  refreshToken ← eval (getProp data "refreshToken");
  localStorage_setItem "accessToken" accessToken;;
  localStorage_setItem "refreshToken" refreshToken;;
  mret data.

Definition handleSubmit : M unit :=
  emit EPreventDefault;;
  valid ← validateForm;
  if negb valid then mret tt
  else
    setIsLoading true;;
    tryFinally
      (tryCatch
         (u ← gets (fun w => username (form w));
          p ← gets (fun w => password (form w));
          login u p;;
          localStorage_setItem "loginSuccess" (VStr "true");;
          handlePendingSurveySubmission;;
          redirectAfterLoginSuccess)
         (fun error =>
            console_error "Login error:";;
            if (err_name error =? "TypeError") || (err_name error =? "NetworkError")
            then showErrorAlert "Đã xảy ra lỗi khi đăng nhập. Vui lòng thử lại sau."
            else showErrorAlert "Username hoặc Mật khẩu sai!"))
      (setIsLoading false).

End Handlers.

(** * Observations *)

Open Scope list_scope.

(** The events issued between two worlds, oldest first. *)
Definition emits (w w' : World) (es : list Event) : Prop :=
  trace w' = rev es ++ trace w.

(** Traffic of a status read: requests sent with [fetch] and the store of
    a refreshed access token. *)
Definition isStatusTraffic (e : Event) : bool :=
  match e with
  | EFetch _ _ _ _ => true
  | ELocalSet k _ => k =? "accessToken"
  | _ => false
  end.

(** A call of a service or HTTP client; the start and end mutations are
    such calls. *)
Definition isServiceCall (e : Event) : bool :=
  match e with
  | ECall _ => true
  | _ => false
  end.

Definition isGet (e : Event) : bool :=
  match e with
  | EFetch m _ _ _ => m =? "GET"
  | _ => false
  end.

Definition isRefresh (e : Event) : bool :=
  match e with
  | EFetch m _ _ _ => m =? "POST"
  | _ => false
  end.

Definition isLeave (e : Event) : bool :=
  match e with
  | ELeave => true
  | _ => false
  end.

Definition isErrorAlert (e : Event) : bool :=
  match e with
  | EErrorAlert _ => true
  | _ => false
  end.

Definition count (p : Event -> bool) (es : list Event) : nat :=
  length (List.filter p es).

(** What a status read leaves untouched: everything but the stored access
    token, the request counter, the log and the console. *)
Record statusFrame (w w' : World) : Prop := mkStatusFrame {
  frame_ui : ui w' = ui w;
  frame_form : form w' = form w;
  frame_calls : calls w' = calls w;
  frame_uuids : uuids w' = uuids w;
  frame_timers : timers w' = timers w;
  frame_session : sessionStorage w' = sessionStorage w;
  frame_local : forall k, k <> "accessToken" -> localStorage w' !! k = localStorage w !! k
}.

(** The requests of a status read. *)
Definition getAppointment (env : Env) (token : string) : Event :=
  EFetch "GET" (API_URL env +:+ "/appointments/" +:+ paramText (appointmentId env))
         (Some token) None.

Definition postRefresh (env : Env) (refreshToken : string) : Event :=
  EFetch "POST" (API_URL env +:+ "/auth/refresh-token") None
         (Some (JSON_stringify env (VObj [("refreshToken", VStr refreshToken)]))).

(** The start and the end mutation. *)
Definition startMutation (env : Env) (consultantId : string) : Event :=
  ECall (CApiPut ("/appointments/" +:+ paramText (appointmentId env)
                  +:+ "/start?consultantId=" +:+ consultantId) (VObj [])).

Definition endMutation (env : Env) (consultantId note : string) : Event :=
  ECall (CApiPut ("/appointments/" +:+ paramText (appointmentId env)
                  +:+ "/end?consultantId=" +:+ consultantId)
                 (VObj [("consultantNote", VStr note)])).

(** What [handleOnMeetingLeave] issues from a given state of the page. *)
Definition leaveEvents (u : MeetingState) : list Event :=
  (match meetingRef u with Some _ => [ELeave] | None => [] end)
  ++ map ETrackStop (default [] (customAudioStream u))
  ++ map ETrackStop (default [] (customVideoStream u))
  ++ [ENavigate "/"].

(** The refresh-and-retry attempts a status read has announced on the
    console. *)
Definition isRefreshAttempt (l : ConsoleLine) : bool :=
  match l with
  | ConsoleLog msg => msg =? "Unauthorized error. Attempting to refresh token and retry..."
  | _ => false
  end.

Definition refreshAttempts (c : list ConsoleLine) : nat :=
  length (List.filter isRefreshAttempt c).

(** A reply the status read accepts: an OK response whose body carries a
    truthy status. *)
Definition acceptedReply (r : FetchReply) (d : JsValue) : Prop :=
  exists st txt,
    r = FetchResponse st txt (Some d)
    /\ ((200 <=? st)%N && (st <=? 299)%N) = true
    /\ truthy (getPropOpt d "status") = true.

(** The token a reply to the refresh request brings: the text of the
    truthy [accessToken] in the body of an OK response.  Every other reply
    makes the refresh fail. *)
Definition refreshedToken (r : FetchReply) : option string :=
  match r with
  | FetchResponse st _ (Some data) =>
      if (200 <=? st)%N && (st <=? 299)%N && truthy (getPropOpt data "accessToken")
      then match toStringJs (getPropOpt data "accessToken") with
           | Normal text => Some text
           | Throw _ => None
           end
      else None
  | _ => None
  end.

(** The extra [meetingRef.current.leave()] of [handleConfirmEndMeeting]. *)
Definition directLeave (u : MeetingState) : list Event :=
  match meetingRef u with Some _ => [ELeave] | None => [] end.

(** What a kept [handleOnMeetingLeave] issues: the leave of the reference
    as it is now, the stops of the tracks of the streams it has seen, the
    navigation. *)
Definition keptLeaveEvents (seen u : MeetingState) : list Event :=
  directLeave u
  ++ map ETrackStop (default [] (customAudioStream seen))
  ++ map ETrackStop (default [] (customVideoStream seen))
  ++ [ENavigate "/"].

(** The world [handleOnMeetingLeave] ends in. *)
Definition afterLeave (w : World) : World :=
  withTrace (rev (leaveEvents (ui w)) ++ trace w)
    (withUi (fun u =>
       match u with
       | mkMeetingState mid name _ busy err consultant osd oed note audio video _ =>
           mkMeetingState mid name false busy err consultant osd oed note audio video None
       end) w).

(** The world a kept [handleOnMeetingLeave] ends in. *)
Definition afterKeptLeave (seen : MeetingState) (w : World) : World :=
  withTrace (rev (keptLeaveEvents seen (ui w)) ++ trace w)
    (withUi (fun u =>
       match u with
       | mkMeetingState mid name _ busy err consultant osd oed note audio video _ =>
           mkMeetingState mid name false busy err consultant osd oed note audio video None
       end) w).

(** What the cleanup of the unmount effect issues from a given state of
    the page. *)
Definition unmountEvents (u : MeetingState) : list Event :=
  (match meetingRef u with
   | Some meeting =>
       (if localScreenShareOn meeting then [EStopScreenShare] else []) ++ [ELeave]
   | None => []
   end)
  ++ map ETrackStop (default [] (customAudioStream u))
  ++ map ETrackStop (default [] (customVideoStream u)).

(** What the redirect after a login issues. *)
Definition redirectEvents (env : Env) (w : World) : list Event :=
  if truthyText (sessionStorage w !! "redirectAfterLogin")
  then [ESessionRemove "redirectAfterLogin";
        ERedirect (default "" (sessionStorage w !! "redirectAfterLogin"))]
  else [ERedirect (if truthyText (returnUrl env) then default "" (returnUrl env) else "/")].

(** A new tab on the same browser: tab-scoped storage starts empty,
    durable storage is shared. *)
Definition newTab (w : World) : World := withSessionStorage (fun _ => ∅) w.

(** [typeof v === 'string'] *)
Definition isString (v : JsValue) : bool :=
  match v with
  | VStr _ => true
  | _ => false
  end.

(** * Sample data *)

Definition dquote : string := String "034"%char EmptyString.

(** A serializer for the sample documents (no escaping). *)
Fixpoint stringify (v : JsValue) : string :=
  match v with
  | VUndefined => "undefined"
  | VNull => "null"
  | VBool true => "true"
  | VBool false => "false"
  | VNum n => Number.toString n
  | VStr s => dquote +:+ s +:+ dquote
  | VArr items =>
      "[" +:+ (fix join (l : list JsValue) : string :=
                 match l with
                 | [] => ""
                 | [x] => stringify x
                 | x :: rest => stringify x +:+ "," +:+ join rest
                 end) items +:+ "]"
  | VObj fields =>
      "{" +:+ (fix join (l : list (string * JsValue)) : string :=
                 match l with
                 | [] => ""
                 | [(k, x)] => dquote +:+ k +:+ dquote +:+ ":" +:+ stringify x
                 | (k, x) :: rest =>
                     dquote +:+ k +:+ dquote +:+ ":" +:+ stringify x +:+ "," +:+ join rest
                 end) fields +:+ "}"
  end.

Definition sampleProfile : JsValue := VObj [("id", VStr "U1")].

Definition samplePending : JsValue :=
  VObj [("surveyId", VNum 3); ("selectedOptionIds", VArr [VNum 1; VNum 2])].

(** A parser that knows the sample documents. *)
Definition sampleParse (s : string) : option JsValue :=
  List.find (fun v => stringify v =? s) [sampleProfile; samplePending].

Definition sampleUser : JsValue :=
  VObj [("id", VNum 7); ("roles", VArr [VStr "ROLE_CONSULTANT"])].

Definition sampleEnv (net : nat -> FetchReply) (svc : nat -> Completion JsValue) : Env :=
  mkEnv "https://api.example" (Some "42") None sampleParse stringify
        (fun _ => Normal sampleUser) net svc
        (fun n => "00000000-0000-4000-8000-00000000000" +:+ pretty n).

(** The consultant on the joining screen, name entered. *)
Definition joiningScreen : MeetingState :=
  mkMeetingState "M1" "Lan" false false "" true false false "" None None None.

(** The consultant inside the meeting, a note typed in the end dialog. *)
Definition inMeeting : MeetingState :=
  mkMeetingState "M1" "Lan" true false "" true false true "session went well"
                 (Some [1]) (Some [2]) (Some (mkMeeting false)).

Definition filledForm : LoginState := mkLoginState "lan" "secret" false false [].

Definition sampleWorld (stored : gmap string string) (u : MeetingState) : World :=
  mkWorld stored ∅ 0 0 0 [] [] [] filledForm u.

Definition signedIn : gmap string string :=
  {[ "accessToken" := "tok"; "refreshToken" := "ref" ]}.

Definition statusReply (s : JsValue) : FetchReply :=
  FetchResponse 200 "OK" (Some (VObj [("status", s)])).

Definition acknowledged : Completion JsValue := Normal (VObj []).
Definition rejected : Completion JsValue :=
  Throw (mkError "AxiosError" "Request failed with status code 500"
                 (VObj [("message", VStr "Internal error")])).

(** The network of a read whose first request is refused: a 401, then a
    refreshed token, then the appointment. *)
Definition refreshingNet (s : JsValue) (n : nat) : FetchReply :=
  match n with
  | 0 => FetchResponse 401 "Unauthorized" None
  | 1 => FetchResponse 200 "OK" (Some (VObj [("accessToken", VStr "fresh")]))
  | _ => statusReply s
  end.

(** The network of an appointment whose status changes after the first
    read. *)
Definition changingNet (first later : JsValue) (n : nat) : FetchReply :=
  match n with
  | 0 => statusReply first
  | _ => statusReply later
  end.

(** A status that [String] cannot convert: an object whose own [toString]
    is no function. *)
Definition noTextStatus : JsValue := VObj [("toString", VNum 1)].

(** The consultant inside the meeting, the end dialog closed. *)
Definition consultantInCall : MeetingState :=
  mkMeetingState "M1" "Lan" true false "" true false false ""
                 (Some [1]) (Some [2]) (Some (mkMeeting false)).

(** Durable storage with a survey submission queued before the login. *)
Definition queuedSurvey : gmap string string :=
  {[ "pendingSurveySubmission" := stringify samplePending ]}.

(** Durable storage with the profile of a signed-in user. *)
Definition withProfile : gmap string string :=
  {[ "userProfile" := stringify sampleProfile ]}.

Definition loginReply : Completion JsValue :=
  Normal (VObj [("accessToken", VStr "tok"); ("refreshToken", VStr "ref")]).

Definition networkDown : Completion JsValue :=
  Throw (TypeError "Failed to fetch").

(** * The rest of the two components *)

(** ** The fields of the login form *)

Definition setUsername (s : string) : M unit :=
  modify (withForm (fun f =>
    match f with
    | mkLoginState _ p sp busy errs => mkLoginState s p sp busy errs
    end)).

Definition setPassword (s : string) : M unit :=
  modify (withForm (fun f =>
    match f with
    | mkLoginState u _ sp busy errs => mkLoginState u s sp busy errs
    end)).

Definition setShowPassword (b : bool) : M unit :=
  modify (withForm (fun f =>
    match f with
    | mkLoginState u p _ busy errs => mkLoginState u p b busy errs
    end)).

(** [errors.k]: the first binding of the key. *)
Fixpoint fieldError (k : string) (errs : list (string * string)) : option string :=
  match errs with
  | [] => None
  | (k', v) :: rest => if k' =? k then Some v else fieldError k rest
  end.

(** [{ ...errs, k: v }]: a key the object owns keeps its place and takes
    the new value, a new key comes last. *)
Fixpoint spreadWith (k v : string) (errs : list (string * string)) : list (string * string) :=
  match errs with
  | [] => [(k, v)]
  | (k', v') :: rest =>
      if k' =? k then (k, v) :: rest else (k', v') :: spreadWith k v rest
  end.

(** [onChange] of the two text fields; [value] is [e.target.value]. *)
Definition handleUsernameChange (value : string) : M unit :=
  setUsername value;;
  errs ← gets (fun w => errors (form w));
  if truthyText (fieldError "username" errs)
  then setErrors (spreadWith "username" "" errs)
  else mret tt.

Definition handlePasswordChange (value : string) : M unit :=
  setPassword value;;
  errs ← gets (fun w => errors (form w));
  if truthyText (fieldError "password" errs)
  then setErrors (spreadWith "password" "" errs)
  else mret tt.

Definition togglePasswordVisibility : M unit :=
  sp ← gets (fun w => showPassword (form w));
  setShowPassword (negb sp).

(** What the two text fields show: [error={!!errors.k}] and, for the
    password, [type={showPassword ? 'text' : 'password'}]. *)
Definition fieldInvalid (k : string) (f : LoginState) : bool :=
  truthyText (fieldError k (errors f)).

Definition passwordFieldType (f : LoginState) : string :=
  if showPassword f then "text" else "password".

(** ** What the meeting page shows *)

(** The effect of [MeetingWrapper]: [if (meeting) meetingRef.current = meeting]. *)
Definition MeetingWrapper (meeting : option Meeting) : M unit :=
  match meeting with
  | Some m => setMeetingRef (Some m)
  | None => mret tt
  end.

(** The state of the first render: the initial values of the state
    variables and of [meetingRef]. *)
Definition initialState : MeetingState :=
  mkMeetingState "" "" false false "" false false false "" None None None.

(** [useCallback(handler, [isConsultant])] at a render: the handler kept
    from an earlier render, which has seen the state [kept], is handed out
    again while [isConsultant] is what it was then; otherwise the handler of
    this render, whose state is [now], replaces it. *)
Definition useCallback (kept now : MeetingState) : MeetingState :=
  if Bool.eqb (isConsultant kept) (isConsultant now) then kept else now.

(** The state the kept handler has seen after the first render and the
    renders that followed it, oldest first. *)
Definition seenAfter (renders : list MeetingState) : MeetingState :=
  fold_left useCallback renders initialState.

(** The screen [VideoMeeting] returns.  Of the configuration handed to the
    meeting provider the screen keeps the meeting id, the name and the
    participant id. *)
Inductive Screen : Type :=
| ScreenSpinner
| ScreenError (message : string)
| ScreenMeeting (meetingId name : string) (participantId : option string)
| ScreenJoining.

Section Render.

Context (env : Env).

(** The conditional chain of the returned element; the participant id is
    computed while the meeting screen is built.  The two dialogs are rendered
    beside every screen, open as [openStartDialog] and [openEndDialog] say. *)
Definition render : M Screen :=
  u ← gets ui;
  if loading u && negb (isMeetingStarted u) then mret ScreenSpinner
  else if negb (error u =? "") then mret (ScreenError (error u))
  else if isMeetingStarted u
  then
    participantId ← getParticipantId env;
    mret (ScreenMeeting (meetingId u) (participantName u) participantId)
  else mret ScreenJoining.

End Render.

(** ** The start of the meeting page *)

(** [String.prototype.includes] *)
Fixpoint startsWith (s p : string) : bool :=
  match p, s with
  | EmptyString, _ => true
  | String a p', String b s' => Ascii.eqb a b && startsWith s' p'
  | String _ _, EmptyString => false
  end.

Fixpoint includesText (s p : string) : bool :=
  startsWith s p
  || match s with
     | EmptyString => false
     | String _ rest => includesText rest p
     end.

(** [v.includes(s)] for a string [s]: membership in an array, containment
    in a string.  Any other value that is not null or undefined has no such
    method (an own property of a parsed object is never callable) and the
    call throws. *)
Definition includes (v : JsValue) (s : string) : Completion bool :=
  match v with
  | VArr items => Normal (existsb (fun x => strictEqStr x s) items)
  | VStr t => Normal (includesText t s)
  | _ => Throw (TypeError "includes is not a function")
  end.

(** Calls of [services/videoService]. *)
Inductive VideoCall : Type :=
| CGetToken
| CValidateMeeting (roomId : string) (token : JsValue).

(** The page the handlers run on: their world, the state variable [token],
    the value [init] has handed to [setParticipantName], and the calls of the
    video service, newest first. *)
Record Page : Type := mkPage {
  world : World;
  token : JsValue;
  prefilledName : option JsValue;
  videoCalls : list VideoCall
}.

Definition OnPage (A : Type) : Type := Page -> Completion A * Page.

#[global] Instance OnPage_ret : MRet OnPage := fun A a p => (Normal a, p).

#[global] Instance OnPage_bind : MBind OnPage := fun A B f m p =>
  match m p with
  | (Normal a, p') => f a p'
  | (Throw e, p') => (Throw e, p')
  end.

(** A handler of the world, run on the page. *)
Definition onWorld {A : Type} (m : M A) : OnPage A :=
  fun p =>
    match p with
    | mkPage w t n vc =>
        match m w with
        | (c, w') => (c, mkPage w' t n vc)
        end
    end.

Definition tryCatchPage {A : Type} (body : OnPage A) (handler : JsError -> OnPage A) :
    OnPage A :=
  fun p =>
    match body p with
    | (Normal a, p') => (Normal a, p')
    | (Throw e, p') => handler e p'
    end.

Definition setToken (v : JsValue) : OnPage unit :=
  fun p =>
    match p with
    | mkPage w _ n vc => (Normal tt, mkPage w v n vc)
    end.

Definition setMeetingId (s : string) : M unit :=
  modify (withUi (fun u =>
    match u with
    | mkMeetingState _ name started busy err consultant osd oed note audio video ref =>
        mkMeetingState s name started busy err consultant osd oed note audio video ref
    end)).

Definition setParticipantName (s : string) : M unit :=
  modify (withUi (fun u =>
    match u with
    | mkMeetingState mid _ started busy err consultant osd oed note audio video ref =>
        mkMeetingState mid s started busy err consultant osd oed note audio video ref
    end)).

Definition setIsConsultant (b : bool) : M unit :=
  modify (withUi (fun u =>
    match u with
    | mkMeetingState mid name started busy err _ osd oed note audio video ref =>
        mkMeetingState mid name started busy err b osd oed note audio video ref
    end)).

(** [setParticipantName(v)] with the value of a reply.  The page keeps
    [v]; the text of the state variable, which the handlers of the joining
    screen read, takes it when it is a string. *)
Definition setParticipantNameValue (v : JsValue) : OnPage unit :=
  fun p =>
    match p with
    | mkPage w t _ vc =>
        match v with
        | VStr s => onWorld (setParticipantName s) (mkPage w t (Some v) vc)
        | _ => (Normal tt, mkPage w t (Some v) vc)
        end
    end.

Section Init.

Context (env : Env).

(** The route parameter [videoCallId]. *)
Context (videoCallId : option string).

(** A call of the video service: logged on the page and answered by the
    next reply of the services. *)
Definition callVideo (c : VideoCall) : OnPage JsValue :=
  fun p =>
    match p with
    | mkPage w t n vc =>
        (serviceReply env (calls w), mkPage (withCalls (S (calls w)) w) t n (c :: vc))
    end.

Definition getToken : OnPage JsValue := callVideo CGetToken.

Definition validateMeeting (roomId : string) (tok : JsValue) : OnPage JsValue :=
  callVideo (CValidateMeeting roomId tok).

(** The effect that runs when the page is mounted. *)
Definition init : OnPage unit :=
  tryCatchPage
    (onWorld (setLoading true);;
     onWorld (console_log "Parameters:");;
     tokenResponse ← getToken;
     setToken tokenResponse;;
     userData ← onWorld (fun w => (getUserData env (localStorage w), w));
     roles ← (if truthy userData then onWorld (eval (getProp userData "roles"))
              else mret VUndefined);
     consultant ← (if truthy userData && truthy roles
                   then onWorld (eval (includes roles "ROLE_CONSULTANT"))
                   else mret false);
     (if (consultant : bool) then onWorld (setIsConsultant true) else mret tt);;
     (if truthy userData
      then
        tryCatchPage
          (accessToken ← onWorld (localStorage_getItem "accessToken");
           if truthyText accessToken
           then
             data ← onWorld (callService env
                               (CAxiosPost (API_URL env +:+ "/auth/me")
                                  (VObj [("accessToken", VStr (default "" accessToken))])));
             fullName ← (if truthy data then onWorld (eval (getProp data "fullName"))
                         else mret VUndefined);
             if truthy data && truthy fullName
             then setParticipantNameValue fullName
             else mret tt
           else mret tt)
          (fun userError => onWorld (console_error "Error fetching user data:"))
      else mret tt);;
     (if truthyText videoCallId
      then
        onWorld (console_log "Attempting to join meeting with ID:");;
        onWorld (setMeetingId (default "" videoCallId));;
        result ← validateMeeting (default "" videoCallId) tokenResponse;
        _ ← onWorld (eval (getProp result "meetingId"));
        err ← onWorld (eval (getProp result "err"));
        if truthy err
        then
          onWorld (console_error "Meeting validation error:");;
          onWorld (setError "Cuộc họp không tồn tại hoặc đã kết thúc")
        else onWorld (console_log "Meeting is valid:")
      else
        onWorld (console_error "No videoCallId provided in URL");;
        onWorld (setError "ID cuộc họp không hợp lệ"));;
     onWorld (setLoading false))
    (fun error =>
       onWorld (console_error "Error initializing meeting:");;
       onWorld (setError "Không thể kết nối với máy chủ hội nghị");;
       onWorld (setLoading false)).

End Init.

(** * Further observations *)

(** What [!userData || !userData.id] tests on the outcome of [getUserData()]. *)
Definition userMissing (c : Completion JsValue) : bool :=
  match c with
  | Throw _ => true
  | Normal userData => negb (truthy userData && truthy (getPropOpt userData "id"))
  end.

(** The status code of a reply, when there is a response. *)
Definition replyStatus (r : FetchReply) : option N :=
  match r with
  | FetchReject _ => None
  | FetchResponse st _ _ => Some st
  end.

Definition isRedirect (e : Event) : bool :=
  match e with
  | ERedirect _ => true
  | _ => false
  end.

Definition isStopScreenShare (e : Event) : bool :=
  match e with
  | EStopScreenShare => true
  | _ => false
  end.

(** The submission of a queued survey. *)
Definition isSurveySubmission (e : Event) : bool :=
  match e with
  | ECall (CSubmitSurvey _ _) => true
  | _ => false
  end.

(** The track stops of the two custom streams, audio first. *)
Definition trackStops (u : MeetingState) : list Event :=
  map ETrackStop (default [] (customAudioStream u))
  ++ map ETrackStop (default [] (customVideoStream u)).

(** [profile.id || profile.userId || profile.email] *)
Definition profileUserId (profile : JsValue) : JsValue :=
  jsOr (jsOr (getPropOpt profile "id") (getPropOpt profile "userId"))
       (getPropOpt profile "email").

(** The user id the stored profile gives: undefined when there is no
    profile, when it is empty and when it does not parse. *)
Definition storedUserId (env : Env) (stored : gmap string string) : JsValue :=
  match stored !! "userProfile" with
  | Some text =>
      if text =? "" then VUndefined
      else match JSON_parse env text with
           | Some profile => profileUserId profile
           | None => VUndefined
           end
  | None => VUndefined
  end.

(** The events of a flush that submitted the queued survey, and of one
    that gave the submission up. *)
Definition flushSuccess (env : Env) (surveyId selectedOptionIds : JsValue) : list Event :=
  [ECall (CSubmitSurvey surveyId selectedOptionIds);
   ELocalRemove "pendingSurveySubmission";
   ELocalSet "surveySubmissionResult" (JSON_stringify env surveySuccessRecord)].

Definition flushFailure (env : Env) : list Event :=
  [ELocalSet "surveySubmissionResult" (JSON_stringify env surveyFailureRecord);
   ELocalRemove "pendingSurveySubmission"].

Definition googleFailureAlert : Event :=
  EErrorAlert "Đăng nhập bằng Google thất bại. Vui lòng thử lại sau.".

(** The three messages [init] leaves in [error]. *)
Definition connectionError : string := "Không thể kết nối với máy chủ hội nghị".
Definition meetingGoneError : string := "Cuộc họp không tồn tại hoặc đã kết thúc".
Definition invalidIdError : string := "ID cuộc họp không hợp lệ".

(** The request for the details of the signed-in user. *)
Definition postMe (env : Env) (accessToken : string) : Event :=
  ECall (CAxiosPost (API_URL env +:+ "/auth/me")
                    (VObj [("accessToken", VStr accessToken)])).

Definition isValidation (c : VideoCall) : bool :=
  match c with
  | CValidateMeeting _ _ => true
  | CGetToken => false
  end.

(** What the reply to the validation of the meeting leaves in [error]:
    the destructuring of a null or undefined result and a rejection end in
    the handler of [init], a truthy [err] marks the meeting as gone, and
    anything else leaves the earlier value. *)
Definition validationError (r : Completion JsValue) (before : string) : string :=
  match r with
  | Normal v =>
      if nullish v then connectionError
      else if truthy (getPropOpt v "err") then meetingGoneError
      else before
  | Throw _ => connectionError
  end.

(** [userData.roles && userData.roles.includes('ROLE_CONSULTANT')] *)
Definition detectConsultant (userData : JsValue) : Completion bool :=
  if truthy (getPropOpt userData "roles")
  then includes (getPropOpt userData "roles") "ROLE_CONSULTANT"
  else Normal false.

(** * Further sample data *)

(** A participant who is not a consultant, on the joining screen and
    inside the meeting while sharing the screen. *)
Definition attendeeJoining : MeetingState :=
  mkMeetingState "M1" "Minh" false false "" false false false "" None None None.

Definition attendeeInMeeting : MeetingState :=
  mkMeetingState "M1" "Minh" true false "" false false false ""
                 (Some [1]) (Some [2; 3]) (Some (mkMeeting true)).

(** The consultant on the joining screen with nothing but blanks typed. *)
Definition blankJoining : MeetingState :=
  mkMeetingState "M1" "   " false false "" true false false "" None None None.

(** The no-break space, the ideographic space and the byte order mark. *)
Definition noBreakSpace : string := utf8_encode [160%N].
Definition ideographicSpace : string := utf8_encode [12288%N].
Definition byteOrderMark : string := utf8_encode [65279%N].

(** The same screen with blanks from outside ASCII typed. *)
Definition wideBlankJoining : MeetingState :=
  mkMeetingState "M1" (noBreakSpace +:+ ideographicSpace +:+ byteOrderMark)
                 false false "" true false false "" None None None.

(** A profile whose id is a number too large for plain digits, and an
    environment whose parser knows it. *)
Definition largeIdProfile : JsValue := VObj [("id", VNum 1e21)].

Definition largeIdEnv (net : nat -> FetchReply) (svc : nat -> Completion JsValue) : Env :=
  mkEnv "https://api.example" (Some "42") None
        (fun s => List.find (fun v => stringify v =? s) [largeIdProfile]) stringify
        (fun _ => Normal VNull) net svc
        (fun n => "00000000-0000-4000-8000-00000000000" +:+ pretty n).

Definition withLargeIdProfile : gmap string string :=
  {[ "userProfile" := stringify largeIdProfile ]}.

(** A profile that carries an email address only, and an environment whose
    parser knows it and whose [getUserData] finds nobody signed in. *)
Definition emailProfile : JsValue := VObj [("email", VStr "lan@example.org")].

Definition visitorEnv (net : nat -> FetchReply) (svc : nat -> Completion JsValue) : Env :=
  mkEnv "https://api.example" (Some "42") (Some "/courses")
        (fun s => List.find (fun v => stringify v =? s) [emailProfile]) stringify
        (fun _ => Normal VNull) net svc
        (fun n => "00000000-0000-4000-8000-00000000000" +:+ pretty n).

Definition withEmailProfile : gmap string string :=
  {[ "userProfile" := stringify emailProfile ]}.

(** A tab that remembers the page asked for before the login. *)
Definition rememberingTab : World :=
  mkWorld ∅ {[ "redirectAfterLogin" := "/appointments/42" ]} 0 0 0 [] [] []
          filledForm joiningScreen.

(** The page as it is mounted: no token yet, loading not yet set. *)
Definition mountedPage (stored : gmap string string) (u : MeetingState) : Page :=
  mkPage (sampleWorld stored u) (VStr "") None [].

(** The services of a mount: the token, the details of the user, the
    validation of the meeting. *)
Definition mountReplies (validation : JsValue) (n : nat) : Completion JsValue :=
  match n with
  | 0 => Normal (VStr "video-token")
  | 1 => Normal (VObj [("fullName", VStr "Lan Anh")])
  | _ => Normal validation
  end.

(** The services of the mount of a visitor, for whom no details are
    requested. *)
Definition visitorReplies (validation : JsValue) (n : nat) : Completion JsValue :=
  match n with
  | 0 => Normal (VStr "video-token")
  | _ => Normal validation
  end.

Definition validMeeting : JsValue := VObj [("meetingId", VStr "M1"); ("err", VNull)].

(** * Proofs *)

Arguments handleOnMeetingLeave : simpl never.
Arguments handleOnMeetingLeaveOf : simpl never.
Arguments checkAppointmentStatus : simpl never.
Arguments handlePendingSurveySubmission : simpl never.
Arguments trim : simpl never.

(** ** The built-ins on small inputs *)

Example toStringJs_nested_array :
  toStringJs (VArr [VArr [VStr "confirmed"]; VNull; VNum (-3)]) = Normal "confirmed,,-3".
Proof. reflexivity. Qed.

Example toStringJs_own_toString :
  toStringJs (VObj [("toString", VNum 1)])
  = Throw (TypeError "Cannot convert object to primitive value").
Proof. reflexivity. Qed.

Example toStringJs_plain_object :
  toStringJs (VObj [("status", VStr "CONFIRMED")]) = Normal "[object Object]".
Proof. reflexivity. Qed.

Example toUpperCase_status : toUpperCase "Confirmed_1" = "CONFIRMED_1".
Proof. reflexivity. Qed.

(** Letters outside ASCII whose upper-case forms are ASCII letters: the
    dotless i, the ligature fi and the sharp s. *)
Example toUpperCase_beyond_ascii :
  toUpperCase "confırmed" = "CONFIRMED"
  /\ toUpperCase "conﬁrmed" = "CONFIRMED"
  /\ toUpperCase "straße" = "STRASSE"
  /\ toUpperCase "Cuộc họp" = "CUỘC HỌP".
Proof. vm_compute. repeat split. Qed.

Example trim_blank : trim "   " = "".
Proof. reflexivity. Qed.

Example trim_name : trim "  Lan Anh  " = "Lan Anh".
Proof. reflexivity. Qed.

(** The spaces outside ASCII are trimmed; the zero-width space is no white
    space and stays. *)
Example trim_beyond_ascii :
  trim (noBreakSpace +:+ "Lan" +:+ ideographicSpace +:+ byteOrderMark) = "Lan"
  /\ trim (noBreakSpace +:+ ideographicSpace) = ""
  /\ trim (utf8_encode [8203%N]) = utf8_encode [8203%N].
Proof. vm_compute. repeat split. Qed.

Example utf8_round_trip :
  utf8_decode "họp" = [104; 7885; 112]%N
  /\ utf8_encode (utf8_decode "Cuộc họp") = "Cuộc họp".
Proof. vm_compute. repeat split. Qed.

(** Numbers print as JavaScript prints them: plain digits below 10^21, the
    exponent form from there on and below 10^-6, the shortest digits that
    give the number back. *)
Example number_toString :
  Number.toString 7 = "7"
  /\ Number.toString (-3) = "-3"
  /\ Number.toString 1.5 = "1.5"
  /\ Number.toString 123456789012345683968 = "123456789012345680000"
  /\ Number.toString 1e21 = "1e+21"
  /\ Number.toString 0x1.999999999999ap-4 = "0.1"
  /\ Number.toString 0x1.0c6f7a0b5ed8dp-20 = "0.000001"
  /\ Number.toString 0x1.ad7f29abcaf48p-24 = "1e-7"
  /\ Number.toString 0x0.0000000000001p-1022 = "5e-324"
  /\ Number.toString 0x1.fffffffffffffp1023 = "1.7976931348623157e+308"
  /\ Number.toString (-0) = "0"
  /\ Number.toString nan = "NaN"
  /\ Number.toString neg_infinity = "-Infinity".
Proof. vm_compute. repeat split. Qed.

Example truthy_numbers :
  truthy (VNum 0) = false /\ truthy (VNum (-0)) = false /\ truthy (VNum nan) = false
  /\ truthy (VNum 0.5) = true /\ truthy (VNum neg_infinity) = true.
Proof. vm_compute. repeat split. Qed.

Example truthy_empty_array : truthy (VArr []) = true /\ toStringJs (VArr []) = Normal "".
Proof. split; reflexivity. Qed.

Example sampleParse_profile : sampleParse (stringify sampleProfile) = Some sampleProfile.
Proof. reflexivity. Qed.

Example sampleParse_garbage : sampleParse "{oops" = None.
Proof. reflexivity. Qed.

(** ** Proof steps *)

Ltac unfold_monad :=
  unfold localStorage_getItem, localStorage_setItem, localStorage_removeItem,
    sessionStorage_getItem, sessionStorage_setItem, sessionStorage_removeItem,
    console_log, console_warn, console_error, showSuccessAlert, showErrorAlert,
    navigate, setTimeout, resp_json, parseJson,
    emit, modify, gets, eval, throw, tryCatch, tryFinally, mbind, M_bind, mret, M_ret in *.

Ltac unfold_ui :=
  unfold setLoading, setError, setIsMeetingStarted, setOpenStartDialog, setOpenEndDialog,
    setConsultantNote, setMeetingRef, setIsLoading, setErrors in *.

Ltac unfold_world :=
  unfold withLocalStorage, withSessionStorage, withFetches, withCalls, withUuids,
    withTimers, withTrace, withConsole, withForm, withUi in *; cbn in *.

Ltac unfold_status :=
  unfold checkAppointmentStatus, fetchAppointmentWithTokenRefresh, fetchAppointmentRetry,
    fetchAppointmentBody, refreshAccessToken, requireUserData, fetch in *;
  unfold_monad.

Ltac reduce :=
  cbn -[lookup insert delete pretty String.eqb N.eqb N.leb];
  rewrite ?lookup_insert_eq.

(** Case split on the innermost scrutinee the goal is stuck on. *)
Ltac step :=
  match goal with
  | |- context [match ?x with _ => _ end] =>
      lazymatch x with
      | context [match _ with _ => _ end] => fail
      | _ => destruct x eqn:?
      end
  end.

Lemma getProp_Normal v k a : getProp v k = Normal a -> getPropOpt v k = a.
Proof. destruct v; cbn; congruence. Qed.

Lemma getProp_truthy v k e : truthy v = true -> getProp v k = Throw e -> False.
Proof. destruct v; cbn; congruence. Qed.

Lemma getPropOpt_truthy v k : truthy (getPropOpt v k) = true -> truthy v = true.
Proof. destruct v; cbn; congruence. Qed.

Lemma status_is_object d :
  truthy (getPropOpt d "status") = true ->
  getProp d "status" = Normal (getPropOpt d "status").
Proof. destruct d; cbn; intros H; try discriminate H; reflexivity. Qed.

Ltac absurd_case :=
  match goal with
  | H1 : truthy ?v = true, H2 : getProp ?v _ = Throw _ |- _ =>
      exfalso; exact (getProp_truthy _ _ _ H1 H2)
  | H : _ && false = true |- _ => rewrite andb_false_r in H; discriminate H
  | H : true = false |- _ => discriminate H
  | H : false = true |- _ => discriminate H
  end.

Ltac run := repeat (reduce; try step; try absurd_case).

(** Open up a world and the state of its two components. *)
Ltac expose w :=
  destruct w as [? ? ? ? ? ? ? ? [? ? ? ? ?] [? ? ? ? ? ? ? ? ? ? ? ?]].

(** Open up a world a lemma has produced, keeping its components whole. *)
Ltac expose_result w :=
  destruct w as [? ? ? ? ? ? ? ? ? ?].

Ltac open_frame H :=
  destruct H as [? ? ? ? ? ? ?]; unfold emits in *; unfold_ui; unfold_monad;
  cbn in *; subst.

Ltac negbs :=
  repeat match goal with
         | H : negb _ = false |- _ => apply negb_false_iff in H
         | H : negb _ = true |- _ => apply negb_true_iff in H
         end.

Ltac trace_eq := cbn; repeat (rewrite <- app_assoc; cbn); reflexivity.

(** ** The recursion of the status read *)

Lemma fetchAppointmentBody_retry env f g w :
  fetchAppointmentBody env f true w = fetchAppointmentBody env g true w.
Proof.
  unfold fetchAppointmentBody, fetch. unfold_monad.
  run; reflexivity.
Qed.

Lemma fetchAppointmentBody_ext env f g isRetry w :
  (forall w0, f true w0 = g true w0) ->
  fetchAppointmentBody env f isRetry w = fetchAppointmentBody env g isRetry w.
Proof.
  intros H.
  unfold fetchAppointmentBody, fetch. unfold_monad.
  repeat (reduce; rewrite <- ?H; try step; try absurd_case). all: reflexivity.
Qed.

(** The definition satisfies the recursive equation of the source: the
    function is its body applied to itself. *)
Lemma fetchAppointment_unfold env isRetry w :
  fetchAppointmentWithTokenRefresh env isRetry w
  = fetchAppointmentBody env (fetchAppointmentWithTokenRefresh env) isRetry w.
Proof.
  unfold fetchAppointmentWithTokenRefresh at 1.
  apply fetchAppointmentBody_ext.
  intros w0. apply fetchAppointmentBody_retry.
Qed.

(** ** The status read *)

Lemma acceptedReply_reject e d : ~ acceptedReply (FetchReject e) d.
Proof. intros (st & txt & H & _). discriminate H. Qed.

Lemma acceptedReply_inv st txt b d :
  acceptedReply (FetchResponse st txt b) d ->
  b = Some d /\ ((200 <=? st)%N && (st <=? 299)%N) = true
  /\ truthy (getPropOpt d "status") = true.
Proof. intros (st' & txt' & H & Hok & Ht). inversion H; subst. auto. Qed.

Ltac frame_tac :=
  constructor; cbn; intros; rewrite ?lookup_insert_ne by congruence; auto.

Ltac accepted :=
  eexists _, _; split; [first [eassumption | reflexivity]|]; split; [eassumption|];
  erewrite getProp_Normal by eassumption; assumption.

Ltac not_accepted :=
  let d' := fresh "d'" in
  let H := fresh "H" in
  let Hb := fresh "Hb" in
  let Hok := fresh "Hok" in
  let Htr := fresh "Htr" in
  intros d' H;
  repeat match goal with
         | E : fetchReply _ _ = _ |- _ => rewrite E in H
         end;
  first [ apply acceptedReply_reject in H; exact H
        | apply acceptedReply_inv in H; destruct H as (Hb & Hok & Htr);
          first [ discriminate Hb
                | inversion Hb; subst;
                  negbs; unfold resp_ok in *; cbn in *;
                  repeat match goal with
                         | G : getProp _ _ = Normal _ |- _ => apply getProp_Normal in G; subst
                         end;
                  cbn in *;
                  first [ congruence
                        | match goal with
                          | G : truthy (getPropOpt _ _) = true |- _ =>
                              apply getPropOpt_truthy in G; congruence
                          end ] ] ].

Ltac refresh_norm :=
  negbs; unfold resp_ok in *; cbn in *;
  repeat match goal with
         | G : getProp _ _ = Normal _ |- _ => apply getProp_Normal in G; subst
         end;
  repeat match goal with
         | H : toStringJs ?v = Normal _, H' : toStringJs ?v = Normal _ |- _ =>
             rewrite H in H'; injection H' as H'; subst
         | H : toStringJs ?v = Normal _, H' : toStringJs ?v = Throw _ |- _ =>
             rewrite H in H'; discriminate H'
         end.

Ltac refresh_absurd :=
  exfalso; negbs; unfold resp_ok in *; cbn in *;
  repeat match goal with
         | G : getProp _ _ = Normal _ |- _ => apply getProp_Normal in G; subst
         end;
  repeat match goal with
         | H : _ && _ = true |- _ =>
             apply andb_true_iff in H; let H1 := fresh H in destruct H as [H H1]
         end;
  repeat match goal with
         | H : truthy (getPropOpt ?v _) = true, H' : truthy ?v = false |- _ =>
             apply getPropOpt_truthy in H; congruence
         | H : ?b = true, H' : context [?b] |- _ => progress (rewrite H in H')
         | H : ?b = false, H' : context [?b] |- _ => progress (rewrite H in H')
         end;
  cbn in *; congruence.

Ltac refresh_leaf :=
  split; [reflexivity|]; split; [reflexivity|];
  split; [reflexivity|]; split; [cbn; lia|]; split; [cbn; lia|];
  negbs; unfold resp_ok in *; cbn in *;
  repeat match goal with
         | G : getProp _ _ = Normal _ |- _ => apply getProp_Normal in G; subst
         end;
  repeat match goal with
         | H : (?s =? "") = true |- _ => apply String.eqb_eq in H; subst s
         | H : ?x = ?y |- context [?x] => rewrite H
         end;
  cbn;
  try (split; [reflexivity|]);
  first [ split; [reflexivity|]; split; reflexivity
        | split; reflexivity
        | split; [reflexivity|];
          first [ left; accepted
                | left; eexists _, _; split; [first [eassumption | reflexivity]|];
                  split; assumption
                | right; split; [reflexivity|]; not_accepted ] ].

Ltac status_leaf :=
  negbs;
  split; [reflexivity|]; split; [reflexivity|]; split; [reflexivity|];
  split; [frame_tac|];
  split; [first [reflexivity | erewrite getProp_Normal by eassumption; assumption]|];
  first [ left; reflexivity
        | right; eexists; split; [reflexivity|]; split; [cbn; lia|]; accepted ].

(** The status read never throws.  It returns either the UNKNOWN default
    or the body of the reply to its last request, an accepted one; it issues
    only status traffic and touches nothing but the stored access token. *)
Lemma checkAppointmentStatus_spec env w :
  exists d w' es,
    checkAppointmentStatus env w = (Normal d, w')
    /\ emits w w' es
    /\ forallb isStatusTraffic es = true
    /\ statusFrame w w'
    /\ truthy (getPropOpt d "status") = true
    /\ (d = unknownStatus
        \/ exists k, fetches w' = S k /\ fetches w <= k
                     /\ acceptedReply (fetchReply env k) d).
Proof.
  destruct w.
  unfold_status. unfold emits, acceptedReply.
  run.
  all: cbn.
  all: eexists; eexists;
    first [ exists (@nil Event); solve [status_leaf]
          | eexists [_]; solve [status_leaf]
          | eexists [_; _]; solve [status_leaf]
          | eexists [_; _; _]; solve [status_leaf]
          | eexists [_; _; _; _]; solve [status_leaf] ].
Qed.

(** C3. A status read whose first request is answered 401 makes one
    refresh-and-retry attempt (it announces exactly one on the console) and
    never a second one: at most one refresh request and at most two GET
    requests are issued.  What follows the 401 is decided by the stored
    refresh token and by the two replies that come next.  Without a refresh
    token no further request is sent and the read returns the UNKNOWN
    default.  With
    one, the refresh request is sent with it; if its reply brings no token,
    nothing is stored and the read returns UNKNOWN.  If it brings a token,
    the token is stored and the retry is sent with it: an accepted reply to
    the retry is returned as it is (the real status), and any other reply to
    the retry, another 401 included, gives UNKNOWN with no further request.
    The read never throws. *)
Theorem status_read_refresh_once env w token txt body :
  localStorage w !! "accessToken" = Some token ->
  token <> "" ->
  fetchReply env (fetches w) = FetchResponse 401 txt body ->
  exists d w' es,
    fetchAppointmentWithTokenRefresh env false w = (Normal d, w')
    /\ emits w w' es
    /\ refreshAttempts (console w') = S (refreshAttempts (console w))
    /\ count isRefresh es <= 1
    /\ count isGet es <= 2
    /\ match localStorage w !! "refreshToken" with
       | Some rt =>
           if rt =? ""
           then es = [getAppointment env token]
                /\ d = unknownStatus
                /\ localStorage w' = localStorage w
           else
             match refreshedToken (fetchReply env (S (fetches w))) with
             | Some token' =>
                 localStorage w' = <["accessToken" := token']> (localStorage w)
                 /\ if token' =? ""
                    then es = [getAppointment env token; postRefresh env rt;
                               ELocalSet "accessToken" token']
                         /\ d = unknownStatus
                    else es = [getAppointment env token; postRefresh env rt;
                               ELocalSet "accessToken" token'; getAppointment env token']
                         /\ (acceptedReply (fetchReply env (S (S (fetches w)))) d
                             \/ (d = unknownStatus
                                 /\ forall d',
                                      ~ acceptedReply (fetchReply env (S (S (fetches w)))) d'))
             | None =>
                 es = [getAppointment env token; postRefresh env rt]
                 /\ d = unknownStatus
                 /\ localStorage w' = localStorage w
             end
       | None =>
           es = [getAppointment env token]
           /\ d = unknownStatus
           /\ localStorage w' = localStorage w
       end.
Proof.
  intros Htok Hne H401. destruct w as [ls ss nf nc nu ts tr co fo mu].
  cbn in Htok, H401.
  apply String.eqb_neq in Hne.
  unfold_status. unfold emits, getAppointment, postRefresh, refreshedToken.
  repeat (repeat (progress (reduce; rewrite ?Htok, ?Hne, ?H401;
                            change ((401 =? 401)%N) with true));
          try step; try absurd_case).
  all: refresh_norm.
  all: cbn.
  all: try solve [refresh_absurd].
  all: eexists; eexists.
  all: first [ eexists [_]; solve [refresh_leaf]
             | eexists [_; _]; solve [refresh_leaf]
             | eexists [_; _; _]; solve [refresh_leaf]
             | eexists [_; _; _; _]; solve [refresh_leaf] ].
Qed.

Lemma status_read_refresh_once_witness :
  let env := sampleEnv (refreshingNet (VStr "CONFIRMED")) (fun _ => acknowledged) in
  let w := sampleWorld signedIn joiningScreen in
  (localStorage w !! "accessToken" = Some "tok"
   /\ "tok" <> ""
   /\ fetchReply env (fetches w) = FetchResponse 401 "Unauthorized" None)
  /\ exists d w',
       fetchAppointmentWithTokenRefresh env false w = (Normal d, w')
       /\ emits w w' [getAppointment env "tok"; postRefresh env "ref";
                      ELocalSet "accessToken" "fresh"; getAppointment env "fresh"].
Proof.
  intros env w.
  split; [repeat split; try reflexivity; discriminate|].
  destruct (status_read_refresh_once env w "tok" "Unauthorized" None)
    as (d & w' & es & H & Hem & _ & _ & _ & Hcase);
    [reflexivity | discriminate | reflexivity |].
  exists d, w'. split; [exact H|].
  vm_compute in Hcase. destruct Hcase as (_ & Hes & _).
  rewrite Hes in Hem. exact Hem.
Defined.

(** One refresh, one retry, the real status: the run of the witness. *)
Example status_read_refresh_once_run :
  let r := fetchAppointmentWithTokenRefresh
             (sampleEnv (refreshingNet (VStr "CONFIRMED")) (fun _ => acknowledged)) false
             (sampleWorld signedIn joiningScreen) in
  fst r = Normal (VObj [("status", VStr "CONFIRMED")])
  /\ count isRefresh (trace (snd r)) = 1
  /\ count isGet (trace (snd r)) = 2
  /\ localStorage (snd r) !! "accessToken" = Some "fresh".
Proof. vm_compute. repeat split. Qed.

(** A [catch] around the status read alone is never entered. *)
Lemma checkAppointmentStatus_catch_dead env (handler : JsError -> M JsValue) w :
  tryCatch (checkAppointmentStatus env) handler w = checkAppointmentStatus env w.
Proof.
  destruct (checkAppointmentStatus_spec env w) as (d & w' & es & Heq & _).
  unfold tryCatch. rewrite Heq. reflexivity.
Qed.

(** C9 (amended). The status read is total over errors: it never throws
    and always returns an object with a truthy status field.  The result is
    the UNKNOWN default on every failure path; anything else is the body of
    the accepted reply to the last request of the read, status as received,
    which need not be a string.  Hence a catch that wraps the status read
    alone, as in handleConfirmStartMeeting and handleConfirmEndMeeting, is
    never entered. *)
Theorem status_read_total env w :
  exists d w' fields status,
    checkAppointmentStatus env w = (Normal d, w')
    /\ d = VObj fields
    /\ assoc "status" fields = Some status
    /\ truthy status = true
    /\ (d = unknownStatus
        \/ exists k, fetches w' = S k /\ fetches w <= k
                     /\ acceptedReply (fetchReply env k) d)
    /\ (forall handler : JsError -> M JsValue,
          tryCatch (checkAppointmentStatus env) handler w
          = checkAppointmentStatus env w).
Proof.
  destruct (checkAppointmentStatus_spec env w)
    as (d & w' & es & Heq & _ & _ & _ & Hst & Horigin).
  destruct d as [| | | | |items|fields]; try discriminate Hst.
  cbn in Hst. destruct (assoc "status" fields) as [status|] eqn:Hassoc;
    [|discriminate Hst].
  exists (VObj fields), w', fields, status.
  repeat split; auto.
  intros handler. apply checkAppointmentStatus_catch_dead.
Qed.

(** C9 as stated fails: the body [{ status: 1 }] of an OK response is
    returned as it is, and its status field is a number. *)
Lemma status_field_not_string_counterexample :
  let env := sampleEnv (fun _ => statusReply (VNum 1)) (fun _ => acknowledged) in
  let r := checkAppointmentStatus env (sampleWorld signedIn joiningScreen) in
  exists d,
    fst r = Normal d
    /\ getPropOpt d "status" = VNum 1
    /\ isString (getPropOpt d "status") = false.
Proof. eexists. vm_compute. repeat split. Qed.

(** ** Leaving the meeting *)

Lemma no_call_in_track_stops l :
  length (List.filter isServiceCall (map ETrackStop l)) = 0.
Proof. induction l; cbn; auto. Qed.

Lemma no_leave_in_track_stops l :
  length (List.filter isLeave (map ETrackStop l)) = 0.
Proof. induction l; cbn; auto. Qed.

Lemma stopAll_spec tracks w :
  stopAll tracks w = (Normal tt, withTrace (rev (map ETrackStop tracks) ++ trace w) w).
Proof.
  revert w. induction tracks as [|t rest IH]; intros w.
  - destruct w; reflexivity.
  - cbn [stopAll]. unfold_monad. cbn. rewrite IH.
    destruct w. unfold withTrace. cbn. rewrite <- app_assoc. reflexivity.
Qed.

Lemma stopTracks_spec stream w :
  stopTracks stream w
  = (Normal tt, withTrace (rev (map ETrackStop (default [] stream)) ++ trace w) w).
Proof.
  destruct stream as [tracks|]; cbn.
  - apply stopAll_spec.
  - destruct w; reflexivity.
Qed.

Lemma handleOnMeetingLeaveOf_spec seen w :
  handleOnMeetingLeaveOf seen w = (Normal tt, afterKeptLeave seen w).
Proof.
  unfold handleOnMeetingLeaveOf, afterKeptLeave, keptLeaveEvents, directLeave.
  unfold_ui. unfold_monad.
  destruct w as [ls ss f c u tm tr co fo [mi pn ims lo er ic osd oed cn au vi mr]].
  cbn. destruct mr; cbn; rewrite !stopTracks_spec; cbn.
  all: unfold withTrace, withUi; cbn.
  all: rewrite ?rev_app_distr, <- ?app_assoc; cbn; rewrite <- ?app_assoc; reflexivity.
Qed.

Lemma handleOnMeetingLeave_spec w :
  handleOnMeetingLeave w = (Normal tt, afterLeave w).
Proof.
  unfold handleOnMeetingLeave. unfold_monad. cbn.
  rewrite handleOnMeetingLeaveOf_spec.
  destruct w as [ls ss f c u tm tr co fo uu]. reflexivity.
Qed.

(** While [isConsultant] stays false the kept end handler is the one of
    the first render; once it has turned true and stays true, the handler is
    the one of the render at which it turned. *)
Lemma seenAfter_participant renders :
  Forall (fun u => isConsultant u = false) renders ->
  seenAfter renders = initialState.
Proof.
  unfold seenAfter. induction 1 as [|u rest Hu _ IH]; [reflexivity|].
  cbn [fold_left]. unfold useCallback at 2. rewrite Hu. exact IH.
Qed.

Lemma seenAfter_consultant before u after :
  Forall (fun x => isConsultant x = false) before ->
  isConsultant u = true ->
  Forall (fun x => isConsultant x = true) after ->
  seenAfter (before ++ u :: after) = u.
Proof.
  intros Hb Hu Ha. unfold seenAfter. rewrite fold_left_app.
  fold (seenAfter before). rewrite (seenAfter_participant _ Hb).
  cbn [fold_left]. unfold useCallback at 2. rewrite Hu. cbn.
  induction Ha as [|x rest Hx _ IH]; [reflexivity|].
  cbn [fold_left]. unfold useCallback at 2. rewrite Hu, Hx. exact IH.
Qed.

(** ** The start gate *)

Lemma runTimers_opens ts n w :
  openStartDialog (ui (snd (runTimers (ts ++ [TOpenStartDialog n]) w))) = true.
Proof.
  revert w. induction ts as [|[m] ts IH]; intros w.
  - destruct w as [ls ss nf nc nu tm tr co fo []]. reflexivity.
  - cbn [app runTimers]. unfold runTimer, setOpenStartDialog. unfold_monad.
    cbn. apply IH.
Qed.

Lemma requireUserData_ok env w userData id :
  getUserData env (localStorage w) = Normal userData ->
  truthy userData = true ->
  getProp userData "id" = Normal id ->
  truthy id = true ->
  requireUserData env w = (Normal userData, w).
Proof.
  intros Hu Ht Hid Hti. unfold requireUserData. unfold_monad.
  cbn. rewrite Hu, Ht. cbn. rewrite Hid. cbn. rewrite Hti. reflexivity.
Qed.

(** The start intent of a consultant: the status is read once, nothing
    but the traffic of that read is issued, and the status, converted to a
    string and upper-cased, decides between the prompt and the direct join. *)
Lemma onClickStartMeeting_gate env w :
  isConsultant (ui w) = true ->
  trim (participantName (ui w)) <> "" ->
  exists d w1 w' es,
    checkAppointmentStatus env (snd (setLoading true w)) = (Normal d, w1)
    /\ onClickStartMeeting env w = (Normal tt, w')
    /\ emits w w' es
    /\ forallb isStatusTraffic es = true
    /\ match toStringJs (getPropOpt d "status") with
       | Normal text =>
           if toUpperCase text =? "CONFIRMED"
           then isMeetingStarted (ui w') = isMeetingStarted (ui w)
                /\ timers w' = timers w ++ [TOpenStartDialog 100]
                /\ openStartDialog (ui (snd (flushTimers w'))) = true
           else isMeetingStarted (ui w') = true
                /\ timers w' = timers w
                /\ openStartDialog (ui w') = openStartDialog (ui w)
       | Throw _ =>
           isMeetingStarted (ui w') = isMeetingStarted (ui w)
           /\ timers w' = timers w ++ [TOpenStartDialog 100]
           /\ openStartDialog (ui (snd (flushTimers w'))) = true
       end.
Proof.
  intros Hc Hn. apply String.eqb_neq in Hn.
  destruct (checkAppointmentStatus_spec env (snd (setLoading true w)))
    as (d & w1 & es & Heq & Hem & Htr & Hfr & Hst & _).
  exists d, w1. expose w. expose_result w1. open_frame Hfr.
  unfold onClickStartMeeting, flushTimers. unfold_ui. unfold_monad. cbn.
  rewrite Hn. cbn. rewrite Heq. cbn. rewrite (status_is_object _ Hst). cbn.
  destruct (toStringJs (getPropOpt d "status")) as [text|e]; cbn;
    [destruct (toUpperCase text =? "CONFIRMED"); cbn|].
  all: eexists _, es; split; [reflexivity|]; split; [reflexivity|].
  all: cbn; split; [reflexivity|]; split; [assumption|].
  all: repeat split; apply runTimers_opens.
Qed.

(** The confirmation of the start prompt: the status is read again, and
    the start mutation is issued exactly when this read yields CONFIRMED. *)
Lemma handleConfirmStartMeeting_gate env wc userData id cid :
  getUserData env (localStorage wc) = Normal userData ->
  truthy userData = true ->
  getProp userData "id" = Normal id ->
  truthy id = true ->
  toStringJs id = Normal cid ->
  exists d w1 c wc',
    checkAppointmentStatus env (snd (setOpenStartDialog false (snd (setLoading true wc))))
      = (Normal d, w1)
    /\ handleConfirmStartMeeting env wc = (c, wc')
    /\ if strictEqStr (getPropOpt d "status") "CONFIRMED"
       then match serviceReply env (calls wc) with
            | Normal _ =>
                emits w1 wc' [startMutation env cid;
                              ESuccessAlert "Bắt đầu buổi tư vấn thành công!"]
                /\ isMeetingStarted (ui wc') = true
            | Throw _ =>
                (exists rest, emits w1 wc' (startMutation env cid :: rest)
                              /\ count isServiceCall rest = 0)
                /\ isMeetingStarted (ui wc') = isMeetingStarted (ui wc)
            end
       else exists es, emits w1 wc' es /\ count isServiceCall es = 0.
Proof.
  intros Hu Ht Hid Hti Hcid.
  destruct (checkAppointmentStatus_spec env
              (snd (setOpenStartDialog false (snd (setLoading true wc)))))
    as (d & w1 & es0 & Heq & Hem & Htr & Hfr & Hst & _).
  exists d, w1.
  pose proof (requireUserData_ok env
                (snd (setOpenStartDialog false (snd (setLoading true wc))))
                userData id) as Hreq.
  expose wc. expose_result w1. open_frame Hfr.
  specialize (Hreq Hu Ht Hid Hti).
  unfold handleConfirmStartMeeting, apiService_put, callService, startMutation.
  unfold_ui. unfold_monad. cbn.
  rewrite Hreq. cbn. rewrite Heq. cbn. rewrite (status_is_object _ Hst). cbn.
  destruct (strictEqStr (getPropOpt d "status") "CONFIRMED"); cbn.
  - rewrite Hid. cbn. rewrite Hcid. cbn.
    destruct (serviceReply env _) as [r|e]; cbn.
    + eexists _, _. split; [reflexivity|]. split; [reflexivity|].
      split; reflexivity.
    + destruct (toStringJs (errorMessageOf e)) as [msg|]; cbn.
      * eexists _, _. split; [reflexivity|]. split; [reflexivity|].
        cbn. split; [|reflexivity].
        exists [EErrorAlert ("Không thể bắt đầu buổi tư vấn: " +:+ msg)].
        split; reflexivity.
      * eexists _, _. split; [reflexivity|]. split; [reflexivity|].
        cbn. split; [|reflexivity].
        exists []. split; reflexivity.
  - destruct (strictEqStr (getPropOpt d "status") "ON_GOING"); cbn;
      [|destruct (strictEqStr (getPropOpt d "status") "COMPLETED"); cbn;
        [|destruct (toStringJs (getPropOpt d "status")); cbn;
          [|destruct (toStringJs (errorMessageOf e)); cbn]]].
    all: eexists _, _; split; [reflexivity|]; split; [reflexivity|].
    all: first [ exists []; split; reflexivity
               | eexists [_]; split; reflexivity ].
Qed.

Lemma strictEqStr_true v s : strictEqStr v s = true -> v = VStr s.
Proof.
  destruct v; cbn; try discriminate. intros H. apply String.eqb_eq in H. congruence.
Qed.

(** The confirmation of the start prompt when the status read again is not
    exactly CONFIRMED: a status that has a text joins the meeting and issues
    nothing, a status without one issues no call. *)
Lemma handleConfirmStartMeeting_other env wc userData id d w1 :
  getUserData env (localStorage wc) = Normal userData ->
  truthy userData = true ->
  getProp userData "id" = Normal id ->
  truthy id = true ->
  checkAppointmentStatus env (snd (setOpenStartDialog false (snd (setLoading true wc))))
  = (Normal d, w1) ->
  strictEqStr (getPropOpt d "status") "CONFIRMED" = false ->
  exists c wc',
    handleConfirmStartMeeting env wc = (c, wc')
    /\ match toStringJs (getPropOpt d "status") with
       | Normal _ =>
           c = Normal tt
           /\ emits w1 wc' []
           /\ isMeetingStarted (ui wc') = true
       | Throw _ =>
           (exists es, emits w1 wc' es /\ count isServiceCall es = 0)
           /\ isMeetingStarted (ui wc') = isMeetingStarted (ui wc)
       end.
Proof.
  intros Hu Ht Hid Hti Hread Hnot.
  destruct (checkAppointmentStatus_spec env
              (snd (setOpenStartDialog false (snd (setLoading true wc)))))
    as (d0 & w0 & es0 & Heq & Hem & _ & Hfr & Hst & _).
  rewrite Hread in Heq. injection Heq as Hd Hw. subst d0 w0.
  pose proof (requireUserData_ok env
                (snd (setOpenStartDialog false (snd (setLoading true wc))))
                userData id) as Hreq.
  destruct wc as [ls ss nf nc nu ts tr co fo
                  [mid name started busy err consultant osd oed note audio video ref]].
  expose_result w1. open_frame Hfr.
  specialize (Hreq Hu Ht Hid Hti).
  unfold handleConfirmStartMeeting. unfold_ui. unfold_monad. cbn.
  rewrite Hreq. cbn. rewrite Hread. cbn. rewrite (status_is_object _ Hst). cbn.
  rewrite Hnot. cbn.
  destruct (strictEqStr (getPropOpt d "status") "ON_GOING") eqn:Hon; cbn;
    [apply strictEqStr_true in Hon; rewrite Hon; cbn
    |destruct (strictEqStr (getPropOpt d "status") "COMPLETED") eqn:Hco; cbn;
      [apply strictEqStr_true in Hco; rewrite Hco; cbn
      |destruct (toStringJs (getPropOpt d "status")) as [text|e]; cbn;
        [|destruct (toStringJs (errorMessageOf e)) as [msg|]; cbn]]].
  all: eexists _, _; split; [reflexivity|]; cbn.
  all: first [ repeat split; reflexivity
             | split; [|reflexivity];
               first [ exists []; split; reflexivity
                     | eexists [_]; split; reflexivity ] ].
Qed.

(** C1 (amended). The start intent of a consultant who has entered a name
    is a gate on the status converted to a string and upper-cased: when that
    text is anything other than CONFIRMED the meeting is joined directly;
    when it is CONFIRMED, or the status has no text, the confirmation prompt
    is scheduled and shown and the meeting is not joined yet.  The start
    intent issues nothing but the traffic of its status read, so no start
    mutation.  On confirmation the status is read again.  If that read yields
    exactly CONFIRMED the start mutation is issued, and the meeting is joined
    when the call is acknowledged and not joined when it fails.  If it yields
    a status whose text, upper-cased, is other than CONFIRMED, nothing is
    issued and the meeting is joined; a status that has no text issues no
    call.  Cancelling issues nothing and does not join.  Nothing is said of a
    confirmation that reads a status which is not CONFIRMED and whose
    upper-cased text is. *)
Theorem start_intent_gate env w wc userData id cid :
  isConsultant (ui w) = true ->
  trim (participantName (ui w)) <> "" ->
  getUserData env (localStorage wc) = Normal userData ->
  truthy userData = true ->
  getProp userData "id" = Normal id ->
  truthy id = true ->
  toStringJs id = Normal cid ->
  (exists d w1 w' es,
      checkAppointmentStatus env (snd (setLoading true w)) = (Normal d, w1)
      /\ onClickStartMeeting env w = (Normal tt, w')
      /\ emits w w' es
      /\ forallb isStatusTraffic es = true
      /\ match toStringJs (getPropOpt d "status") with
         | Normal text =>
             if toUpperCase text =? "CONFIRMED"
             then isMeetingStarted (ui w') = isMeetingStarted (ui w)
                  /\ timers w' = timers w ++ [TOpenStartDialog 100]
                  /\ openStartDialog (ui (snd (flushTimers w'))) = true
             else isMeetingStarted (ui w') = true
                  /\ timers w' = timers w
                  /\ openStartDialog (ui w') = openStartDialog (ui w)
         | Throw _ =>
             isMeetingStarted (ui w') = isMeetingStarted (ui w)
             /\ timers w' = timers w ++ [TOpenStartDialog 100]
             /\ openStartDialog (ui (snd (flushTimers w'))) = true
         end)
  /\ (exists d w1 c wc',
         checkAppointmentStatus env
           (snd (setOpenStartDialog false (snd (setLoading true wc)))) = (Normal d, w1)
         /\ handleConfirmStartMeeting env wc = (c, wc')
         /\ if strictEqStr (getPropOpt d "status") "CONFIRMED"
            then match serviceReply env (calls wc) with
                 | Normal _ =>
                     emits w1 wc' [startMutation env cid;
                                   ESuccessAlert "Bắt đầu buổi tư vấn thành công!"]
                     /\ isMeetingStarted (ui wc') = true
                 | Throw _ =>
                     (exists rest, emits w1 wc' (startMutation env cid :: rest)
                                   /\ count isServiceCall rest = 0)
                     /\ isMeetingStarted (ui wc') = isMeetingStarted (ui wc)
                 end
            else match toStringJs (getPropOpt d "status") with
                 | Normal text =>
                     if toUpperCase text =? "CONFIRMED"
                     then True
                     else c = Normal tt
                          /\ emits w1 wc' []
                          /\ isMeetingStarted (ui wc') = true
                 | Throw _ =>
                     exists es, emits w1 wc' es /\ count isServiceCall es = 0
                 end)
  /\ (exists wx,
         cancelStartDialog wc = (Normal tt, wx)
         /\ emits wc wx []
         /\ openStartDialog (ui wx) = false
         /\ isMeetingStarted (ui wx) = isMeetingStarted (ui wc)).
Proof.
  intros Hc Hn Hu Ht Hid Hti Hcid.
  split; [apply onClickStartMeeting_gate; assumption|].
  split.
  - destruct (handleConfirmStartMeeting_gate env wc userData id cid Hu Ht Hid Hti Hcid)
      as (d & w1 & c & wc' & Hread & Hrun & Hgate).
    exists d, w1, c, wc'. repeat (split; [assumption|]).
    destruct (strictEqStr (getPropOpt d "status") "CONFIRMED") eqn:Hexact;
      [exact Hgate|].
    destruct (handleConfirmStartMeeting_other env wc userData id d w1
                Hu Ht Hid Hti Hread Hexact) as (c' & wc'' & Hrun' & Hother).
    rewrite Hrun in Hrun'. injection Hrun' as Hc' Hw'. subst c' wc''.
    destruct (toStringJs (getPropOpt d "status")) as [text|e].
    + destruct (toUpperCase text =? "CONFIRMED"); [exact I | exact Hother].
    + exact (proj1 Hother).
  - expose wc. eexists. split; [reflexivity|]. repeat split.
Qed.

Lemma start_intent_gate_witness :
  let env := sampleEnv (fun _ => statusReply (VStr "CONFIRMED")) (fun _ => acknowledged) in
  let w := sampleWorld signedIn joiningScreen in
  (isConsultant (ui w) = true
   /\ trim (participantName (ui w)) <> ""
   /\ getUserData env (localStorage w) = Normal sampleUser
   /\ truthy sampleUser = true
   /\ getProp sampleUser "id" = Normal (VNum 7)
   /\ truthy (VNum 7) = true
   /\ toStringJs (VNum 7) = Normal "7")
  /\ exists w', onClickStartMeeting env w = (Normal tt, w').
Proof.
  intros env w.
  split; [repeat split; try reflexivity; discriminate|].
  destruct (start_intent_gate env w w sampleUser (VNum 7) "7")
    as [(d & w1 & w' & es & _ & H & _) _];
    [reflexivity | discriminate | reflexivity | reflexivity | reflexivity
    | reflexivity | reflexivity |].
  exists w'. exact H.
Defined.

(** The prompt path end to end: CONFIRMED, the prompt opens, the user
    confirms, the appointment is started and the meeting joined. *)
Example confirmed_start_run :
  let env := sampleEnv (fun _ => statusReply (VStr "CONFIRMED")) (fun _ => acknowledged) in
  let asked := snd (onClickStartMeeting env (sampleWorld signedIn joiningScreen)) in
  let shown := snd (flushTimers asked) in
  let r := handleConfirmStartMeeting env shown in
  isMeetingStarted (ui asked) = false
  /\ count isServiceCall (trace asked) = 0
  /\ openStartDialog (ui shown) = true
  /\ fst r = Normal tt
  /\ isMeetingStarted (ui (snd r)) = true
  /\ openStartDialog (ui (snd r)) = false
  /\ rev (trace (snd r))
     = [getAppointment env "tok"; getAppointment env "tok"; startMutation env "7";
        ESuccessAlert "Bắt đầu buổi tư vấn thành công!"].
Proof. vm_compute. repeat split. Qed.

(** C1 as stated fails in three ways.  First, the status read yields
    [confirmed], which is not CONFIRMED, and the meeting is not joined
    directly: the prompt is scheduled instead.  Second, the status read
    yields an object that cannot be converted to a string, and again the
    prompt is scheduled.  Third, the status read of the start intent yields
    CONFIRMED and the prompt is shown; when the user confirms, the status is
    read again and the appointment is ON_GOING by then: the confirmation
    issues no start mutation and joins the meeting. *)
Lemma start_intent_counterexample :
  (let env := sampleEnv (fun _ => statusReply (VStr "confirmed")) (fun _ => acknowledged) in
   let w := sampleWorld signedIn joiningScreen in
   fst (checkAppointmentStatus env (snd (setLoading true w)))
     = Normal (VObj [("status", VStr "confirmed")])
   /\ strictEqStr (VStr "confirmed") "CONFIRMED" = false
   /\ isMeetingStarted (ui (snd (onClickStartMeeting env w))) = false
   /\ timers (snd (onClickStartMeeting env w)) = [TOpenStartDialog 100])
  /\ (let env := sampleEnv (fun _ => statusReply noTextStatus) (fun _ => acknowledged) in
      let w := sampleWorld signedIn joiningScreen in
      fst (checkAppointmentStatus env (snd (setLoading true w)))
        = Normal (VObj [("status", noTextStatus)])
      /\ toStringJs noTextStatus
         = Throw (TypeError "Cannot convert object to primitive value")
      /\ isMeetingStarted (ui (snd (onClickStartMeeting env w))) = false
      /\ timers (snd (onClickStartMeeting env w)) = [TOpenStartDialog 100])
  /\ (let env := sampleEnv (changingNet (VStr "CONFIRMED") (VStr "ON_GOING"))
                           (fun _ => acknowledged) in
      let w := sampleWorld signedIn joiningScreen in
      let asked := snd (onClickStartMeeting env w) in
      let shown := snd (flushTimers asked) in
      let r := handleConfirmStartMeeting env shown in
      fst (checkAppointmentStatus env (snd (setLoading true w)))
        = Normal (VObj [("status", VStr "CONFIRMED")])
      /\ isMeetingStarted (ui asked) = false
      /\ openStartDialog (ui shown) = true
      /\ fst (checkAppointmentStatus env
                (snd (setOpenStartDialog false (snd (setLoading true shown)))))
         = Normal (VObj [("status", VStr "ON_GOING")])
      /\ fst r = Normal tt
      /\ count isServiceCall (trace (snd r)) = 0
      /\ isMeetingStarted (ui (snd r)) = true).
Proof. vm_compute. repeat split. Qed.

(** ** The end gate *)

Lemma handleEndMeeting_gate env w :
  isConsultant (ui w) = true ->
  exists d w1 w',
    checkAppointmentStatus env w = (Normal d, w1)
    /\ handleEndMeeting env w = (Normal tt, w')
    /\ if strictEqStr (getPropOpt d "status") "ON_GOING"
       then emits w1 w' []
            /\ openEndDialog (ui w') = true
            /\ isMeetingStarted (ui w') = isMeetingStarted (ui w)
            /\ meetingRef (ui w') = meetingRef (ui w)
       else emits w1 w' (leaveEvents (ui w))
            /\ isMeetingStarted (ui w') = false
            /\ meetingRef (ui w') = None.
Proof.
  intros Hc.
  destruct (checkAppointmentStatus_spec env w)
    as (d & w1 & es0 & Heq & Hem & Htr & Hfr & Hst & _).
  exists d, w1. expose w. expose_result w1. open_frame Hfr.
  unfold handleEndMeeting. unfold_ui. unfold_monad. cbn.
  rewrite Heq. cbn. rewrite (status_is_object _ Hst). cbn.
  destruct (strictEqStr (getPropOpt d "status") "ON_GOING"); cbn.
  - eexists. split; [reflexivity|]. split; [reflexivity|].
    cbn. auto.
  - rewrite handleOnMeetingLeave_spec. cbn.
    eexists. split; [reflexivity|]. split; [reflexivity|].
    unfold afterLeave. cbn. auto.
Qed.

Lemma handleShowEndDialog_gate env seen w :
  isConsultant seen = true ->
  exists d w1 w',
    checkAppointmentStatus env
      (snd (setOpenEndDialog true (snd (setConsultantNote "" w)))) = (Normal d, w1)
    /\ handleShowEndDialog env seen w = (Normal tt, w')
    /\ if strictEqStr (getPropOpt d "status") "ON_GOING"
       then emits w1 w' []
            /\ openEndDialog (ui w') = true
            /\ isMeetingStarted (ui w') = isMeetingStarted (ui w)
            /\ meetingRef (ui w') = meetingRef (ui w)
       else (exists es, emits w1 w' es /\ count isServiceCall es = 0)
            /\ openEndDialog (ui w') = false
            /\ isMeetingStarted (ui w') = false
            /\ meetingRef (ui w') = None.
Proof.
  intros Hc.
  destruct (checkAppointmentStatus_spec env
              (snd (setOpenEndDialog true (snd (setConsultantNote "" w)))))
    as (d & w1 & es0 & Heq & Hem & Htr & Hfr & Hst & _).
  exists d, w1. expose w. expose_result w1. open_frame Hfr.
  unfold handleShowEndDialog. rewrite Hc. unfold_ui. unfold_monad. cbn.
  rewrite Heq. cbn. rewrite (status_is_object _ Hst). cbn.
  destruct (strictEqStr (getPropOpt d "status") "ON_GOING"); cbn.
  - eexists. split; [reflexivity|]. split; [reflexivity|].
    cbn. auto.
  - rewrite handleOnMeetingLeaveOf_spec. cbn.
    eexists. split; [reflexivity|]. split; [reflexivity|].
    unfold afterKeptLeave. cbn. split; [|auto].
    eexists. split; [reflexivity|].
    unfold count, keptLeaveEvents, directLeave. cbn.
    rewrite !filter_app, !length_app, !no_call_in_track_stops.
    match goal with m : option Meeting |- _ => destruct m end; reflexivity.
Qed.

Lemma handleConfirmEndMeeting_gate env wc userData id cid :
  getUserData env (localStorage wc) = Normal userData ->
  truthy userData = true ->
  getProp userData "id" = Normal id ->
  truthy id = true ->
  toStringJs id = Normal cid ->
  exists d w1 c wc',
    checkAppointmentStatus env (snd (setOpenEndDialog false wc)) = (Normal d, w1)
    /\ handleConfirmEndMeeting env wc = (c, wc')
    /\ openEndDialog (ui wc') = false
    /\ if strictEqStr (getPropOpt d "status") "ON_GOING"
       then match serviceReply env (calls wc) with
            | Normal _ =>
                emits w1 wc'
                  ([endMutation env cid (consultantNote (ui wc));
                    ESuccessAlert "Hoàn thành buổi tư vấn thành công!"]
                   ++ directLeave (ui wc) ++ leaveEvents (ui wc))
                /\ isMeetingStarted (ui wc') = false
                /\ meetingRef (ui wc') = None
            | Throw _ =>
                (exists rest,
                    emits w1 wc' (endMutation env cid (consultantNote (ui wc)) :: rest)
                    /\ count isServiceCall rest = 0
                    /\ count isLeave rest = 0)
                /\ isMeetingStarted (ui wc') = isMeetingStarted (ui wc)
                /\ meetingRef (ui wc') = meetingRef (ui wc)
            end
       else emits w1 wc' (directLeave (ui wc) ++ leaveEvents (ui wc))
            /\ isMeetingStarted (ui wc') = false
            /\ meetingRef (ui wc') = None.
Proof.
  intros Hu Ht Hid Hti Hcid.
  destruct (checkAppointmentStatus_spec env (snd (setOpenEndDialog false wc)))
    as (d & w1 & es0 & Heq & Hem & Htr & Hfr & Hst & _).
  exists d, w1.
  pose proof (requireUserData_ok env (snd (setOpenEndDialog false wc)) userData id)
    as Hreq.
  expose wc. expose_result w1. open_frame Hfr.
  specialize (Hreq Hu Ht Hid Hti).
  unfold handleConfirmEndMeeting, apiService_put, callService, endMutation, directLeave.
  unfold_ui. unfold_monad. cbn.
  rewrite Hreq. cbn. rewrite Heq. cbn. rewrite (status_is_object _ Hst). cbn.
  unfold afterLeave, leaveEvents.
  destruct (strictEqStr (getPropOpt d "status") "ON_GOING"); cbn.
  - rewrite Hid. cbn. rewrite Hcid. cbn.
    destruct (serviceReply env _) as [r|e]; cbn.
    + match goal with m : option Meeting |- _ => destruct m end;
        cbn; rewrite handleOnMeetingLeave_spec.
      all: eexists _, _; split; [reflexivity|]; split; [reflexivity|].
      all: unfold afterLeave, leaveEvents; cbn.
      all: split; [reflexivity|]; split; [trace_eq|]; split; reflexivity.
    + destruct (toStringJs (errorMessageOf e)) as [msg|]; cbn.
      all: eexists _, _; split; [reflexivity|]; split; [reflexivity|].
      all: cbn; split; [reflexivity|]; split; [|split; reflexivity].
      * exists [EErrorAlert ("Không thể kết thúc buổi tư vấn: " +:+ msg)].
        split; [reflexivity|]. split; reflexivity.
      * exists []. split; [reflexivity|]. split; reflexivity.
  - match goal with m : option Meeting |- _ => destruct m end;
      cbn; rewrite handleOnMeetingLeave_spec.
    all: eexists _, _; split; [reflexivity|]; split; [reflexivity|].
    all: unfold afterLeave, leaveEvents; cbn.
    all: split; [reflexivity|]; split; [trace_eq|]; split; reflexivity.
Qed.

(** C2 (amended). The end intent of a consultant is a gate on the status
    read: anything other than ON_GOING leaves the meeting directly, with no
    end mutation; exactly ON_GOING shows the confirmation prompt and leaves
    the meeting as it is.  This holds for handleEndMeeting and for
    handleShowEndDialog, the handler the meeting container is given, from
    whichever render of a consultant it is kept.  On
    confirmation the status is read again: when it is ON_GOING the end
    mutation is issued with the entered note, and the meeting is left once
    the call is acknowledged and not left when the call fails; when it is no
    longer ON_GOING the meeting is left without a mutation.  Cancelling
    closes the prompt and changes nothing else: the meeting stays open. *)
Theorem end_intent_gate env w seen wc userData id cid :
  isConsultant (ui w) = true ->
  isConsultant seen = true ->
  getUserData env (localStorage wc) = Normal userData ->
  truthy userData = true ->
  getProp userData "id" = Normal id ->
  truthy id = true ->
  toStringJs id = Normal cid ->
  (exists d w1 w',
      checkAppointmentStatus env w = (Normal d, w1)
      /\ handleEndMeeting env w = (Normal tt, w')
      /\ if strictEqStr (getPropOpt d "status") "ON_GOING"
         then emits w1 w' []
              /\ openEndDialog (ui w') = true
              /\ isMeetingStarted (ui w') = isMeetingStarted (ui w)
              /\ meetingRef (ui w') = meetingRef (ui w)
         else emits w1 w' (leaveEvents (ui w))
              /\ isMeetingStarted (ui w') = false
              /\ meetingRef (ui w') = None)
  /\ (exists d w1 w',
         checkAppointmentStatus env
           (snd (setOpenEndDialog true (snd (setConsultantNote "" w)))) = (Normal d, w1)
         /\ handleShowEndDialog env seen w = (Normal tt, w')
         /\ if strictEqStr (getPropOpt d "status") "ON_GOING"
            then emits w1 w' []
                 /\ openEndDialog (ui w') = true
                 /\ isMeetingStarted (ui w') = isMeetingStarted (ui w)
                 /\ meetingRef (ui w') = meetingRef (ui w)
            else (exists es, emits w1 w' es /\ count isServiceCall es = 0)
                 /\ openEndDialog (ui w') = false
                 /\ isMeetingStarted (ui w') = false
                 /\ meetingRef (ui w') = None)
  /\ (exists d w1 c wc',
         checkAppointmentStatus env (snd (setOpenEndDialog false wc)) = (Normal d, w1)
         /\ handleConfirmEndMeeting env wc = (c, wc')
         /\ openEndDialog (ui wc') = false
         /\ if strictEqStr (getPropOpt d "status") "ON_GOING"
            then match serviceReply env (calls wc) with
                 | Normal _ =>
                     emits w1 wc'
                       ([endMutation env cid (consultantNote (ui wc));
                         ESuccessAlert "Hoàn thành buổi tư vấn thành công!"]
                        ++ directLeave (ui wc) ++ leaveEvents (ui wc))
                     /\ isMeetingStarted (ui wc') = false
                     /\ meetingRef (ui wc') = None
                 | Throw _ =>
                     (exists rest,
                         emits w1 wc'
                           (endMutation env cid (consultantNote (ui wc)) :: rest)
                         /\ count isServiceCall rest = 0
                         /\ count isLeave rest = 0)
                     /\ isMeetingStarted (ui wc') = isMeetingStarted (ui wc)
                     /\ meetingRef (ui wc') = meetingRef (ui wc)
                 end
            else emits w1 wc' (directLeave (ui wc) ++ leaveEvents (ui wc))
                 /\ isMeetingStarted (ui wc') = false
                 /\ meetingRef (ui wc') = None)
  /\ (exists wx,
         cancelEndDialog wc = (Normal tt, wx)
         /\ emits wc wx []
         /\ openEndDialog (ui wx) = false
         /\ isMeetingStarted (ui wx) = isMeetingStarted (ui wc)
         /\ meetingRef (ui wx) = meetingRef (ui wc)
         /\ consultantNote (ui wx) = consultantNote (ui wc)).
Proof.
  intros Hc Hs Hu Ht Hid Hti Hcid.
  split; [apply handleEndMeeting_gate; assumption|].
  split; [apply handleShowEndDialog_gate; assumption|].
  split; [eapply handleConfirmEndMeeting_gate; eassumption|].
  expose wc. eexists. split; [reflexivity|]. repeat split.
Qed.

Lemma end_intent_gate_witness :
  let env := sampleEnv (fun _ => statusReply (VStr "ON_GOING")) (fun _ => acknowledged) in
  let w := sampleWorld signedIn inMeeting in
  (isConsultant (ui w) = true
   /\ isConsultant joiningScreen = true
   /\ getUserData env (localStorage w) = Normal sampleUser
   /\ truthy sampleUser = true
   /\ getProp sampleUser "id" = Normal (VNum 7)
   /\ truthy (VNum 7) = true
   /\ toStringJs (VNum 7) = Normal "7")
  /\ exists w', handleShowEndDialog env joiningScreen w = (Normal tt, w').
Proof.
  intros env w.
  split; [repeat split; reflexivity|].
  destruct (end_intent_gate env w joiningScreen w sampleUser (VNum 7) "7")
    as (_ & (d & w1 & w' & _ & H & _) & _);
    [reflexivity | reflexivity | reflexivity | reflexivity | reflexivity | reflexivity
    | reflexivity |].
  exists w'. exact H.
Defined.

(** C2 as stated fails: the status read of the end intent yields ON_GOING
    and the prompt is shown; when the user confirms, the status is read again
    and the appointment is COMPLETED by then.  The confirmation issues no end
    mutation and leaves the meeting. *)
Lemma end_confirm_reads_again_counterexample :
  let env := sampleEnv (changingNet (VStr "ON_GOING") (VStr "COMPLETED"))
                       (fun _ => acknowledged) in
  let w := sampleWorld signedIn consultantInCall in
  let asked := snd (handleShowEndDialog env joiningScreen w) in
  let r := handleConfirmEndMeeting env asked in
  fst (checkAppointmentStatus env
         (snd (setOpenEndDialog true (snd (setConsultantNote "" w)))))
    = Normal (VObj [("status", VStr "ON_GOING")])
  /\ openEndDialog (ui asked) = true
  /\ isMeetingStarted (ui asked) = true
  /\ fst (checkAppointmentStatus env (snd (setOpenEndDialog false asked)))
     = Normal (VObj [("status", VStr "COMPLETED")])
  /\ fst r = Normal tt
  /\ count isServiceCall (trace (snd r)) = 0
  /\ isMeetingStarted (ui (snd r)) = false
  /\ meetingRef (ui (snd r)) = None.
Proof. vm_compute. repeat split. Qed.

(** A refused end mutation: the status is ON_GOING at the confirmation, the
    end mutation is issued and the backend refuses it; the meeting is not
    left. *)
Example end_confirm_rejected_run :
  let env := sampleEnv (fun _ => statusReply (VStr "ON_GOING")) (fun _ => rejected) in
  let w := sampleWorld signedIn inMeeting in
  let r := handleConfirmEndMeeting env w in
  fst (checkAppointmentStatus env (snd (setOpenEndDialog false w)))
    = Normal (VObj [("status", VStr "ON_GOING")])
  /\ count isServiceCall (trace (snd r)) = 1
  /\ count isLeave (trace (snd r)) = 0
  /\ isMeetingStarted (ui (snd r)) = true.
Proof. vm_compute. repeat split. Qed.

(** ** A failed status check *)

(** Whenever the status read returns the UNKNOWN default, the start intent
    joins directly and schedules no prompt. *)
Lemma unknown_status_joins_directly env w w1 :
  isConsultant (ui w) = true ->
  trim (participantName (ui w)) <> "" ->
  checkAppointmentStatus env (snd (setLoading true w)) = (Normal unknownStatus, w1) ->
  isMeetingStarted (ui (snd (onClickStartMeeting env w))) = true
  /\ timers (snd (onClickStartMeeting env w)) = timers w.
Proof.
  intros Hc Hn Hread.
  destruct (onClickStartMeeting_gate env w Hc Hn)
    as (d & w1' & w' & es & Heq & Hrun & _ & _ & Hgate).
  rewrite Hread in Heq. inversion Heq; subst d w1'.
  rewrite Hrun. cbn in Hgate |- *. destruct Hgate as (Hj & Ht & _). auto.
Qed.

(** C4, at the failing input: the network is down, so the status check
    fails and yields the UNKNOWN default.  The start path joins the meeting
    at once and never shows the prompt; the end path closes the prompt it had
    opened, leaves the meeting and shows no error. *)
Theorem status_check_failure_skips_prompt :
  let env := sampleEnv (fun _ => FetchReject (TypeError "Failed to fetch"))
                       (fun _ => acknowledged) in
  let w := sampleWorld signedIn joiningScreen in
  let started := snd (onClickStartMeeting env w) in
  let ended := snd (handleShowEndDialog env joiningScreen
                      (sampleWorld signedIn inMeeting)) in
  fst (checkAppointmentStatus env (snd (setLoading true w))) = Normal unknownStatus
  /\ isMeetingStarted (ui started) = true
  /\ timers started = []
  /\ openStartDialog (ui (snd (flushTimers started))) = false
  /\ openEndDialog (ui ended) = false
  /\ isMeetingStarted (ui ended) = false
  /\ count isErrorAlert (trace ended) = 0.
Proof. vm_compute. repeat split. Qed.

(** ** Teardown *)

(** A second [handleOnMeetingLeave] finds the reference cleared and issues
    no leave. *)
Lemma second_leave_is_silent w :
  count isLeave (leaveEvents (ui (afterLeave w))) = 0.
Proof.
  expose w. unfold afterLeave, leaveEvents, count. cbn.
  rewrite !filter_app, !length_app, !no_leave_in_track_stops. reflexivity.
Qed.

(** The confirmed end of a joined meeting calls [leave] twice: once
    directly and once more inside [handleOnMeetingLeave]. *)
Lemma confirmed_end_leaves (u : MeetingState) m :
  meetingRef u = Some m ->
  count isLeave (directLeave u ++ leaveEvents u) = 2.
Proof.
  intros H. unfold directLeave, leaveEvents, count. rewrite H. cbn.
  rewrite !filter_app, !length_app, !no_leave_in_track_stops. reflexivity.
Qed.

(** The cleanup of the unmount effect. *)
Lemma unmountCleanup_spec w :
  exists w',
    unmountCleanup w = (Normal tt, w')
    /\ emits w w' (unmountEvents (ui w))
    /\ ui w' = ui w.
Proof.
  expose w. unfold unmountCleanup, unmountEvents, emits. unfold_monad. cbn.
  match goal with m : option Meeting |- _ => destruct m as [[[|]]|] end; cbn.
  all: rewrite !stopTracks_spec; cbn.
  all: eexists; split; [reflexivity|]; split; [|reflexivity].
  all: cbn; rewrite ?rev_app_distr; cbn; repeat (rewrite <- app_assoc; cbn).
  all: reflexivity.
Qed.

(** An explicit leave followed by the unmount of the page tells the
    meeting handle to leave once: the cleanup finds the reference cleared. *)
Lemma leave_then_unmount_leaves_once w m :
  meetingRef (ui w) = Some m ->
  count isLeave (leaveEvents (ui w) ++ unmountEvents (ui (afterLeave w))) = 1.
Proof.
  intros H. expose w. cbn in H. subst.
  unfold count, leaveEvents, unmountEvents, afterLeave. cbn.
  rewrite !filter_app, !length_app, !no_leave_in_track_stops. reflexivity.
Qed.

(** C8, at the failing input: the consultant confirms the end of an ON_GOING
    appointment from inside the meeting and the backend acknowledges it.  The
    tracks of both streams are stopped, but the meeting handle is told to
    leave twice. *)
Theorem confirmed_end_leaves_twice :
  let env := sampleEnv (fun _ => statusReply (VStr "ON_GOING")) (fun _ => acknowledged) in
  let r := handleConfirmEndMeeting env (sampleWorld signedIn inMeeting) in
  fst r = Normal tt
  /\ count isLeave (trace (snd r)) = 2
  /\ rev (trace (snd r))
     = [getAppointment env "tok"; endMutation env "7" "session went well";
        ESuccessAlert "Hoàn thành buổi tư vấn thành công!";
        ELeave; ELeave; ETrackStop 1; ETrackStop 2; ENavigate "/"].
Proof. vm_compute. repeat split. Qed.

(** ** The queued survey submission *)

(** With nothing queued the flush does nothing. *)
Lemma flush_nothing_queued env w :
  truthyText (localStorage w !! "pendingSurveySubmission") = false ->
  handlePendingSurveySubmission env w = (Normal false, w).
Proof.
  intros H. unfold handlePendingSurveySubmission. unfold_monad. cbn.
  rewrite H. reflexivity.
Qed.

Ltac flush_frame :=
  cbn; intros;
  repeat first [ rewrite lookup_insert_ne by congruence
               | rewrite lookup_delete_ne by congruence ];
  auto.

(** The flush never throws and touches only the two survey keys of durable
    storage. *)
Lemma handlePendingSurveySubmission_spec env w :
  exists sent w' es,
    handlePendingSurveySubmission env w = (Normal sent, w')
    /\ emits w w' es
    /\ sessionStorage w' = sessionStorage w
    /\ form w' = form w
    /\ (forall k, k <> "pendingSurveySubmission" -> k <> "surveySubmissionResult" ->
                  localStorage w' !! k = localStorage w !! k).
Proof.
  destruct w.
  unfold handlePendingSurveySubmission, callService. unfold_monad. unfold emits.
  run.
  all: cbn.
  all: eexists; eexists;
    first [ exists (@nil Event);
            split; [reflexivity|]; split; [reflexivity|]; solve [repeat split; flush_frame]
          | eexists [_; _];
            split; [reflexivity|]; split; [reflexivity|]; solve [repeat split; flush_frame]
          | eexists [_; _; _];
            split; [reflexivity|]; split; [reflexivity|]; solve [repeat split; flush_frame] ].
Qed.

(** C10. A queued submission found by the flush is removed from durable
    storage and a result record is written, the success record when the
    submission went through and the failure record in every other case (the
    server refused, the payload does not parse or lacks a field).  A later
    flush finds nothing queued and submits nothing: a failed submission is
    not retried. *)
Theorem pending_survey_flushed_once env w stored :
  localStorage w !! "pendingSurveySubmission" = Some stored ->
  stored <> "" ->
  exists sent w',
    handlePendingSurveySubmission env w = (Normal sent, w')
    /\ localStorage w' !! "pendingSurveySubmission" = None
    /\ localStorage w' !! "surveySubmissionResult"
       = Some (JSON_stringify env
                 (if sent then surveySuccessRecord else surveyFailureRecord))
    /\ handlePendingSurveySubmission env w' = (Normal false, w').
Proof.
  intros Hq Hne. apply String.eqb_neq in Hne.
  destruct w. cbn in Hq.
  unfold handlePendingSurveySubmission at 1. unfold callService. unfold_monad.
  repeat (repeat (progress (reduce; rewrite ?Hq, ?Hne)); try step; try absurd_case).
  all: cbn.
  all: eexists; eexists; split; [reflexivity|]; cbn.
  all: split; [simplify_map_eq; reflexivity|].
  all: split; [simplify_map_eq; reflexivity|].
  all: apply flush_nothing_queued; cbn; simplify_map_eq; reflexivity.
Qed.

Lemma pending_survey_flushed_once_witness :
  let env := sampleEnv (fun _ => statusReply (VStr "CONFIRMED")) (fun _ => rejected) in
  let w := sampleWorld queuedSurvey joiningScreen in
  (localStorage w !! "pendingSurveySubmission" = Some (stringify samplePending)
   /\ stringify samplePending <> "")
  /\ exists sent w', handlePendingSurveySubmission env w = (Normal sent, w').
Proof.
  intros env w.
  split; [split; [reflexivity | vm_compute; discriminate]|].
  destruct (pending_survey_flushed_once env w (stringify samplePending))
    as (sent & w' & H & _); [reflexivity | vm_compute; discriminate |].
  exists sent, w'. exact H.
Defined.

(** A refused submission: the payload is gone and the failure is recorded. *)
Example refused_submission_run :
  let env := sampleEnv (fun _ => statusReply (VStr "CONFIRMED")) (fun _ => rejected) in
  let r := handlePendingSurveySubmission env (sampleWorld queuedSurvey joiningScreen) in
  fst r = Normal false
  /\ localStorage (snd r) !! "pendingSurveySubmission" = None
  /\ localStorage (snd r) !! "surveySubmissionResult"
     = Some (stringify surveyFailureRecord)
  /\ count isServiceCall (trace (snd r)) = 1.
Proof. vm_compute. repeat split. Qed.

(** ** The login form *)

Ltac flow_eq :=
  cbn; rewrite ?rev_app_distr; cbn; repeat (rewrite <- app_assoc; cbn); reflexivity.

(** C6. A login submission that the auth service fails with error [e]
    ends with exactly one notice: the connectivity message when the name of
    the error is TypeError or NetworkError, the invalid-credentials message
    for every other error.  Nothing else is issued, nothing is stored and the
    busy flag is cleared. *)
Theorem login_failure_classified env w e :
  trim (username (form w)) <> "" ->
  password (form w) <> "" ->
  serviceReply env (calls w) = Throw e ->
  exists w',
    handleSubmit env w = (Normal tt, w')
    /\ emits w w'
         [EPreventDefault;
          ECall (CLogin (username (form w)) (password (form w)));
          EErrorAlert
            (if (err_name e =? "TypeError") || (err_name e =? "NetworkError")
             then "Đã xảy ra lỗi khi đăng nhập. Vui lòng thử lại sau."
             else "Username hoặc Mật khẩu sai!")]
    /\ isLoading (form w') = false
    /\ localStorage w' = localStorage w.
Proof.
  intros Hu Hp Hreply.
  apply String.eqb_neq in Hu. apply String.eqb_neq in Hp.
  destruct w as [ls ss f c u tm tr co [un pw sp il er] mu]. cbn in Hu, Hp, Hreply.
  unfold handleSubmit, validateForm, login, callService. unfold_ui. unfold_monad.
  unfold emits. cbn. rewrite Hu, Hp. cbn. rewrite Hreply. cbn.
  destruct ((err_name e =? "TypeError") || (err_name e =? "NetworkError")); cbn.
  all: eexists; split; [reflexivity|]; repeat split.
Qed.

Lemma login_failure_classified_witness :
  let env := sampleEnv (fun _ => statusReply (VStr "CONFIRMED")) (fun _ => networkDown) in
  let w := sampleWorld ∅ joiningScreen in
  (trim (username (form w)) <> ""
   /\ password (form w) <> ""
   /\ serviceReply env (calls w) = Throw (TypeError "Failed to fetch"))
  /\ exists w', handleSubmit env w = (Normal tt, w').
Proof.
  intros env w.
  split; [repeat split; try reflexivity; discriminate|].
  destruct (login_failure_classified env w (TypeError "Failed to fetch"))
    as (w' & H & _); [discriminate | discriminate | reflexivity |].
  exists w'. exact H.
Defined.

(** No failure escapes the submission: whatever the login, the flush and
    the redirect do, the handler completes. *)
Lemma handleSubmit_never_throws env w :
  exists w', handleSubmit env w = (Normal tt, w').
Proof.
  expose w.
  unfold handleSubmit, validateForm, login, callService, redirectAfterLoginSuccess.
  unfold_ui. unfold_monad.
  run.
  all: eexists; reflexivity.
Qed.

Lemma handleGoogleLoginResponse_never_throws env response w :
  exists w', handleGoogleLoginResponse env response w = (Normal tt, w').
Proof.
  expose w.
  unfold handleGoogleLoginResponse, callService, redirectAfterLoginSuccess.
  unfold_ui. unfold_monad.
  run.
  all: eexists; reflexivity.
Qed.

(** C7. A successful login performs, in this order: the two tokens are
    persisted, the login-success flag is set, the flush of a queued survey
    submission is attempted, and the page is redirected, to the address
    requested before the login when there is one (the one kept in tab storage,
    else the return URL of the route) and otherwise to the application root.
    The password path submits only when the trimmed username and the password
    are not empty; with an empty field nothing is submitted.  The identity
    provider path performs the same flow without local validation. *)
Theorem login_success_flow env w data a r ta tr response credential :
  serviceReply env (calls w) = Normal data ->
  getProp data "accessToken" = Normal a ->
  toStringJs a = Normal ta ->
  getProp data "refreshToken" = Normal r ->
  toStringJs r = Normal tr ->
  getProp response "credential" = Normal credential ->
  (if (trim (username (form w)) =? "") || (password (form w) =? "")
   then exists w', handleSubmit env w = (Normal tt, w')
                   /\ emits w w' [EPreventDefault]
   else exists w3 sent w4 flushed w',
          localStorage w3
          = <["loginSuccess" := "true"]>
              (<["refreshToken" := tr]> (<["accessToken" := ta]> (localStorage w)))
          /\ handlePendingSurveySubmission env w3 = (Normal sent, w4)
          /\ emits w3 w4 flushed
          /\ handleSubmit env w = (Normal tt, w')
          /\ emits w w'
               ([EPreventDefault;
                 ECall (CLogin (username (form w)) (password (form w)));
                 ELocalSet "accessToken" ta;
                 ELocalSet "refreshToken" tr;
                 ELocalSet "loginSuccess" "true"]
                ++ flushed ++ redirectEvents env w))
  /\ (exists w3 sent w4 flushed w',
         localStorage w3
         = <["loginSuccess" := "true"]>
             (<["refreshToken" := tr]> (<["accessToken" := ta]> (localStorage w)))
         /\ handlePendingSurveySubmission env w3 = (Normal sent, w4)
         /\ emits w3 w4 flushed
         /\ handleGoogleLoginResponse env response w = (Normal tt, w')
         /\ emits w w'
              ([ECall (CAxiosPost (API_URL env +:+ "/auth/google-login")
                                  (VObj [("credential", credential)]));
                ELocalSet "accessToken" ta;
                ELocalSet "refreshToken" tr;
                ELocalSet "loginSuccess" "true"]
               ++ flushed ++ redirectEvents env w)).
Proof.
  intros Hreply Ha Hta Hr Htr Hcred.
  destruct w as [ls ss f c u tm tr0 co [un pw sp il er] mu]. cbn in Hreply.
  split.
  - cbn [form username password].
    unfold handleSubmit, validateForm, login, callService, redirectAfterLoginSuccess,
      redirectEvents.
    unfold_ui. unfold_monad. unfold emits.
    destruct (trim un =? "") eqn:Hun; destruct (pw =? "") eqn:Hpw; cbn;
      rewrite ?Hun, ?Hpw; cbn.
    1-3: eexists; split; reflexivity.
    rewrite Hreply. cbn. rewrite Ha. cbn. rewrite Hr. cbn. rewrite Hta. cbn.
    rewrite Htr. cbn.
    match goal with
    | |- context [handlePendingSurveySubmission env ?w3] =>
        destruct (handlePendingSurveySubmission_spec env w3)
          as (sent & w4 & flushed & Heq & Hem & Hss & Hform & Hls);
        exists w3, sent, w4, flushed
    end.
    expose_result w4. unfold emits in Hem. cbn in Hem, Hss, Hform. subst.
    rewrite Heq. cbn.
    destruct (truthyText (ss !! "redirectAfterLogin")); cbn;
      [|destruct (truthyText (returnUrl env)); cbn].
    all: eexists; split; [reflexivity|]; split; [reflexivity|]; split; [reflexivity|].
    all: split; [reflexivity|]; flow_eq.
  - unfold handleGoogleLoginResponse, callService, redirectAfterLoginSuccess,
      redirectEvents.
    unfold_ui. unfold_monad. unfold emits. cbn.
    rewrite Hcred. cbn. rewrite Hreply. cbn. rewrite Ha. cbn. rewrite Hr. cbn.
    rewrite Hta. cbn. rewrite Htr. cbn.
    match goal with
    | |- context [handlePendingSurveySubmission env ?w3] =>
        destruct (handlePendingSurveySubmission_spec env w3)
          as (sent & w4 & flushed & Heq & Hem & Hss & Hform & Hls);
        exists w3, sent, w4, flushed
    end.
    expose_result w4. unfold emits in Hem. cbn in Hem, Hss, Hform. subst.
    rewrite Heq. cbn.
    destruct (truthyText (ss !! "redirectAfterLogin")); cbn;
      [|destruct (truthyText (returnUrl env)); cbn].
    all: eexists; split; [reflexivity|]; split; [reflexivity|]; split; [reflexivity|].
    all: split; [reflexivity|]; flow_eq.
Qed.

Lemma login_success_flow_witness :
  let env := sampleEnv (fun _ => statusReply (VStr "CONFIRMED")) (fun _ => loginReply) in
  let w := sampleWorld queuedSurvey joiningScreen in
  let response := VObj [("credential", VStr "id-token")] in
  (serviceReply env (calls w) = loginReply
   /\ getProp (VObj [("accessToken", VStr "tok"); ("refreshToken", VStr "ref")])
              "accessToken" = Normal (VStr "tok")
   /\ toStringJs (VStr "tok") = Normal "tok"
   /\ getProp (VObj [("accessToken", VStr "tok"); ("refreshToken", VStr "ref")])
              "refreshToken" = Normal (VStr "ref")
   /\ toStringJs (VStr "ref") = Normal "ref"
   /\ getProp response "credential" = Normal (VStr "id-token"))
  /\ exists w', handleGoogleLoginResponse env response w = (Normal tt, w').
Proof.
  intros env w response.
  split; [repeat split; reflexivity|].
  destruct (login_success_flow env w
              (VObj [("accessToken", VStr "tok"); ("refreshToken", VStr "ref")])
              (VStr "tok") (VStr "ref") "tok" "ref" response (VStr "id-token"))
    as [_ (w3 & sent & w4 & flushed & w' & _ & _ & _ & H & _)];
    [reflexivity | reflexivity | reflexivity | reflexivity | reflexivity
    | reflexivity |].
  exists w'. exact H.
Defined.

(** The password path with a survey queued: tokens, flag, flush, redirect. *)
Example password_login_run :
  let env := sampleEnv (fun _ => statusReply (VStr "CONFIRMED")) (fun _ => loginReply) in
  let r := handleSubmit env (sampleWorld queuedSurvey joiningScreen) in
  fst r = Normal tt
  /\ rev (trace (snd r))
     = [EPreventDefault; ECall (CLogin "lan" "secret");
        ELocalSet "accessToken" "tok"; ELocalSet "refreshToken" "ref";
        ELocalSet "loginSuccess" "true";
        ECall (CSubmitSurvey (VNum 3) (VArr [VNum 1; VNum 2]));
        ELocalRemove "pendingSurveySubmission";
        ELocalSet "surveySubmissionResult" (stringify surveySuccessRecord);
        ERedirect "/"].
Proof. vm_compute. repeat split. Qed.

(** ** The participant id *)

(** C5. The participant id is a function of its identity source.  For a
    signed-in user, whose stored profile parses and has a truthy id that
    prints as [text], every invocation returns the id derived from the
    profile id and the meeting id, in any world that holds the same profile
    and meeting id.  Without a profile, the first invocation in a tab draws a
    temporary id and caches it in tab storage, a second invocation in the same
    tab returns the cached id, and an invocation in a new tab returns the next
    draw, which differs from the first whenever the two draws of the random
    generator differ. *)
Theorem participant_id_stable env w w2 wa stored profile u1 text :
  localStorage w !! "userProfile" = Some stored ->
  stored <> "" ->
  JSON_parse env stored = Some profile ->
  getProp profile "id" = Normal u1 ->
  truthy u1 = true ->
  toStringJs u1 = Normal text ->
  localStorage w2 !! "userProfile" = Some stored ->
  meetingId (ui w2) = meetingId (ui w) ->
  truthyText (localStorage wa !! "userProfile") = false ->
  sessionStorage wa !! "tempParticipantId" = None ->
  randomUUID env (uuids wa) <> "" ->
  randomUUID env (S (uuids wa)) <> randomUUID env (uuids wa) ->
  (fst (getParticipantId env w)
   = Normal (Some ("user-" +:+ text +:+ "-meeting-" +:+ meetingId (ui w)))
   /\ fst (getParticipantId env w2) = fst (getParticipantId env w)
   /\ fst (getParticipantId env (snd (getParticipantId env w)))
      = fst (getParticipantId env w))
  /\ (let first := getParticipantId env wa in
      let second := getParticipantId env (snd first) in
      let other := getParticipantId env (newTab (snd second)) in
      fst first = Normal (Some (randomUUID env (uuids wa)))
      /\ fst second = fst first
      /\ fst other = Normal (Some (randomUUID env (S (uuids wa))))
      /\ fst other <> fst first).
Proof.
  intros Hp Hne Hparse Hid Htruthy Htext Hp2 Hmid Hanon Hfresh Huuid Hdiff.
  apply String.eqb_neq in Hne.
  assert (Hsigned : forall w0,
            localStorage w0 !! "userProfile" = Some stored ->
            exists w0',
              getParticipantId env w0
              = (Normal (Some ("user-" +:+ text +:+ "-meeting-" +:+ meetingId (ui w0))), w0')
              /\ localStorage w0' = localStorage w0
              /\ ui w0' = ui w0).
  { intros w0 H0. destruct w0. cbn in H0.
    unfold getParticipantId. unfold_monad. cbn.
    rewrite H0. cbn. rewrite Hne. cbn. rewrite Hparse. cbn. rewrite Hid. cbn.
    rewrite Htruthy. cbn. rewrite Htruthy. cbn. rewrite Htext. cbn.
    eexists. split; [reflexivity|]. split; reflexivity. }
  split.
  - destruct (Hsigned w Hp) as (w' & Hrun & Hls & Hui).
    destruct (Hsigned w2 Hp2) as (w2' & Hrun2 & _ & _).
    assert (Hp' : localStorage w' !! "userProfile" = Some stored) by (rewrite Hls; exact Hp).
    destruct (Hsigned w' Hp') as (w'' & Hrun' & _ & _).
    rewrite Hrun, Hrun2. cbn. rewrite Hrun'. cbn. rewrite Hmid, Hui. auto.
  - apply String.eqb_neq in Huuid.
    destruct wa as [ls ss f c u tm tr co fo mu]. cbn in Hanon, Hfresh, Huuid, Hdiff.
    unfold getParticipantId, crypto_randomUUID, newTab. unfold_monad. cbn.
    rewrite Hanon. cbn. rewrite Hfresh. cbn. rewrite lookup_insert_eq. cbn.
    rewrite Hanon. cbn. rewrite lookup_insert_eq. cbn. rewrite Huuid. cbn.
    rewrite lookup_insert_eq. cbn.
    rewrite Hanon. cbn. rewrite lookup_empty. cbn. rewrite lookup_insert_eq. cbn.
    repeat split. congruence.
Qed.

Lemma participant_id_stable_witness :
  let env := sampleEnv (fun _ => statusReply (VStr "CONFIRMED")) (fun _ => acknowledged) in
  let w := sampleWorld withProfile joiningScreen in
  let w2 := sampleWorld withProfile inMeeting in
  let wa := sampleWorld ∅ joiningScreen in
  (localStorage w !! "userProfile" = Some (stringify sampleProfile)
   /\ stringify sampleProfile <> ""
   /\ JSON_parse env (stringify sampleProfile) = Some sampleProfile
   /\ getProp sampleProfile "id" = Normal (VStr "U1")
   /\ truthy (VStr "U1") = true
   /\ toStringJs (VStr "U1") = Normal "U1"
   /\ localStorage w2 !! "userProfile" = Some (stringify sampleProfile)
   /\ meetingId (ui w2) = meetingId (ui w)
   /\ truthyText (localStorage wa !! "userProfile") = false
   /\ sessionStorage wa !! "tempParticipantId" = None
   /\ randomUUID env (uuids wa) <> ""
   /\ randomUUID env (S (uuids wa)) <> randomUUID env (uuids wa))
  /\ fst (getParticipantId env w) = Normal (Some "user-U1-meeting-M1").
Proof.
  intros env w w2 wa.
  split; [repeat split; try reflexivity; vm_compute; discriminate|].
  destruct (participant_id_stable env w w2 wa (stringify sampleProfile) sampleProfile
              (VStr "U1") "U1")
    as [(H & _) _];
    [reflexivity | vm_compute; discriminate | reflexivity | reflexivity | reflexivity
    | reflexivity | reflexivity | reflexivity | reflexivity | reflexivity
    | vm_compute; discriminate | vm_compute; discriminate |].
  exact H.
Defined.

(** Two tabs of an anonymous visitor. *)
Example anonymous_tabs_run :
  let env := sampleEnv (fun _ => statusReply (VStr "CONFIRMED")) (fun _ => acknowledged) in
  let first := getParticipantId env (sampleWorld ∅ joiningScreen) in
  let second := getParticipantId env (snd first) in
  let other := getParticipantId env (newTab (snd second)) in
  fst first = Normal (Some "00000000-0000-4000-8000-000000000000")
  /\ fst second = Normal (Some "00000000-0000-4000-8000-000000000000")
  /\ fst other = Normal (Some "00000000-0000-4000-8000-000000000001").
Proof. vm_compute. repeat split. Qed.

(** * The rest of the two components: proofs *)

Lemma count_app p (l1 l2 : list Event) : count p (l1 ++ l2) = count p l1 + count p l2.
Proof. unfold count. rewrite filter_app, length_app. reflexivity. Qed.

Lemma count_rev p (l : list Event) : count p (rev l) = count p l.
Proof.
  induction l as [|x l IH]; [reflexivity|].
  cbn [rev]. rewrite count_app, IH. unfold count. cbn.
  destruct (p x); cbn; lia.
Qed.

Lemma count_cons p (x : Event) l :
  count p (x :: l) = (if p x then 1 else 0) + count p l.
Proof. unfold count. cbn. destruct (p x); reflexivity. Qed.

Lemma count_nil p : count p [] = 0.
Proof. reflexivity. Qed.

Ltac count_events :=
  repeat first [ rewrite count_cons | rewrite count_app | rewrite count_rev
               | rewrite count_nil ].

(** The events a log holds above a base log, newest first. *)
Ltac prefix_of t base :=
  lazymatch t with
  | base => constr:(@nil Event)
  | ?x :: ?r => let p := prefix_of r base in constr:(x :: p)
  | ?l ++ ?r => let p := prefix_of r base in constr:(l ++ p)
  end.

(** Name the world a run has ended in and the events above [base]. *)
Ltac give_run base :=
  lazymatch goal with
  | |- exists w' es, (_, ?W) = _ /\ _ =>
      let t := eval cbn in (trace W) in
      let p := prefix_of t base in
      exists W, (rev p)
  end.

Ltac log_eq :=
  rewrite ?rev_involutive; cbn; repeat (rewrite <- app_assoc; cbn); reflexivity.

Lemma getProp_of_truthy v k : truthy v = true -> getProp v k = Normal (getPropOpt v k).
Proof. destruct v; cbn; intros H; try discriminate H; reflexivity. Qed.

(** ** The login form *)

Lemma fieldError_spreadWith_same k v errs :
  fieldError k (spreadWith k v errs) = Some v.
Proof.
  induction errs as [|[k' v'] rest IH]; cbn.
  - rewrite String.eqb_refl. reflexivity.
  - destruct (k' =? k) eqn:E; cbn.
    + rewrite String.eqb_refl. reflexivity.
    + rewrite E. exact IH.
Qed.

Lemma fieldError_spreadWith_other k k0 v errs :
  k0 <> k ->
  fieldError k0 (spreadWith k v errs) = fieldError k0 errs.
Proof.
  intros Hne. induction errs as [|[k' v'] rest IH]; cbn.
  - apply String.eqb_neq in Hne. rewrite String.eqb_sym, Hne. reflexivity.
  - destruct (k' =? k) eqn:E; cbn.
    + apply String.eqb_eq in E. subst k'.
      apply String.eqb_neq in Hne. rewrite String.eqb_sym in Hne. rewrite Hne.
      reflexivity.
    + destruct (k' =? k0); [reflexivity|exact IH].
Qed.

(** Showing and hiding the password changes the type of the field and
    nothing else; doing it twice restores the form. *)
Lemma togglePasswordVisibility_spec w :
  exists w1 w2,
    togglePasswordVisibility w = (Normal tt, w1)
    /\ passwordFieldType (form w1)
       = (if showPassword (form w) then "password" else "text")
    /\ password (form w1) = password (form w)
    /\ errors (form w1) = errors (form w)
    /\ togglePasswordVisibility w1 = (Normal tt, w2)
    /\ form w2 = form w.
Proof.
  destruct w as [ls ss nf nc nu ts tr co [un pw sp busy errs] mu].
  unfold togglePasswordVisibility, setShowPassword, passwordFieldType.
  unfold_monad. cbn.
  eexists _, _. split; [reflexivity|]. cbn.
  rewrite negb_involutive. destruct sp; repeat split.
Qed.

(** X1. Typing in a field of the login form stores the typed text and
    clears the error shown under that field, whatever it was; the other
    field, the error shown under the other field and the busy flag are left
    as they are, and nothing is sent or stored. *)
Theorem field_edit_clears_own_error value w :
  (exists w',
      handleUsernameChange value w = (Normal tt, w')
      /\ username (form w') = value
      /\ password (form w') = password (form w)
      /\ fieldInvalid "username" (form w') = false
      /\ fieldError "password" (errors (form w'))
         = fieldError "password" (errors (form w))
      /\ trace w' = trace w
      /\ isLoading (form w') = isLoading (form w))
  /\ (exists w',
         handlePasswordChange value w = (Normal tt, w')
         /\ password (form w') = value
         /\ username (form w') = username (form w)
         /\ fieldInvalid "password" (form w') = false
         /\ fieldError "username" (errors (form w'))
            = fieldError "username" (errors (form w))
         /\ trace w' = trace w
         /\ isLoading (form w') = isLoading (form w)).
Proof.
  destruct w as [ls ss nf nc nu ts tr co [un pw sp busy errs] mu].
  unfold handleUsernameChange, handlePasswordChange, setUsername, setPassword, fieldInvalid.
  unfold_ui. unfold_monad. cbn.
  split.
  - destruct (truthyText (fieldError "username" errs)) eqn:E; cbn.
    + eexists. split; [reflexivity|]. cbn.
      rewrite fieldError_spreadWith_same.
      rewrite fieldError_spreadWith_other by discriminate. repeat split.
    + eexists. split; [reflexivity|]. cbn. rewrite E. repeat split.
  - destruct (truthyText (fieldError "password" errs)) eqn:E; cbn.
    + eexists. split; [reflexivity|]. cbn.
      rewrite fieldError_spreadWith_same.
      rewrite fieldError_spreadWith_other by discriminate. repeat split.
    + eexists. split; [reflexivity|]. cbn. rewrite E. repeat split.
Qed.

(** X2. The validation of the login form depends on the current text of
    the two fields only, not on the errors shown before: after a username
    [u] and a password [p] have been typed it succeeds exactly when [u] has a
    character that is not white space and [p] is not empty (a password of
    blanks passes), it marks exactly the failing fields, and a submission of
    a form that fails it does nothing but cancel the default action of the
    browser. *)
Theorem validation_reads_current_fields env u p w :
  exists w1 w2 w3,
    handleUsernameChange u w = (Normal tt, w1)
    /\ handlePasswordChange p w1 = (Normal tt, w2)
    /\ validateForm w2 = (Normal (negb (trim u =? "") && negb (p =? "")), w3)
    /\ fieldInvalid "username" (form w3) = (trim u =? "")
    /\ fieldInvalid "password" (form w3) = (p =? "")
    /\ trace w3 = trace w
    /\ (if negb (trim u =? "") && negb (p =? "")
        then errors (form w3) = []
        else exists w4, handleSubmit env w3 = (Normal tt, w4)
                        /\ emits w3 w4 [EPreventDefault]
                        /\ isLoading (form w4) = isLoading (form w)).
Proof.
  destruct w as [ls ss nf nc nu ts tr co [un pw sp busy errs] mu].
  unfold handleSubmit.
  unfold handleUsernameChange, handlePasswordChange, setUsername, setPassword, fieldInvalid,
    validateForm.
  unfold_ui. unfold_monad. unfold emits. cbn.
  destruct (trim u =? "") eqn:Eu; destruct (p =? "") eqn:Ep.
  all: destruct (truthyText (fieldError "username" errs));
    [ destruct (truthyText (fieldError "password" (spreadWith "username" "" errs)))
        eqn:E2
    | destruct (truthyText (fieldError "password" errs)) eqn:E2 ]; cbn.
  all: eexists _, _, _; split; [reflexivity|]; cbn; rewrite E2; cbn.
  all: split; [reflexivity|]; cbn; repeat (progress (rewrite ?Eu, ?Ep; cbn)).
  all: repeat (split; [reflexivity|]).
  all: try reflexivity.
  all: repeat (progress (rewrite ?Eu, ?Ep; cbn)).
  all: eexists; split; [reflexivity|]; split; reflexivity.
Qed.

(** A username of no-break spaces is refused like an empty one. *)
Example blank_username_run :
  let w := snd (handleUsernameChange (noBreakSpace +:+ ideographicSpace)
                  (sampleWorld signedIn joiningScreen)) in
  fst (validateForm w) = Normal false
  /\ fieldInvalid "username" (form (snd (validateForm w))) = true
  /\ fieldInvalid "password" (form (snd (validateForm w))) = false.
Proof. vm_compute. repeat split. Qed.


(** The flush, by what it issues. *)
Lemma handlePendingSurveySubmission_events env w :
  exists sent w' es,
    handlePendingSurveySubmission env w = (Normal sent, w')
    /\ emits w w' es
    /\ sessionStorage w' = sessionStorage w
    /\ form w' = form w
    /\ (forall k, k <> "pendingSurveySubmission" -> k <> "surveySubmissionResult" ->
                  localStorage w' !! k = localStorage w !! k)
    /\ (if sent
        then exists surveyId selectedOptionIds r,
               es = flushSuccess env surveyId selectedOptionIds
               /\ serviceReply env (calls w) = Normal r
               /\ calls w' = S (calls w)
        else (es = [] /\ calls w' = calls w
              /\ truthyText (localStorage w !! "pendingSurveySubmission") = false)
             \/ (es = flushFailure env /\ calls w' = calls w)
             \/ (exists surveyId selectedOptionIds e,
                   es = ECall (CSubmitSurvey surveyId selectedOptionIds) :: flushFailure env
                   /\ serviceReply env (calls w) = Throw e
                   /\ calls w' = S (calls w))).
Proof.
  destruct w.
  unfold handlePendingSurveySubmission, callService, flushSuccess, flushFailure.
  unfold_monad. unfold emits.
  run.
  all: cbn.
  all: eexists; eexists.
  all: first
    [ exists (@nil Event);
      split; [reflexivity|]; split; [reflexivity|]; split; [reflexivity|];
      split; [reflexivity|]; split; [flush_frame|];
      left; repeat split; negbs; assumption
    | eexists [_; _];
      split; [reflexivity|]; split; [reflexivity|]; split; [reflexivity|];
      split; [reflexivity|]; split; [flush_frame|];
      right; left; split; reflexivity
    | eexists [_; _; _];
      split; [reflexivity|]; split; [reflexivity|]; split; [reflexivity|];
      split; [reflexivity|]; split; [flush_frame|];
      first [ eexists _, _, _; split; [reflexivity|];
              split; [first [eassumption | reflexivity]|]; reflexivity
            | right; right; eexists _, _, _; split; [reflexivity|];
              split; [first [eassumption | reflexivity]|]; reflexivity ] ].
Qed.

Lemma flush_events_are_quiet env w sent w' es :
  handlePendingSurveySubmission env w = (Normal sent, w') ->
  emits w w' es ->
  count isRedirect es = 0 /\ count isErrorAlert es = 0.
Proof.
  intros Hrun Hem.
  destruct (handlePendingSurveySubmission_events env w)
    as (sent0 & w0 & es0 & Hrun0 & Hem0 & _ & _ & _ & Hes).
  rewrite Hrun in Hrun0. inversion Hrun0; subst sent0 w0.
  assert (es = es0) as ->.
  { unfold emits in *. rewrite Hem in Hem0. apply app_inv_tail in Hem0.
    apply (f_equal (@rev Event)) in Hem0. rewrite !rev_involutive in Hem0. exact Hem0. }
  destruct sent.
  - destruct Hes as (sid & opts & r & -> & _). split; reflexivity.
  - destruct Hes as [(-> & _)|[(-> & _)|(sid & opts & e & -> & _)]]; split; reflexivity.
Qed.

(** X3. Whatever the identity provider hands over and whatever the backend
    answers, the handler of a Google sign-in completes and clears the busy
    flag, and it ends in exactly one of two ways: with a redirect as its last
    effect, the login-success flag set and no notice shown; or with the
    failure notice as its last effect, no redirect and the login-success flag
    as it was. *)
Theorem google_login_redirects_or_alerts env response w :
  exists w' es,
    handleGoogleLoginResponse env response w = (Normal tt, w')
    /\ emits w w' es
    /\ isLoading (form w') = false
    /\ ((localStorage w' !! "loginSuccess" = Some "true"
         /\ (exists front target, es = front ++ [ERedirect target])
         /\ count isRedirect es = 1
         /\ count isErrorAlert es = 0)
        \/ (localStorage w' !! "loginSuccess" = localStorage w !! "loginSuccess"
            /\ (exists front, es = front ++ [googleFailureAlert])
            /\ count isRedirect es = 0
            /\ count isErrorAlert es = 1)).
Proof.
  destruct w as [ls ss nf nc nu ts tr co [un pw sp busy errs] mu].
  unfold handleGoogleLoginResponse, callService, redirectAfterLoginSuccess,
    googleFailureAlert.
  unfold_ui. unfold_monad. unfold emits. cbn.
  destruct (getProp response "credential") as [cred|e] eqn:Hc; cbn;
    [destruct (serviceReply env nc) as [data|e] eqn:Hs; cbn;
     [destruct (getProp data "accessToken") as [a|e] eqn:Ha; cbn;
      [destruct (getProp data "refreshToken") as [r|e] eqn:Hr; cbn;
       [destruct (toStringJs a) as [ta|e] eqn:Hta; cbn;
        [destruct (toStringJs r) as [tr'|e] eqn:Htr; cbn|]|]|]|]|].
  2-7: give_run tr; split; [reflexivity|]; split; [log_eq|]; split; [reflexivity|];
       right; cbn; rewrite ?lookup_insert_ne by discriminate;
       split; [reflexivity|];
       split; [first [ exists []; reflexivity | eexists [_]; reflexivity
                     | eexists [_; _]; reflexivity | eexists [_; _; _]; reflexivity ]|];
       split; reflexivity.
  match goal with
  | |- context [handlePendingSurveySubmission env ?w3] =>
      destruct (handlePendingSurveySubmission_events env w3)
        as (sent & w4 & fl & Hrun & Hem & Hss & Hform & Hls & _);
      destruct (flush_events_are_quiet _ _ _ _ _ Hrun Hem) as [Hq1 Hq2]
  end.
  expose_result w4. unfold emits in Hem. cbn in Hem, Hss, Hform, Hls. subst.
  rewrite Hrun. cbn.
  destruct (truthyText (ss !! "redirectAfterLogin")); cbn;
    [|destruct (truthyText (returnUrl env)); cbn].
  all: give_run tr; split; [reflexivity|]; split; [log_eq|]; split; [reflexivity|].
  all: left; split; [cbn; rewrite Hls by discriminate; apply lookup_insert_eq|].
  all: split; [eexists _, _; reflexivity|].
  all: split; count_events; rewrite ?Hq1, ?Hq2; reflexivity.
Qed.

(** X4. The flush of a queued survey never fails and makes at most one
    call, a survey submission.  It returns true exactly when that submission
    was sent and acknowledged, and then it has removed the payload and
    written the success record, in this order; when it returns false it has
    done nothing (nothing was queued), or it has written the failure record
    and removed the payload without a call (the payload is unusable) or
    after a call that the service refused. *)
Theorem flush_submits_at_most_once env w :
  exists sent w' es,
    handlePendingSurveySubmission env w = (Normal sent, w')
    /\ emits w w' es
    /\ count isServiceCall es <= 1
    /\ count isSurveySubmission es = count isServiceCall es
    /\ sessionStorage w' = sessionStorage w
    /\ (if sent
        then exists surveyId selectedOptionIds r,
               es = flushSuccess env surveyId selectedOptionIds
               /\ serviceReply env (calls w) = Normal r
        else es = []
             \/ es = flushFailure env
             \/ exists surveyId selectedOptionIds e,
                  es = ECall (CSubmitSurvey surveyId selectedOptionIds) :: flushFailure env
                  /\ serviceReply env (calls w) = Throw e).
Proof.
  destruct (handlePendingSurveySubmission_events env w)
    as (sent & w' & es & Hrun & Hem & Hss & _ & _ & Hes).
  exists sent, w', es.
  split; [exact Hrun|]. split; [exact Hem|].
  destruct sent.
  - destruct Hes as (sid & opts & r & -> & Hr & _).
    cbn. repeat split; auto. eauto.
  - destruct Hes as [(-> & _)|[(-> & _)|(sid & opts & e & -> & He & _)]].
    all: cbn; repeat split; auto.
    right. right. eauto.
Qed.

(** X5. The page asked for before the login is used once: a redirect that
    finds it in tab storage goes there and removes it, so the redirect after
    a later login in the same tab goes to the return URL of the route when
    there is one and to the application root otherwise, and removes
    nothing. *)
Theorem redirect_target_consumed_once env w target :
  sessionStorage w !! "redirectAfterLogin" = Some target ->
  target <> "" ->
  exists w1 w2,
    redirectAfterLoginSuccess env w = (Normal tt, w1)
    /\ emits w w1 [ESessionRemove "redirectAfterLogin"; ERedirect target]
    /\ sessionStorage w1 !! "redirectAfterLogin" = None
    /\ redirectAfterLoginSuccess env w1 = (Normal tt, w2)
    /\ emits w1 w2 [ERedirect (if truthyText (returnUrl env)
                               then default "" (returnUrl env) else "/")]
    /\ sessionStorage w2 = sessionStorage w1.
Proof.
  intros Ht Hne. apply String.eqb_neq in Hne. destruct w. cbn in Ht.
  unfold redirectAfterLoginSuccess. unfold_monad. unfold emits. cbn.
  rewrite Ht. cbn. rewrite Hne. cbn.
  destruct (truthyText (returnUrl env)) eqn:E; cbn.
  all: eexists _, _; split; [reflexivity|]; split; [reflexivity|].
  all: split; [cbn; apply lookup_delete_eq|].
  all: cbn; rewrite lookup_delete_eq; cbn; rewrite ?E; cbn.
  all: repeat split.
Qed.

Lemma redirect_target_consumed_once_witness :
  let env := visitorEnv (fun _ => statusReply (VStr "CONFIRMED")) (fun _ => acknowledged) in
  (sessionStorage rememberingTab !! "redirectAfterLogin" = Some "/appointments/42"
   /\ "/appointments/42" <> "")
  /\ exists w1 w2,
       redirectAfterLoginSuccess env rememberingTab = (Normal tt, w1)
       /\ redirectAfterLoginSuccess env w1 = (Normal tt, w2)
       /\ emits w1 w2 [ERedirect "/courses"].
Proof.
  intros env.
  split; [split; [reflexivity | discriminate]|].
  destruct (redirect_target_consumed_once env rememberingTab "/appointments/42")
    as (w1 & w2 & H1 & _ & _ & H2 & H3 & _); [reflexivity | discriminate |].
  exists w1, w2. repeat split; assumption.
Defined.

(** ** The start of the meeting page *)

Ltac unfold_page :=
  unfold init, getToken, validateMeeting, callVideo, setToken, setParticipantNameValue,
    tryCatchPage, callService in *;
  unfold onWorld in *;
  unfold setMeetingId, setParticipantName, setIsConsultant in *;
  unfold_ui; unfold_monad; unfold mbind, OnPage_bind, mret, OnPage_ret in *.

Ltac expose_page p :=
  destruct p as [[? ? ? ? ? ? ? ? ? [? ? ? ? ? ? ? ? ? ? ? ?]] ? ? ?].

Ltac name_page p :=
  destruct p as [[ls ss nf nc nu ts tr co fo
                  [mid name started busy err consultant osd oed note audio video ref]]
                 tk pn vc].

(** X6. The effect that starts the meeting page always settles: it never
    throws and it ends with the loading flag cleared.  It asks for the token
    first and validates the meeting at most once; besides that it sends at
    most the request for the details of the user.  It touches neither
    storage nor the meeting or the dialogs, it never takes the consultant
    role away, and the error it leaves is the one it found or one of its
    three messages. *)
Theorem init_settles env videoCallId p :
  exists p',
    init env videoCallId p = (Normal tt, p')
    /\ loading (ui (world p')) = false
    /\ isMeetingStarted (ui (world p')) = isMeetingStarted (ui (world p))
    /\ openStartDialog (ui (world p')) = openStartDialog (ui (world p))
    /\ openEndDialog (ui (world p')) = openEndDialog (ui (world p))
    /\ localStorage (world p') = localStorage (world p)
    /\ sessionStorage (world p') = sessionStorage (world p)
    /\ fetches (world p') = fetches (world p)
    /\ implb (isConsultant (ui (world p))) (isConsultant (ui (world p'))) = true
    /\ (error (ui (world p')) = error (ui (world p))
        \/ error (ui (world p')) = connectionError
        \/ error (ui (world p')) = meetingGoneError
        \/ error (ui (world p')) = invalidIdError)
    /\ (trace (world p') = trace (world p)
        \/ exists tok, trace (world p') = postMe env tok :: trace (world p))
    /\ (exists front, videoCalls p' = front ++ CGetToken :: videoCalls p
                      /\ length front <= 1
                      /\ forallb isValidation front = true).
Proof.
  name_page p. unfold_page. unfold postMe.
  run.
  all: eexists; split; [reflexivity|]; cbn.
  all: repeat (split; [first [reflexivity | destruct consultant; reflexivity]|]).
  all: split; [unfold connectionError, meetingGoneError, invalidIdError; auto|].
  all: split; [first [left; reflexivity | right; eexists; reflexivity]|].
  all: first [ exists []; cbn; split; [reflexivity|]; split; [lia|reflexivity]
             | eexists [_]; cbn; split; [reflexivity|]; split; [lia|reflexivity] ].
Qed.

(** X7. When the request for the token fails, the start of the page stops
    there: the connection message is left in [error] and the loading flag is
    cleared, and neither the details of the user are requested nor the
    meeting validated; the token, the role, the name and the meeting id stay
    as they were.  The page then shows the error panel with that message. *)
Theorem init_token_failure_stops env videoCallId p e :
  serviceReply env (calls (world p)) = Throw e ->
  exists p',
    init env videoCallId p = (Normal tt, p')
    /\ error (ui (world p')) = connectionError
    /\ loading (ui (world p')) = false
    /\ videoCalls p' = CGetToken :: videoCalls p
    /\ calls (world p') = S (calls (world p))
    /\ token p' = token p
    /\ prefilledName p' = prefilledName p
    /\ trace (world p') = trace (world p)
    /\ isConsultant (ui (world p')) = isConsultant (ui (world p))
    /\ participantName (ui (world p')) = participantName (ui (world p))
    /\ meetingId (ui (world p')) = meetingId (ui (world p))
    /\ fst (render env (world p')) = Normal (ScreenError connectionError).
Proof.
  intros H. expose_page p. cbn in H. unfold_page. unfold render. unfold_monad. cbn.
  rewrite H. cbn.
  eexists. split; [reflexivity|]. cbn. repeat split.
Qed.

Lemma init_token_failure_stops_witness :
  let env := sampleEnv (fun _ => statusReply (VStr "CONFIRMED")) (fun _ => networkDown) in
  let p := mountedPage signedIn joiningScreen in
  serviceReply env (calls (world p)) = Throw (TypeError "Failed to fetch")
  /\ exists p', init env (Some "M1") p = (Normal tt, p')
                /\ error (ui (world p')) = connectionError.
Proof.
  intros env p.
  split; [reflexivity|].
  destruct (init_token_failure_stops env (Some "M1") p (TypeError "Failed to fetch"))
    as (p' & H1 & H2 & _); [reflexivity|].
  exists p'. repeat split; assumption.
Defined.

(** X8. Without a call id in the route the meeting is never validated and
    the start of the page always ends in an error: the invalid-id message,
    or the connection message when an earlier step has failed.  The meeting
    id of the page is left as it was, and the page shows the error panel. *)
Theorem init_without_call_id env videoCallId p :
  truthyText videoCallId = false ->
  exists p',
    init env videoCallId p = (Normal tt, p')
    /\ (error (ui (world p')) = invalidIdError
        \/ error (ui (world p')) = connectionError)
    /\ videoCalls p' = CGetToken :: videoCalls p
    /\ meetingId (ui (world p')) = meetingId (ui (world p))
    /\ fst (render env (world p')) = Normal (ScreenError (error (ui (world p')))).
Proof.
  intros H. expose_page p. unfold_page. unfold render. unfold_monad.
  repeat (repeat (progress (reduce; rewrite ?H)); try step; try absurd_case).
  all: eexists; split; [reflexivity|]; cbn.
  all: unfold invalidIdError, connectionError; auto.
Qed.

Lemma init_without_call_id_witness :
  let env := sampleEnv (fun _ => statusReply (VStr "CONFIRMED")) (mountReplies validMeeting) in
  let p := mountedPage signedIn joiningScreen in
  truthyText None = false
  /\ exists p', init env None p = (Normal tt, p')
                /\ videoCalls p' = CGetToken :: videoCalls p.
Proof.
  intros env p.
  split; [reflexivity|].
  destruct (init_without_call_id env None p) as (p' & H1 & _ & H2 & _); [reflexivity|].
  exists p'. repeat split; assumption.
Defined.

(** X9. For a visitor who is not signed in, once the token has arrived the
    start of the page keeps the token, takes the call id of the route as the
    meeting id and validates the meeting with that id and that token, and
    requests nothing else.  The reply to the validation alone decides the
    error: a rejection or an empty result leaves the connection message, a
    result with a truthy [err] the meeting-gone message, and any other
    result leaves the error as it was, so an earlier error is not cleared. *)
Theorem init_validates_for_visitor env videoCallId p tok userData vid :
  serviceReply env (calls (world p)) = Normal tok ->
  getUserData env (localStorage (world p)) = Normal userData ->
  truthy userData = false ->
  videoCallId = Some vid ->
  vid <> "" ->
  exists p',
    init env videoCallId p = (Normal tt, p')
    /\ token p' = tok
    /\ meetingId (ui (world p')) = vid
    /\ videoCalls p' = CValidateMeeting vid tok :: CGetToken :: videoCalls p
    /\ error (ui (world p'))
       = validationError (serviceReply env (S (calls (world p)))) (error (ui (world p)))
    /\ loading (ui (world p')) = false
    /\ trace (world p') = trace (world p)
    /\ isConsultant (ui (world p')) = isConsultant (ui (world p))
    /\ participantName (ui (world p')) = participantName (ui (world p)).
Proof.
  intros Htok Hu Hf -> Hne. apply String.eqb_neq in Hne.
  name_page p. cbn in Htok, Hu. unfold_page. unfold validationError. cbn.
  rewrite Htok. cbn. rewrite Hu. cbn. rewrite Hf. cbn. rewrite Hne. cbn.
  destruct (serviceReply env (S nc)) as [v|e]; cbn.
  - destruct v as [| | | | | |vfields]; cbn.
    all: try (eexists; split; [reflexivity|]; cbn; repeat split).
    destruct (truthy (default VUndefined (assoc "err" vfields))); cbn.
    all: eexists; split; [reflexivity|]; cbn; repeat split.
  - eexists. split; [reflexivity|]. cbn. repeat split.
Qed.

Lemma init_validates_for_visitor_witness :
  let env := visitorEnv (fun _ => statusReply (VStr "CONFIRMED"))
                        (visitorReplies (VObj [("err", VStr "Room not found")])) in
  let p := mountedPage ∅ attendeeJoining in
  (serviceReply env (calls (world p)) = Normal (VStr "video-token")
   /\ getUserData env (localStorage (world p)) = Normal VNull
   /\ truthy VNull = false
   /\ Some "M7" = Some "M7"
   /\ "M7" <> "")
  /\ exists p', init env (Some "M7") p = (Normal tt, p')
                /\ error (ui (world p')) = meetingGoneError.
Proof.
  intros env p.
  split; [repeat split; try reflexivity; discriminate|].
  destruct (init_validates_for_visitor env (Some "M7") p (VStr "video-token") VNull "M7")
    as (p' & H1 & _ & _ & _ & H2 & _);
    [reflexivity | reflexivity | reflexivity | reflexivity | discriminate |].
  exists p'. split; [exact H1|]. rewrite H2. reflexivity.
Defined.

(** X10. For a signed-in user whose roles are a list or a text, or are
    missing, and who holds an access token: once the token of the meeting
    has arrived the start of the page raises the consultant role when the
    roles include ROLE_CONSULTANT (and never lowers it), and requests the
    details of the user with the access token, exactly once.  A full name in
    the reply is handed to the name of the participant; a reply without one,
    and a failed request, leave the name as it was and do not stop the start:
    in every case the meeting is validated when the route has a call id, and
    the error is decided by the validation alone. *)
Theorem init_for_signed_in_user env videoCallId p tok userData b accessToken :
  serviceReply env (calls (world p)) = Normal tok ->
  getUserData env (localStorage (world p)) = Normal userData ->
  truthy userData = true ->
  detectConsultant userData = Normal b ->
  localStorage (world p) !! "accessToken" = Some accessToken ->
  accessToken <> "" ->
  exists p',
    init env videoCallId p = (Normal tt, p')
    /\ token p' = tok
    /\ isConsultant (ui (world p')) = isConsultant (ui (world p)) || b
    /\ emits (world p) (world p') [postMe env accessToken]
    /\ match serviceReply env (S (calls (world p))) with
       | Normal data =>
           if truthy (getPropOpt data "fullName")
           then prefilledName p' = Some (getPropOpt data "fullName")
                /\ forall s, getPropOpt data "fullName" = VStr s ->
                             participantName (ui (world p')) = s
           else prefilledName p' = prefilledName p
                /\ participantName (ui (world p')) = participantName (ui (world p))
       | Throw _ =>
           prefilledName p' = prefilledName p
           /\ participantName (ui (world p')) = participantName (ui (world p))
       end
    /\ videoCalls p'
       = (if truthyText videoCallId
          then [CValidateMeeting (default "" videoCallId) tok]
          else [])
         ++ CGetToken :: videoCalls p
    /\ error (ui (world p'))
       = (if truthyText videoCallId
          then validationError (serviceReply env (S (S (calls (world p)))))
                               (error (ui (world p)))
          else invalidIdError).
Proof.
  intros Htok Hu Ht Hrole Hat Hne. apply String.eqb_neq in Hne.
  unfold detectConsultant in Hrole.
  pose proof (getProp_of_truthy userData "roles" Ht) as Hroles.
  name_page p. cbn in Htok, Hu, Hat.
  unfold_page. unfold emits, postMe, validationError, invalidIdError, connectionError,
    meetingGoneError. cbn.
  rewrite Htok. cbn. rewrite Hu. cbn. rewrite Ht. cbn. rewrite Hroles. cbn.
  destruct (truthy (getPropOpt userData "roles")) eqn:TR; cbn;
    [rewrite Hrole; destruct b | inversion Hrole; subst b]; cbn.
  all: rewrite ?Ht; cbn; rewrite Hat; cbn; rewrite Hne; cbn.
  all: destruct (serviceReply env (S nc)) as [data|e] eqn:Hd; cbn.
  all: try (destruct (truthy data) eqn:Td; cbn;
            [ rewrite (getProp_of_truthy data "fullName" Td); cbn;
              destruct (truthy (getPropOpt data "fullName")) eqn:Tf; cbn;
              [ destruct (getPropOpt data "fullName") eqn:F; cbn | ]
            | destruct (truthy (getPropOpt data "fullName")) eqn:Tf;
              [ apply getPropOpt_truthy in Tf; congruence | ]; cbn ]).
  all: destruct videoCallId as [vid|]; cbn; [destruct (vid =? "") eqn:Hv; cbn|].
  all: try (destruct (serviceReply env (S (S nc))) as [v|e'] eqn:Hval; cbn;
            [ destruct v as [| | | | | |vfields]; cbn;
              try match goal with
                  | |- context [truthy (default VUndefined (assoc "err" ?f))] =>
                      destruct (truthy (default VUndefined (assoc "err" f))); cbn
                  end | ]).
  all: eexists; (split; [reflexivity|]); cbn.
  all: rewrite ?orb_true_r, ?orb_false_r.
  all: repeat split; auto.
  all: try (intros s' Hs'; congruence).
Qed.

Lemma init_for_signed_in_user_witness :
  let env := sampleEnv (fun _ => statusReply (VStr "CONFIRMED")) (mountReplies validMeeting) in
  let p := mountedPage signedIn attendeeJoining in
  (serviceReply env (calls (world p)) = Normal (VStr "video-token")
   /\ getUserData env (localStorage (world p)) = Normal sampleUser
   /\ truthy sampleUser = true
   /\ detectConsultant sampleUser = Normal true
   /\ localStorage (world p) !! "accessToken" = Some "tok"
   /\ "tok" <> "")
  /\ exists p', init env (Some "M1") p = (Normal tt, p')
                /\ isConsultant (ui (world p')) = true
                /\ participantName (ui (world p')) = "Lan Anh"
                /\ error (ui (world p')) = "".
Proof.
  intros env p.
  split; [repeat split; try reflexivity; discriminate|].
  destruct (init_for_signed_in_user env (Some "M1") p (VStr "video-token") sampleUser true
              "tok")
    as (p' & H1 & _ & H2 & _ & H3 & _ & H4);
    [reflexivity | reflexivity | reflexivity | reflexivity | reflexivity | discriminate |].
  exists p'. split; [exact H1|]. split; [exact H2|].
  split; [apply (proj2 H3); reflexivity | exact H4].
Defined.

(** The mount of a consultant, run. *)
Example consultant_mount_run :
  let env := sampleEnv (fun _ => statusReply (VStr "CONFIRMED")) (mountReplies validMeeting) in
  let r := init env (Some "M1") (mountedPage signedIn attendeeJoining) in
  fst r = Normal tt
  /\ rev (videoCalls (snd r)) = [CGetToken; CValidateMeeting "M1" (VStr "video-token")]
  /\ rev (trace (world (snd r))) = [postMe env "tok"]
  /\ ui (world (snd r))
     = mkMeetingState "M1" "Lan Anh" false false "" true false false "" None None None.
Proof. vm_compute. repeat split. Qed.

(** ** The joining screen *)

(** X11. A start of the meeting with a name that is empty or all white
    space is refused, for a consultant and for any other participant: the
    name-required message is left in [error] and nothing else happens (no
    status read, no call, no prompt, the meeting is not joined, the loading
    flag is as it was).  The page then shows the error panel in place of the
    joining screen, unless it was loading. *)
Theorem blank_name_blocks_start env w :
  trim (participantName (ui w)) = "" ->
  exists w',
    onClickStartMeeting env w = (Normal tt, w')
    /\ error (ui w') = "Vui lòng nhập tên của bạn"
    /\ isMeetingStarted (ui w') = isMeetingStarted (ui w)
    /\ loading (ui w') = loading (ui w)
    /\ openStartDialog (ui w') = openStartDialog (ui w)
    /\ trace w' = trace w
    /\ timers w' = timers w
    /\ fetches w' = fetches w
    /\ calls w' = calls w
    /\ fst (render env w')
       = Normal (if loading (ui w) && negb (isMeetingStarted (ui w))
                 then ScreenSpinner
                 else ScreenError "Vui lòng nhập tên của bạn").
Proof.
  intros H. expose w. cbn in H.
  unfold onClickStartMeeting, render. unfold_ui. unfold_monad. cbn.
  rewrite H. cbn.
  eexists. split; [reflexivity|]. cbn.
  repeat (split; [reflexivity|]).
  match goal with
  | |- context [?a && negb ?b] => destruct (a && negb b)
  end; reflexivity.
Qed.

(** A name of blanks from outside ASCII is refused like one of spaces. *)
Example wide_blank_name_run :
  let env := sampleEnv (fun _ => statusReply (VStr "CONFIRMED")) (fun _ => acknowledged) in
  let r := onClickStartMeeting env (sampleWorld signedIn wideBlankJoining) in
  fst r = Normal tt
  /\ error (ui (snd r)) = "Vui lòng nhập tên của bạn"
  /\ isMeetingStarted (ui (snd r)) = false
  /\ trace (snd r) = [].
Proof. vm_compute. repeat split. Qed.

Lemma blank_name_blocks_start_witness :
  let env := sampleEnv (fun _ => statusReply (VStr "CONFIRMED")) (fun _ => acknowledged) in
  let w := sampleWorld signedIn blankJoining in
  trim (participantName (ui w)) = ""
  /\ exists w', onClickStartMeeting env w = (Normal tt, w')
                /\ fst (render env w') = Normal (ScreenError "Vui lòng nhập tên của bạn").
Proof.
  intros env w.
  split; [reflexivity|].
  destruct (blank_name_blocks_start env w) as (w' & H1 & _ & _ & _ & _ & _ & _ & _ & _ & H2);
    [reflexivity|].
  exists w'. split; [exact H1 | exact H2].
Defined.

(** X12. A participant who is not a consultant and has entered a name
    joins the meeting at once: the meeting is started, the error is cleared
    and the loading flag is cleared, with no status read, no call, no prompt
    and no change of storage. *)
Theorem participant_joins_without_status_read env w :
  isConsultant (ui w) = false ->
  trim (participantName (ui w)) <> "" ->
  exists w',
    onClickStartMeeting env w = (Normal tt, w')
    /\ isMeetingStarted (ui w') = true
    /\ error (ui w') = ""
    /\ loading (ui w') = false
    /\ openStartDialog (ui w') = openStartDialog (ui w)
    /\ trace w' = trace w
    /\ timers w' = timers w
    /\ fetches w' = fetches w
    /\ calls w' = calls w
    /\ localStorage w' = localStorage w.
Proof.
  intros Hc Hn. apply String.eqb_neq in Hn. expose w. cbn in Hc, Hn. subst.
  unfold onClickStartMeeting. unfold_ui. unfold_monad. cbn.
  rewrite Hn. cbn.
  eexists. split; [reflexivity|]. cbn. repeat split.
Qed.

Lemma participant_joins_without_status_read_witness :
  let env := sampleEnv (fun _ => statusReply (VStr "CONFIRMED")) (fun _ => acknowledged) in
  let w := sampleWorld signedIn attendeeJoining in
  (isConsultant (ui w) = false /\ trim (participantName (ui w)) <> "")
  /\ exists w', onClickStartMeeting env w = (Normal tt, w')
                /\ isMeetingStarted (ui w') = true.
Proof.
  intros env w.
  split; [split; [reflexivity | discriminate]|].
  destruct (participant_joins_without_status_read env w) as (w' & H1 & H2 & _);
    [reflexivity | discriminate |].
  exists w'. repeat split; assumption.
Defined.

(** ** The refresh of the access token *)

(** The request of a refresh carries the stored refresh token. *)
Lemma refreshAccessToken_request env w rt :
  localStorage w !! "refreshToken" = Some rt ->
  rt <> "" ->
  exists c w' rest,
    refreshAccessToken env w = (c, w')
    /\ emits w w' (postRefresh env rt :: rest).
Proof.
  intros Hrt Hne. destruct w as [ls ss nf nc nu ts tr co fo mu]. cbn in Hrt.
  apply String.eqb_neq in Hne.
  unfold refreshAccessToken, fetch, postRefresh. unfold_monad. unfold emits.
  repeat (repeat (progress (reduce; rewrite ?Hrt, ?Hne)); try step; try absurd_case).
  all: cbn.
  all: eexists; eexists.
  all: first [ exists []; split; reflexivity
             | eexists [_]; split; reflexivity ].
Qed.

(** X13. Without a refresh token in durable storage (none, or an empty
    one) the refresh of the access token fails with its own error before
    anything is sent: no request is issued and storage is not changed. *)
Theorem refresh_without_token_is_silent env w :
  truthyText (localStorage w !! "refreshToken") = false ->
  exists w',
    refreshAccessToken env w = (Throw (Error "No refresh token available"), w')
    /\ trace w' = trace w
    /\ fetches w' = fetches w
    /\ localStorage w' = localStorage w.
Proof.
  intros H. destruct w as [ls ss nf nc nu ts tr co fo mu]. cbn in H.
  unfold refreshAccessToken. unfold_monad. cbn.
  destruct (ls !! "refreshToken") as [rt|]; cbn in *.
  - apply negb_false_iff in H. rewrite H. cbn.
    eexists. split; [reflexivity|]. cbn. auto.
  - eexists. split; [reflexivity|]. cbn. auto.
Qed.

Lemma refresh_without_token_is_silent_witness :
  let env := sampleEnv (fun _ => statusReply (VStr "CONFIRMED")) (fun _ => acknowledged) in
  let w := sampleWorld ∅ joiningScreen in
  truthyText (localStorage w !! "refreshToken") = false
  /\ exists w', refreshAccessToken env w = (Throw (Error "No refresh token available"), w')
                /\ fetches w' = fetches w.
Proof.
  intros env w.
  split; [reflexivity|].
  destruct (refresh_without_token_is_silent env w) as (w' & H1 & _ & H2 & _); [reflexivity|].
  exists w'. repeat split; assumption.
Defined.

(** X14. With a refresh token the refresh sends exactly one request, the
    POST carrying that token.  When it returns, the value returned is the
    truthy access token of an OK reply and its text has been stored as the
    access token; when it throws, storage is unchanged, and a failure of the
    network reaches the caller as the very error the network raised. *)
Theorem refresh_stores_what_it_returns env w rt :
  localStorage w !! "refreshToken" = Some rt ->
  rt <> "" ->
  exists c w',
    refreshAccessToken env w = (c, w')
    /\ fetches w' = S (fetches w)
    /\ match c with
       | Normal v =>
           exists s st txt data,
             fetchReply env (fetches w) = FetchResponse st txt (Some data)
             /\ ((200 <=? st)%N && (st <=? 299)%N) = true
             /\ v = getPropOpt data "accessToken"
             /\ truthy v = true
             /\ toStringJs v = Normal s
             /\ emits w w' [postRefresh env rt; ELocalSet "accessToken" s]
             /\ localStorage w' = <["accessToken" := s]> (localStorage w)
       | Throw e =>
           emits w w' [postRefresh env rt]
           /\ localStorage w' = localStorage w
           /\ (forall e0, fetchReply env (fetches w) = FetchReject e0 -> e = e0)
       end.
Proof.
  intros Hrt Hne. destruct w. cbn in Hrt.
  apply String.eqb_neq in Hne.
  unfold refreshAccessToken, fetch, postRefresh. unfold_monad. unfold emits.
  repeat (repeat (progress (reduce; rewrite ?Hrt, ?Hne)); try step; try absurd_case).
  all: cbn.
  all: eexists; eexists; split; [reflexivity|]; split; [reflexivity|].
  all: first
    [ split; [reflexivity|]; split; [reflexivity|]; intros e0 He0;
      solve [ congruence ]
    | negbs; unfold resp_ok in *; cbn in *;
      eexists _, _, _, _; split; [reflexivity|]; split; [assumption|];
      split; [symmetry; eapply getProp_Normal; eassumption|];
      split; [assumption|]; split; [eassumption|]; split; reflexivity ].
Qed.

Lemma refresh_stores_what_it_returns_witness :
  let env := sampleEnv (fun _ => FetchResponse 200 "OK"
                                   (Some (VObj [("accessToken", VStr "fresh")])))
                       (fun _ => acknowledged) in
  let w := sampleWorld signedIn joiningScreen in
  (localStorage w !! "refreshToken" = Some "ref" /\ "ref" <> "")
  /\ exists c w', refreshAccessToken env w = (c, w') /\ fetches w' = S (fetches w).
Proof.
  intros env w.
  split; [split; [reflexivity | discriminate]|].
  destruct (refresh_stores_what_it_returns env w "ref") as (c & w' & H1 & H2 & _);
    [reflexivity | discriminate |].
  exists c, w'. repeat split; assumption.
Defined.

(** A refresh that succeeds, run. *)
Example refresh_run :
  let env := sampleEnv (fun _ => FetchResponse 200 "OK"
                                   (Some (VObj [("accessToken", VStr "fresh")])))
                       (fun _ => acknowledged) in
  let r := refreshAccessToken env (sampleWorld signedIn joiningScreen) in
  fst r = Normal (VStr "fresh")
  /\ localStorage (snd r) !! "accessToken" = Some "fresh"
  /\ rev (trace (snd r)) = [postRefresh env "ref"; ELocalSet "accessToken" "fresh"].
Proof. vm_compute. repeat split. Qed.

(** ** The status read *)

(** The first request of a status fetch carries the stored access token. *)
Lemma fetchAppointment_first_request env w isRetry tok :
  localStorage w !! "accessToken" = Some tok ->
  tok <> "" ->
  exists d w' rest,
    fetchAppointmentWithTokenRefresh env isRetry w = (Normal d, w')
    /\ emits w w' (getAppointment env tok :: rest).
Proof.
  intros Htok Hne. destruct w as [ls ss nf nc nu ts tr co fo mu]. cbn in Htok.
  apply String.eqb_neq in Hne.
  unfold_status. unfold emits, getAppointment.
  repeat (repeat (progress (reduce; rewrite ?Htok, ?Hne)); try step; try absurd_case).
  all: cbn.
  all: eexists; eexists.
  all: first [ exists []; split; reflexivity
             | eexists [_]; split; reflexivity
             | eexists [_; _]; split; reflexivity
             | eexists [_; _; _]; split; reflexivity ].
Qed.

Lemma userMissing_requireUserData env w :
  userMissing (getUserData env (localStorage w)) = true ->
  exists e, requireUserData env w = (Throw e, w).
Proof.
  unfold userMissing, requireUserData. unfold_monad. cbn.
  destruct (getUserData env (localStorage w)) as [u|e]; cbn; [|eauto].
  destruct (truthy u) eqn:Hu; cbn; [|eauto].
  intros H. apply negb_true_iff in H.
  destruct u; cbn in *; try discriminate Hu; rewrite ?H; cbn; eauto.
Qed.

(** X15. The status read of a user who is not signed in sends nothing:
    when the user data are missing, have no id or cannot be read, or when
    there is no access token (none, or an empty one), the read returns the
    UNKNOWN default without a request and without a change of storage or of
    the page. *)
Theorem status_read_without_session_is_silent env w :
  userMissing (getUserData env (localStorage w)) = true
  \/ truthyText (localStorage w !! "accessToken") = false ->
  exists w',
    checkAppointmentStatus env w = (Normal unknownStatus, w')
    /\ trace w' = trace w
    /\ fetches w' = fetches w
    /\ localStorage w' = localStorage w
    /\ ui w' = ui w.
Proof.
  intros [H|H].
  - destruct (userMissing_requireUserData env w H) as (e & He).
    unfold checkAppointmentStatus. unfold_monad. cbn. rewrite He. cbn.
    destruct w. eexists. split; [reflexivity|]. cbn. auto.
  - destruct w. cbn in H.
    unfold_status.
    repeat (repeat (progress (reduce; rewrite ?H)); try step; try absurd_case).
    all: try (cbn in H; discriminate H).
    all: try (match goal with
              | E : (_ =? "") = false |- _ => cbn in H; rewrite E in H; discriminate H
              end).
    all: eexists; split; [reflexivity|]; cbn; auto.
Qed.

Lemma status_read_without_session_is_silent_witness :
  let env := visitorEnv (fun _ => statusReply (VStr "CONFIRMED")) (fun _ => acknowledged) in
  let w := sampleWorld signedIn joiningScreen in
  (userMissing (getUserData env (localStorage w)) = true
   \/ truthyText (localStorage w !! "accessToken") = false)
  /\ exists w', checkAppointmentStatus env w = (Normal unknownStatus, w')
                /\ fetches w' = fetches w.
Proof.
  intros env w.
  split; [left; reflexivity|].
  destruct (status_read_without_session_is_silent env w) as (w' & H1 & _ & H2 & _);
    [left; reflexivity|].
  exists w'. repeat split; assumption.
Defined.

Ltac no401 Hst :=
  match goal with
  | E : (?st =? 401)%N && true = true |- _ =>
      exfalso; rewrite andb_true_r in E; apply N.eqb_eq in E; subst st;
      repeat match goal with
             | E0 : fetchReply _ _ = _ |- _ => rewrite E0 in Hst
             end;
      cbn in Hst; congruence
  | E : (?st =? 401)%N = true |- _ =>
      exfalso; apply N.eqb_eq in E; subst st;
      repeat match goal with
             | E0 : fetchReply _ _ = _ |- _ => rewrite E0 in Hst
             end;
      cbn in Hst; congruence
  end.

(** X16. With an access token, a status read that is itself the retry, or
    whose request is not answered 401, sends exactly one request, the GET
    with that token as bearer, and never refreshes: storage is unchanged.
    It returns the body of the reply when the reply is accepted and the
    UNKNOWN default for every other reply; a retry answered 401 is such a
    reply. *)
Theorem status_read_single_request env w isRetry tok :
  localStorage w !! "accessToken" = Some tok ->
  tok <> "" ->
  isRetry = true \/ replyStatus (fetchReply env (fetches w)) <> Some 401%N ->
  exists d w',
    fetchAppointmentWithTokenRefresh env isRetry w = (Normal d, w')
    /\ emits w w' [getAppointment env tok]
    /\ fetches w' = S (fetches w)
    /\ localStorage w' = localStorage w
    /\ (acceptedReply (fetchReply env (fetches w)) d
        \/ (d = unknownStatus
            /\ forall d', ~ acceptedReply (fetchReply env (fetches w)) d')).
Proof.
  intros Htok Hne Hst. destruct w. cbn in Htok, Hst.
  apply String.eqb_neq in Hne.
  destruct isRetry; [clear Hst | destruct Hst as [Hst|Hst]; [discriminate Hst|]].
  all: unfold_status; unfold emits, getAppointment.
  all: repeat (repeat (progress (reduce; rewrite ?Htok, ?Hne));
               try no401 Hst; try step; try absurd_case).
  all: try no401 Hst.
  all: cbn.
  all: eexists; eexists; split; [reflexivity|]; split; [reflexivity|];
       split; [reflexivity|]; split; [reflexivity|].
  all: first [ left; negbs; accepted | right; split; [reflexivity|]; not_accepted ].
Qed.

Lemma status_read_single_request_witness :
  let env := sampleEnv (fun _ => FetchResponse 401 "Unauthorized" None)
                       (fun _ => acknowledged) in
  let w := sampleWorld signedIn joiningScreen in
  (localStorage w !! "accessToken" = Some "tok"
   /\ "tok" <> ""
   /\ (true = true \/ replyStatus (fetchReply env (fetches w)) <> Some 401%N))
  /\ exists d w', fetchAppointmentWithTokenRefresh env true w = (Normal d, w')
                  /\ emits w w' [getAppointment env "tok"].
Proof.
  intros env w.
  split; [split; [reflexivity | split; [discriminate | left; reflexivity]]|].
  destruct (status_read_single_request env w true "tok") as (d & w' & H1 & H2 & _);
    [reflexivity | discriminate | left; reflexivity |].
  exists d, w'. repeat split; assumption.
Defined.

(** ** The confirmation of the start *)

Lemma userMissing_value env w userData :
  getUserData env (localStorage w) = Normal userData ->
  truthy userData && truthy (getPropOpt userData "id") = false ->
  requireUserData env w
  = (Throw (Error "Không tìm thấy thông tin người dùng"), w).
Proof.
  intros Hu H. unfold requireUserData. unfold_monad. cbn. rewrite Hu.
  destruct (truthy userData) eqn:Ht; cbn; [|reflexivity].
  cbn in H.
  destruct userData; cbn in *; try discriminate Ht; rewrite ?H; reflexivity.
Qed.

Lemma ok_is_not_401 st :
  ((200 <=? st)%N && (st <=? 299)%N) = true -> (st =? 401)%N = false.
Proof.
  intros H. apply andb_true_iff in H. destruct H as [_ H].
  apply N.leb_le in H. apply N.eqb_neq. lia.
Qed.

(** A signed-in user whose first request is answered by an accepted reply
    reads the body of that reply with one GET. *)
Lemma checkAppointmentStatus_accepted env w userData id tok st txt d :
  getUserData env (localStorage w) = Normal userData ->
  truthy userData = true ->
  getProp userData "id" = Normal id ->
  truthy id = true ->
  localStorage w !! "accessToken" = Some tok ->
  tok <> "" ->
  fetchReply env (fetches w) = FetchResponse st txt (Some d) ->
  ((200 <=? st)%N && (st <=? 299)%N) = true ->
  truthy (getPropOpt d "status") = true ->
  exists w',
    checkAppointmentStatus env w = (Normal d, w')
    /\ emits w w' [getAppointment env tok]
    /\ statusFrame w w'
    /\ localStorage w' = localStorage w
    /\ fetches w' = S (fetches w).
Proof.
  intros Hu Ht Hid Hti Htok Hne Hrep Hok Hst.
  pose proof (ok_is_not_401 _ Hok) as H401.
  pose proof (status_is_object _ Hst) as Hobj.
  pose proof (getPropOpt_truthy _ _ Hst) as Htd.
  apply String.eqb_neq in Hne.
  destruct w. cbn in Hu, Htok, Hrep.
  unfold_status. unfold emits, getAppointment, resp_ok. cbn.
  rewrite Hu. cbn. rewrite Ht. cbn. rewrite Hid. cbn. rewrite Hti. cbn.
  rewrite Htok. cbn. rewrite Hne. cbn. rewrite Hrep. cbn. rewrite H401. cbn.
  rewrite Hok. cbn. rewrite Htd. cbn. rewrite Hobj. cbn. rewrite Hst. cbn.
  eexists. split; [reflexivity|]. cbn.
  split; [reflexivity|]. split; [|split; reflexivity].
  constructor; cbn; auto.
Qed.

(** X17. A confirmation of the start by somebody whose user data are
    missing or have no id closes the prompt, shows the notice that the user
    was not found, clears the loading flag and does not join the meeting;
    neither the status is read nor the start mutation sent. *)
Theorem confirm_start_without_user_data env w userData :
  getUserData env (localStorage w) = Normal userData ->
  truthy userData && truthy (getPropOpt userData "id") = false ->
  exists w',
    handleConfirmStartMeeting env w = (Normal tt, w')
    /\ emits w w' [EErrorAlert
                     "Không thể bắt đầu buổi tư vấn: Không tìm thấy thông tin người dùng"]
    /\ openStartDialog (ui w') = false
    /\ loading (ui w') = false
    /\ isMeetingStarted (ui w') = isMeetingStarted (ui w)
    /\ fetches w' = fetches w
    /\ calls w' = calls w.
Proof.
  intros Hu H.
  pose proof (userMissing_value env
                (snd (setOpenStartDialog false (snd (setLoading true w)))) userData) as Hreq.
  expose w. cbn in Hu.
  unfold handleConfirmStartMeeting. unfold_ui. unfold_monad. unfold emits. cbn in *.
  rewrite (Hreq Hu H). cbn.
  eexists. split; [reflexivity|]. cbn. repeat split.
Qed.

Lemma confirm_start_without_user_data_witness :
  let env := visitorEnv (fun _ => statusReply (VStr "CONFIRMED")) (fun _ => acknowledged) in
  let w := sampleWorld signedIn joiningScreen in
  (getUserData env (localStorage w) = Normal VNull
   /\ truthy VNull && truthy (getPropOpt VNull "id") = false)
  /\ exists w', handleConfirmStartMeeting env w = (Normal tt, w')
                /\ isMeetingStarted (ui w') = false.
Proof.
  intros env w.
  split; [split; reflexivity|].
  destruct (confirm_start_without_user_data env w VNull)
    as (w' & H1 & _ & _ & _ & H2 & _); [reflexivity | reflexivity |].
  exists w'. repeat split; assumption.
Defined.

(** X18. When the status is CONFIRMED and the backend refuses the start
    mutation, the consultant is shown one notice: the fixed prefix followed
    by the message of the failure, which is the message of the response data,
    else their error field, else the message of the error, else a fixed
    default.  The prompt is closed, the loading flag is cleared and the
    meeting is not joined. *)
Theorem start_failure_shows_backend_message env w userData id cid tok st txt d e msg :
  getUserData env (localStorage w) = Normal userData ->
  truthy userData = true ->
  getProp userData "id" = Normal id ->
  truthy id = true ->
  toStringJs id = Normal cid ->
  localStorage w !! "accessToken" = Some tok ->
  tok <> "" ->
  fetchReply env (fetches w) = FetchResponse st txt (Some d) ->
  ((200 <=? st)%N && (st <=? 299)%N) = true ->
  getPropOpt d "status" = VStr "CONFIRMED" ->
  serviceReply env (calls w) = Throw e ->
  toStringJs (errorMessageOf e) = Normal msg ->
  exists w',
    handleConfirmStartMeeting env w = (Normal tt, w')
    /\ emits w w' [getAppointment env tok; startMutation env cid;
                   EErrorAlert ("Không thể bắt đầu buổi tư vấn: " +:+ msg)]
    /\ isMeetingStarted (ui w') = isMeetingStarted (ui w)
    /\ loading (ui w') = false
    /\ openStartDialog (ui w') = false.
Proof.
  intros Hu Ht Hid Hti Hcid Htok Hne Hrep Hok Hst Hsvc Hmsg.
  assert (Hst' : truthy (getPropOpt d "status") = true) by (rewrite Hst; reflexivity).
  pose proof (checkAppointmentStatus_accepted env
                (snd (setOpenStartDialog false (snd (setLoading true w))))
                userData id tok st txt d) as Hread.
  pose proof (requireUserData_ok env
                (snd (setOpenStartDialog false (snd (setLoading true w))))
                userData id) as Hreq.
  expose w. unfold_ui. unfold_monad. cbn in *.
  specialize (Hreq Hu Ht Hid Hti).
  destruct (Hread Hu Ht Hid Hti Htok Hne Hrep Hok Hst')
    as (w1 & Heq & Hem & Hfr & Hls & Hf).
  expose_result w1. open_frame Hfr.
  unfold handleConfirmStartMeeting, apiService_put, callService, startMutation,
    getAppointment.
  unfold_ui. unfold_monad. cbn.
  rewrite Hreq. cbn. rewrite Heq. cbn. rewrite (status_is_object _ Hst'). cbn.
  rewrite Hst. cbn. rewrite Hid. cbn. rewrite Hcid. cbn. rewrite Hsvc. cbn.
  rewrite Hmsg. cbn.
  eexists. split; [reflexivity|]. cbn. repeat split.
Qed.

Lemma start_failure_shows_backend_message_witness :
  let env := sampleEnv (fun _ => statusReply (VStr "CONFIRMED")) (fun _ => rejected) in
  let w := sampleWorld signedIn joiningScreen in
  (getUserData env (localStorage w) = Normal sampleUser
   /\ truthy sampleUser = true
   /\ getProp sampleUser "id" = Normal (VNum 7)
   /\ truthy (VNum 7) = true
   /\ toStringJs (VNum 7) = Normal "7"
   /\ localStorage w !! "accessToken" = Some "tok"
   /\ "tok" <> ""
   /\ fetchReply env (fetches w)
      = FetchResponse 200 "OK" (Some (VObj [("status", VStr "CONFIRMED")]))
   /\ ((200 <=? 200)%N && (200 <=? 299)%N) = true
   /\ getPropOpt (VObj [("status", VStr "CONFIRMED")]) "status" = VStr "CONFIRMED"
   /\ serviceReply env (calls w)
      = Throw (mkError "AxiosError" "Request failed with status code 500"
                       (VObj [("message", VStr "Internal error")]))
   /\ toStringJs (errorMessageOf
                    (mkError "AxiosError" "Request failed with status code 500"
                             (VObj [("message", VStr "Internal error")])))
      = Normal "Internal error")
  /\ exists w',
       handleConfirmStartMeeting env w = (Normal tt, w')
       /\ emits w w' [getAppointment env "tok"; startMutation env "7";
                      EErrorAlert ("Không thể bắt đầu buổi tư vấn: " +:+ "Internal error")].
Proof.
  intros env w.
  split; [repeat split; try reflexivity; discriminate|].
  destruct (start_failure_shows_backend_message env w sampleUser (VNum 7) "7" "tok"
              200%N "OK" (VObj [("status", VStr "CONFIRMED")])
              (mkError "AxiosError" "Request failed with status code 500"
                       (VObj [("message", VStr "Internal error")]))
              "Internal error")
    as (w' & H1 & H2 & _);
    [reflexivity | reflexivity | reflexivity | reflexivity | reflexivity | reflexivity
    | discriminate | reflexivity | reflexivity | reflexivity | reflexivity | reflexivity |].
  exists w'. repeat split; assumption.
Defined.

(** X19. When the status is CONFIRMED and the backend acknowledges the
    start mutation, the meeting is joined with the error cleared, and the
    loading flag, set at the confirmation, is still set.  The page shows the
    meeting all the same, with the participant id computed during that
    render: a started meeting is shown whatever the loading flag says. *)
Theorem confirmed_start_shows_meeting env w userData id cid tok st txt d r :
  getUserData env (localStorage w) = Normal userData ->
  truthy userData = true ->
  getProp userData "id" = Normal id ->
  truthy id = true ->
  toStringJs id = Normal cid ->
  localStorage w !! "accessToken" = Some tok ->
  tok <> "" ->
  fetchReply env (fetches w) = FetchResponse st txt (Some d) ->
  ((200 <=? st)%N && (st <=? 299)%N) = true ->
  getPropOpt d "status" = VStr "CONFIRMED" ->
  serviceReply env (calls w) = Normal r ->
  exists w',
    handleConfirmStartMeeting env w = (Normal tt, w')
    /\ emits w w' [getAppointment env tok; startMutation env cid;
                   ESuccessAlert "Bắt đầu buổi tư vấn thành công!"]
    /\ isMeetingStarted (ui w') = true
    /\ loading (ui w') = true
    /\ error (ui w') = ""
    /\ fst (render env w')
       = match fst (getParticipantId env w') with
         | Normal participantId =>
             Normal (ScreenMeeting (meetingId (ui w)) (participantName (ui w))
                                   participantId)
         | Throw e => Throw e
         end.
Proof.
  intros Hu Ht Hid Hti Hcid Htok Hne Hrep Hok Hst Hsvc.
  assert (Hst' : truthy (getPropOpt d "status") = true) by (rewrite Hst; reflexivity).
  pose proof (checkAppointmentStatus_accepted env
                (snd (setOpenStartDialog false (snd (setLoading true w))))
                userData id tok st txt d) as Hread.
  pose proof (requireUserData_ok env
                (snd (setOpenStartDialog false (snd (setLoading true w))))
                userData id) as Hreq.
  expose w. unfold_ui. unfold_monad. cbn in *.
  specialize (Hreq Hu Ht Hid Hti).
  destruct (Hread Hu Ht Hid Hti Htok Hne Hrep Hok Hst')
    as (w1 & Heq & Hem & Hfr & Hls & Hf).
  expose_result w1. open_frame Hfr.
  unfold handleConfirmStartMeeting, apiService_put, callService, startMutation,
    getAppointment, render.
  unfold_ui. unfold_monad. cbn.
  rewrite Hreq. cbn. rewrite Heq. cbn. rewrite (status_is_object _ Hst'). cbn.
  rewrite Hst. cbn. rewrite Hid. cbn. rewrite Hcid. cbn. rewrite Hsvc. cbn.
  eexists. split; [reflexivity|]. cbn.
  repeat (split; [reflexivity|]).
  match goal with
  | |- context [getParticipantId env ?w0] => destruct (getParticipantId env w0) as [[pid|e0] w2]
  end; reflexivity.
Qed.

Lemma confirmed_start_shows_meeting_witness :
  let env := sampleEnv (fun _ => statusReply (VStr "CONFIRMED")) (fun _ => acknowledged) in
  let w := sampleWorld signedIn joiningScreen in
  (getUserData env (localStorage w) = Normal sampleUser
   /\ truthy sampleUser = true
   /\ getProp sampleUser "id" = Normal (VNum 7)
   /\ truthy (VNum 7) = true
   /\ toStringJs (VNum 7) = Normal "7"
   /\ localStorage w !! "accessToken" = Some "tok"
   /\ "tok" <> ""
   /\ fetchReply env (fetches w)
      = FetchResponse 200 "OK" (Some (VObj [("status", VStr "CONFIRMED")]))
   /\ ((200 <=? 200)%N && (200 <=? 299)%N) = true
   /\ getPropOpt (VObj [("status", VStr "CONFIRMED")]) "status" = VStr "CONFIRMED"
   /\ serviceReply env (calls w) = Normal (VObj []))
  /\ exists w',
       handleConfirmStartMeeting env w = (Normal tt, w')
       /\ loading (ui w') = true
       /\ isMeetingStarted (ui w') = true.
Proof.
  intros env w.
  split; [repeat split; try reflexivity; discriminate|].
  destruct (confirmed_start_shows_meeting env w sampleUser (VNum 7) "7" "tok"
              200%N "OK" (VObj [("status", VStr "CONFIRMED")]) (VObj []))
    as (w' & H1 & _ & H2 & H3 & _);
    [reflexivity | reflexivity | reflexivity | reflexivity | reflexivity | reflexivity
    | discriminate | reflexivity | reflexivity | reflexivity | reflexivity |].
  exists w'. repeat split; assumption.
Defined.

(** The screen after a confirmed start, run. *)
Example confirmed_start_screen_run :
  let env := sampleEnv (fun _ => statusReply (VStr "CONFIRMED")) (fun _ => acknowledged) in
  let started := snd (handleConfirmStartMeeting env (sampleWorld signedIn joiningScreen)) in
  loading (ui started) = true
  /\ fst (render env started)
     = Normal (ScreenMeeting "M1" "Lan"
                 (Some "00000000-0000-4000-8000-000000000000")).
Proof. vm_compute. repeat split. Qed.

(** X29. Whenever the status read at the confirmation of the start yields
    a status other than CONFIRMED that has a text (ON_GOING, COMPLETED, the
    UNKNOWN default of a failed read, or anything else), the meeting is joined
    with no call and no notice: the prompt is closed, the error is cleared
    and the loading flag set at the confirmation stays set. *)
Theorem confirm_start_other_status_joins env w userData id d w1 text :
  getUserData env (localStorage w) = Normal userData ->
  truthy userData = true ->
  getProp userData "id" = Normal id ->
  truthy id = true ->
  checkAppointmentStatus env (snd (setOpenStartDialog false (snd (setLoading true w))))
  = (Normal d, w1) ->
  strictEqStr (getPropOpt d "status") "CONFIRMED" = false ->
  toStringJs (getPropOpt d "status") = Normal text ->
  exists w',
    handleConfirmStartMeeting env w = (Normal tt, w')
    /\ emits w1 w' []
    /\ isMeetingStarted (ui w') = true
    /\ error (ui w') = ""
    /\ loading (ui w') = true
    /\ openStartDialog (ui w') = false
    /\ calls w' = calls w.
Proof.
  intros Hu Ht Hid Hti Hread Hnot Htext.
  destruct (checkAppointmentStatus_spec env
              (snd (setOpenStartDialog false (snd (setLoading true w)))))
    as (d0 & w0 & es0 & Heq & Hem & _ & Hfr & Hst & _).
  rewrite Hread in Heq. injection Heq as Hd Hw. subst d0 w0.
  pose proof (requireUserData_ok env
                (snd (setOpenStartDialog false (snd (setLoading true w))))
                userData id) as Hreq.
  destruct w as [ls ss nf nc nu ts tr co fo
                 [mid name started busy err consultant osd oed note audio video ref]].
  expose_result w1. open_frame Hfr.
  specialize (Hreq Hu Ht Hid Hti).
  unfold handleConfirmStartMeeting. unfold_ui. unfold_monad. cbn.
  rewrite Hreq. cbn. rewrite Hread. cbn. rewrite (status_is_object _ Hst). cbn.
  rewrite Hnot. cbn.
  destruct (strictEqStr (getPropOpt d "status") "ON_GOING"); cbn;
    [|destruct (strictEqStr (getPropOpt d "status") "COMPLETED"); cbn;
      [|rewrite Htext; cbn]].
  all: eexists; split; [reflexivity|]; cbn; repeat split.
Qed.

Lemma confirm_start_other_status_joins_witness :
  let env := sampleEnv (fun _ => statusReply (VStr "ON_GOING")) (fun _ => acknowledged) in
  let w := sampleWorld signedIn joiningScreen in
  let read := checkAppointmentStatus env
                (snd (setOpenStartDialog false (snd (setLoading true w)))) in
  (getUserData env (localStorage w) = Normal sampleUser
   /\ truthy sampleUser = true
   /\ getProp sampleUser "id" = Normal (VNum 7)
   /\ truthy (VNum 7) = true
   /\ read = (Normal (VObj [("status", VStr "ON_GOING")]), snd read)
   /\ strictEqStr (getPropOpt (VObj [("status", VStr "ON_GOING")]) "status") "CONFIRMED"
      = false
   /\ toStringJs (getPropOpt (VObj [("status", VStr "ON_GOING")]) "status")
      = Normal "ON_GOING")
  /\ exists w', handleConfirmStartMeeting env w = (Normal tt, w')
                /\ isMeetingStarted (ui w') = true
                /\ calls w' = calls w.
Proof.
  intros env w read.
  split; [repeat split; reflexivity|].
  destruct (confirm_start_other_status_joins env w sampleUser (VNum 7)
              (VObj [("status", VStr "ON_GOING")]) (snd read) "ON_GOING")
    as (w' & H1 & _ & H2 & _ & _ & _ & H3);
    [reflexivity | reflexivity | reflexivity | reflexivity | reflexivity | reflexivity
    | reflexivity |].
  exists w'. repeat split; assumption.
Defined.

(** ** The end of the meeting *)

(** X20. A participant who is not a consultant leaves the meeting at once
    through the handler the meeting container is given: the meeting handle
    is told to leave when there is one, the reference is cleared and the page
    navigates home, with no status read, no call and no prompt.  The handler
    is still the one of the first render, since [isConsultant] has been false
    at every render, and the first render has no custom stream: the handler
    stops no track, whatever streams the page holds by now.
    [handleEndMeeting], which every render creates anew, does the same and
    stops the tracks of the current streams as well. *)
Theorem participant_leaves_without_status_read env renders w :
  Forall (fun u => isConsultant u = false) renders ->
  isConsultant (ui w) = false ->
  exists w1 w2,
    handleShowEndDialog env (seenAfter renders) w = (Normal tt, w1)
    /\ emits w w1 (directLeave (ui w) ++ [ENavigate "/"])
    /\ handleEndMeeting env w = (Normal tt, w2)
    /\ emits w w2 (leaveEvents (ui w))
    /\ ui w1 = ui w2
    /\ isMeetingStarted (ui w1) = false
    /\ meetingRef (ui w1) = None
    /\ openEndDialog (ui w1) = openEndDialog (ui w)
    /\ consultantNote (ui w1) = consultantNote (ui w)
    /\ customAudioStream (ui w1) = customAudioStream (ui w)
    /\ customVideoStream (ui w1) = customVideoStream (ui w)
    /\ fetches w1 = fetches w /\ fetches w2 = fetches w
    /\ calls w1 = calls w /\ calls w2 = calls w
    /\ localStorage w1 = localStorage w /\ localStorage w2 = localStorage w.
Proof.
  intros Hr Hc. rewrite (seenAfter_participant _ Hr).
  exists (afterKeptLeave initialState w), (afterLeave w).
  unfold handleEndMeeting, handleShowEndDialog. unfold_monad.
  destruct w as [ls ss nf nc nu ts tr co fo
                 [mid name started busy err consultant osd oed note audio video ref]].
  cbn in Hc. subst. cbn.
  rewrite handleOnMeetingLeave_spec, handleOnMeetingLeaveOf_spec.
  unfold afterKeptLeave, afterLeave, keptLeaveEvents, emits. cbn.
  repeat split.
Qed.

Lemma participant_leaves_without_status_read_witness :
  let env := sampleEnv (fun _ => statusReply (VStr "ON_GOING")) (fun _ => acknowledged) in
  let w := sampleWorld signedIn attendeeInMeeting in
  (Forall (fun u => isConsultant u = false) [attendeeJoining; attendeeInMeeting]
   /\ isConsultant (ui w) = false)
  /\ exists w1 w2,
       handleShowEndDialog env (seenAfter [attendeeJoining; attendeeInMeeting]) w
       = (Normal tt, w1)
       /\ emits w w1 [ELeave; ENavigate "/"]
       /\ handleEndMeeting env w = (Normal tt, w2)
       /\ emits w w2 [ELeave; ETrackStop 1; ETrackStop 2; ETrackStop 3; ENavigate "/"].
Proof.
  intros env w.
  split; [split; [repeat constructor | reflexivity]|].
  destruct (participant_leaves_without_status_read env
              [attendeeJoining; attendeeInMeeting] w)
    as (w1 & w2 & H1 & H2 & H3 & H4 & _);
    [repeat constructor | reflexivity |].
  exists w1, w2. repeat split; assumption.
Defined.

(** X21. The handler the meeting container is given clears the note of the
    consultant whenever a consultant invokes it, whatever the status read
    yields, so a prompt it opens starts with an empty note; [handleEndMeeting]
    leaves the note as it was. *)
Theorem end_prompt_resets_note env seen w :
  isConsultant seen = true ->
  isConsultant (ui w) = true ->
  exists w1 w2,
    handleShowEndDialog env seen w = (Normal tt, w1)
    /\ consultantNote (ui w1) = ""
    /\ handleEndMeeting env w = (Normal tt, w2)
    /\ consultantNote (ui w2) = consultantNote (ui w).
Proof.
  intros Hs Hc.
  destruct (checkAppointmentStatus_spec env
              (snd (setOpenEndDialog true (snd (setConsultantNote "" w)))))
    as (d & w1 & es & Heq & Hem & _ & Hfr & Hst & _).
  destruct (checkAppointmentStatus_spec env w)
    as (d2 & w2 & es2 & Heq2 & Hem2 & _ & Hfr2 & Hst2 & _).
  expose w. expose_result w1. expose_result w2.
  open_frame Hfr. open_frame Hfr2.
  unfold handleShowEndDialog, handleEndMeeting. rewrite Hs.
  unfold_ui. unfold_monad. cbn.
  rewrite Heq, Heq2. cbn.
  rewrite (status_is_object _ Hst), (status_is_object _ Hst2). cbn.
  destruct (strictEqStr (getPropOpt d "status") "ON_GOING");
    destruct (strictEqStr (getPropOpt d2 "status") "ON_GOING"); cbn;
    rewrite ?handleOnMeetingLeave_spec, ?handleOnMeetingLeaveOf_spec; cbn.
  all: eexists _, _; split; [reflexivity|]; split; [reflexivity|];
       split; [reflexivity|]; reflexivity.
Qed.

Lemma end_prompt_resets_note_witness :
  let env := sampleEnv (fun _ => statusReply (VStr "ON_GOING")) (fun _ => acknowledged) in
  let w := sampleWorld signedIn inMeeting in
  (isConsultant joiningScreen = true /\ isConsultant (ui w) = true)
  /\ exists w1, handleShowEndDialog env joiningScreen w = (Normal tt, w1)
                /\ consultantNote (ui w1) = "".
Proof.
  intros env w.
  split; [split; reflexivity|].
  destruct (end_prompt_resets_note env joiningScreen w) as (w1 & w2 & H1 & H2 & _);
    [reflexivity | reflexivity |].
  exists w1. repeat split; assumption.
Defined.

(** X22. A confirmation of the end by somebody whose user data are missing
    or have no id closes the prompt and shows the notice that the user was
    not found; the meeting is not left (the handle is not told to leave and
    the reference is kept), and neither the status is read nor the end
    mutation sent. *)
Theorem confirm_end_without_user_data env w userData :
  getUserData env (localStorage w) = Normal userData ->
  truthy userData && truthy (getPropOpt userData "id") = false ->
  exists w',
    handleConfirmEndMeeting env w = (Normal tt, w')
    /\ emits w w' [EErrorAlert
                     "Không thể kết thúc buổi tư vấn: Không tìm thấy thông tin người dùng"]
    /\ openEndDialog (ui w') = false
    /\ isMeetingStarted (ui w') = isMeetingStarted (ui w)
    /\ meetingRef (ui w') = meetingRef (ui w)
    /\ fetches w' = fetches w
    /\ calls w' = calls w.
Proof.
  intros Hu H.
  pose proof (userMissing_value env (snd (setOpenEndDialog false w)) userData) as Hreq.
  expose w. cbn in Hu.
  unfold handleConfirmEndMeeting. unfold_ui. unfold_monad. unfold emits. cbn in *.
  rewrite (Hreq Hu H). cbn.
  eexists. split; [reflexivity|]. cbn. repeat split.
Qed.

Lemma confirm_end_without_user_data_witness :
  let env := visitorEnv (fun _ => statusReply (VStr "ON_GOING")) (fun _ => acknowledged) in
  let w := sampleWorld signedIn inMeeting in
  (getUserData env (localStorage w) = Normal VNull
   /\ truthy VNull && truthy (getPropOpt VNull "id") = false)
  /\ exists w', handleConfirmEndMeeting env w = (Normal tt, w')
                /\ isMeetingStarted (ui w') = true.
Proof.
  intros env w.
  split; [split; reflexivity|].
  destruct (confirm_end_without_user_data env w VNull)
    as (w' & H1 & _ & _ & H2 & _); [reflexivity | reflexivity |].
  exists w'. repeat split; assumption.
Defined.

(** ** Teardown of the meeting *)

Lemma no_share_stop_in_track_stops l :
  length (List.filter isStopScreenShare (map ETrackStop l)) = 0.
Proof. induction l; cbn; auto. Qed.

(** X23. Once the wrapper has stored the meeting handle, an explicit leave
    followed by the cleanup of the unmount tells the handle to leave exactly
    once, the cleanup finding the reference cleared.  The tracks of the two
    custom streams are stopped by the leave and again by the cleanup, and the
    screen share is not stopped on this path. *)
Theorem leave_then_unmount_leaves_once_run w m :
  exists w0 w1 w2 es,
    MeetingWrapper (Some m) w = (Normal tt, w0)
    /\ handleOnMeetingLeave w0 = (Normal tt, w1)
    /\ unmountCleanup w1 = (Normal tt, w2)
    /\ emits w w2 es
    /\ es = [ELeave] ++ trackStops (ui w) ++ [ENavigate "/"] ++ trackStops (ui w)
    /\ count isLeave es = 1
    /\ count isStopScreenShare es = 0
    /\ meetingRef (ui w2) = None.
Proof.
  destruct w as [ls ss nf nc nu ts tr co fo
                 [mid name started busy err consultant osd oed note audio video ref]].
  set (u := mkMeetingState mid name started busy err consultant osd oed note audio video ref).
  set (w0 := mkWorld ls ss nf nc nu ts tr co fo
               (mkMeetingState mid name started busy err consultant osd oed note
                               audio video (Some m))).
  destruct (unmountCleanup_spec (afterLeave w0)) as (w2 & Hrun & Hem & Hui).
  exists w0, (afterLeave w0), w2,
    ([ELeave] ++ trackStops u ++ [ENavigate "/"] ++ trackStops u).
  split; [reflexivity|]. split; [apply handleOnMeetingLeave_spec|].
  split; [exact Hrun|].
  subst u w0.
  expose_result w2.
  unfold emits, afterLeave, unmountEvents, leaveEvents, trackStops in *.
  cbn in *. subst.
  split; [|split; [reflexivity|]].
  - rewrite !rev_app_distr. cbn. rewrite !rev_app_distr.
    repeat (rewrite <- app_assoc; cbn). reflexivity.
  - unfold count. cbn.
    rewrite !filter_app, !length_app. cbn.
    rewrite !filter_app, !length_app.
    rewrite !no_leave_in_track_stops, !no_share_stop_in_track_stops.
    repeat split.
Qed.

(** X24. The cleanup of the unmount of a page that still holds the meeting
    handle never fails and leaves the state of the page and storage alone:
    it stops the screen share first when one is on, tells the handle to leave
    once, and then stops the tracks of the audio stream and of the video
    stream, in this order.  The reference is kept. *)
Theorem unmount_in_meeting w m :
  meetingRef (ui w) = Some m ->
  exists w' es,
    unmountCleanup w = (Normal tt, w')
    /\ emits w w' es
    /\ es = (if localScreenShareOn m then [EStopScreenShare] else [])
            ++ [ELeave] ++ trackStops (ui w)
    /\ ui w' = ui w
    /\ localStorage w' = localStorage w
    /\ sessionStorage w' = sessionStorage w.
Proof.
  intros Href. expose w. cbn in Href. subst.
  unfold unmountCleanup, emits, trackStops. unfold_monad. cbn.
  destruct m as [[|]]; cbn.
  all: rewrite !stopTracks_spec; cbn.
  all: eexists _, _; split; [reflexivity|]; split; [|split; [reflexivity|]].
  all: cbn; rewrite ?rev_app_distr; cbn; repeat (rewrite <- app_assoc; cbn).
  all: repeat split.
Qed.

Lemma unmount_in_meeting_witness :
  let w := sampleWorld signedIn attendeeInMeeting in
  meetingRef (ui w) = Some (mkMeeting true)
  /\ exists w', unmountCleanup w = (Normal tt, w')
                /\ emits w w' [EStopScreenShare; ELeave; ETrackStop 1; ETrackStop 2;
                               ETrackStop 3].
Proof.
  intros w.
  split; [reflexivity|].
  destruct (unmount_in_meeting w (mkMeeting true)) as (w' & es & H1 & H2 & H3 & _);
    [reflexivity|].
  exists w'. split; [exact H1|]. rewrite H3 in H2. exact H2.
Defined.

(** ** The participant id, further *)

(** The participant id of a profile that gives a user id. *)
Lemma getParticipantId_profile env w :
  truthy (storedUserId env (localStorage w)) = true ->
  exists w',
    getParticipantId env w
    = (match toStringJs (storedUserId env (localStorage w)) with
       | Normal text =>
           Normal (Some ("user-" +:+ text +:+ "-meeting-" +:+ meetingId (ui w)))
       | Throw e => Throw e
       end, w')
    /\ localStorage w' = localStorage w
    /\ sessionStorage w' = sessionStorage w
    /\ uuids w' = uuids w
    /\ trace w' = trace w
    /\ ui w' = ui w.
Proof.
  intros Ht. destruct w as [ls ss nf nc nu ts tr co fo mu]. cbn in Ht |- *.
  unfold storedUserId, profileUserId, jsOr in *.
  unfold getParticipantId, crypto_randomUUID. unfold_monad.
  destruct (ls !! "userProfile") as [stored|] eqn:Hp; [|discriminate Ht].
  destruct (stored =? "") eqn:Hne; [discriminate Ht|].
  destruct (JSON_parse env stored) as [profile|] eqn:Hparse; [|discriminate Ht].
  cbn. rewrite Hp. cbn. rewrite Hne. cbn. rewrite Hparse. cbn.
  destruct profile as [| | | | | |fields]; try discriminate Ht.
  cbn -[truthy] in *.
  destruct (truthy (default VUndefined (assoc "id" fields))) eqn:T1;
    cbn -[truthy] in *; rewrite ?T1 in *; cbn -[truthy] in *.
  - destruct (toStringJs (default VUndefined (assoc "id" fields))); cbn;
      eexists; (split; [reflexivity|]); cbn; auto.
  - destruct (truthy (default VUndefined (assoc "userId" fields))) eqn:T2;
      cbn -[truthy] in *; rewrite ?T2 in *; cbn -[truthy] in *.
    + destruct (toStringJs (default VUndefined (assoc "userId" fields))); cbn;
        eexists; (split; [reflexivity|]); cbn; auto.
    + rewrite Ht. cbn.
      destruct (toStringJs (default VUndefined (assoc "email" fields))); cbn;
        eexists; (split; [reflexivity|]); cbn; auto.
Qed.

Ltac temp_half :=
  match goal with
  | |- context [?ss !! "tempParticipantId"] =>
      let c := fresh "c" in
      let Hc := fresh "Hc" in
      let Hce := fresh "Hce" in
      destruct (ss !! "tempParticipantId") as [c|] eqn:Hc; cbn;
      [destruct (c =? "") eqn:Hce; cbn|];
      rewrite ?lookup_insert_eq; cbn; rewrite ?Hc; cbn;
      eexists _, _; (split; [reflexivity|]); cbn;
      rewrite ?lookup_insert_eq; repeat split; auto
  end.

(** The participant id when the profile gives no user id. *)
Lemma getParticipantId_temporary env w :
  truthy (storedUserId env (localStorage w)) = false ->
  exists id w',
    getParticipantId env w = (Normal (Some id), w')
    /\ sessionStorage w' !! "tempParticipantId" = Some id
    /\ (if truthyText (sessionStorage w !! "tempParticipantId")
        then sessionStorage w !! "tempParticipantId" = Some id
             /\ sessionStorage w' = sessionStorage w
             /\ uuids w' = uuids w
             /\ trace w' = trace w
        else id = randomUUID env (uuids w)
             /\ uuids w' = S (uuids w)
             /\ emits w w' [ESessionSet "tempParticipantId" id])
    /\ localStorage w' = localStorage w
    /\ ui w' = ui w.
Proof.
  intros Ht. destruct w as [ls ss nf nc nu ts tr co fo mu]. cbn in Ht.
  unfold storedUserId in Ht.
  unfold getParticipantId, crypto_randomUUID. unfold_monad. unfold emits. cbn.
  destruct (ls !! "userProfile") as [stored|] eqn:Hp; cbn;
    [destruct (stored =? "") eqn:Hne; cbn;
     [|destruct (JSON_parse env stored) as [profile|] eqn:Hparse; cbn]|].
  - temp_half.
  - unfold profileUserId, jsOr in Ht.
    destruct profile as [| | | | | |fields]; try (cbn; solve [temp_half]).
    cbn -[truthy] in *.
    destruct (truthy (default VUndefined (assoc "id" fields))) eqn:T1;
      rewrite ?T1 in Ht; cbn -[truthy] in Ht; [congruence|].
    destruct (truthy (default VUndefined (assoc "userId" fields))) eqn:T2;
      rewrite ?T2 in Ht; cbn -[truthy] in Ht; [congruence|].
    cbn -[truthy]. rewrite Ht. cbn. temp_half.
  - temp_half.
  - temp_half.
Qed.

(** A second computation of the participant id gives the first again and
    changes nothing. *)
Lemma getParticipantId_again env w c w1 :
  randomUUID env (uuids w) <> "" ->
  getParticipantId env w = (c, w1) ->
  exists w2,
    getParticipantId env w1 = (c, w2)
    /\ sessionStorage w2 = sessionStorage w1
    /\ uuids w2 = uuids w1
    /\ trace w2 = trace w1
    /\ localStorage w2 = localStorage w1
    /\ ui w2 = ui w1.
Proof.
  intros Huuid Hrun.
  destruct (truthy (storedUserId env (localStorage w))) eqn:T.
  - destruct (getParticipantId_profile env w T) as (w' & Hfirst & Hls & Hss & Hu & Htr & Hui).
    rewrite Hrun in Hfirst. injection Hfirst as Hc Hw. subst w' c.
    assert (T1 : truthy (storedUserId env (localStorage w1)) = true) by (rewrite Hls; exact T).
    destruct (getParticipantId_profile env w1 T1)
      as (w2 & Hsecond & Hls2 & Hss2 & Hu2 & Htr2 & Hui2).
    exists w2. split; [rewrite Hsecond, Hls, Hui; reflexivity|].
    repeat split; assumption.
  - destruct (getParticipantId_temporary env w T)
      as (id & w' & Hfirst & Hkey & Hcase & Hls & Hui).
    rewrite Hrun in Hfirst. injection Hfirst as Hc Hw. subst w' c.
    assert (T1 : truthy (storedUserId env (localStorage w1)) = false) by (rewrite Hls; exact T).
    destruct (getParticipantId_temporary env w1 T1)
      as (id2 & w2 & Hsecond & Hkey2 & Hcase2 & Hls2 & Hui2).
    assert (Hid : truthyText (sessionStorage w1 !! "tempParticipantId") = true).
    { rewrite Hkey. cbn.
      destruct (truthyText (sessionStorage w !! "tempParticipantId")) eqn:Tc.
      - destruct Hcase as (Hc & _). rewrite Hc in Tc. exact Tc.
      - destruct Hcase as (-> & _). apply negb_true_iff. apply String.eqb_neq. exact Huuid. }
    rewrite Hid in Hcase2. destruct Hcase2 as (Hsame & Hss2 & Hu2 & Htr2).
    rewrite Hkey in Hsame. injection Hsame as Hsame. subst id2.
    exists w2. repeat split; assumption.
Qed.

(** X25. A stored profile that parses gives the participant id of a
    signed-in user from the first truthy of its id, its user id and its email
    address, in this order: the id is the text of that value between the
    fixed prefix and the meeting id.  Nothing is drawn and tab storage is not
    touched. *)
Theorem participant_id_from_profile env w text :
  truthy (storedUserId env (localStorage w)) = true ->
  toStringJs (storedUserId env (localStorage w)) = Normal text ->
  exists w',
    getParticipantId env w
    = (Normal (Some ("user-" +:+ text +:+ "-meeting-" +:+ meetingId (ui w))), w')
    /\ sessionStorage w' = sessionStorage w
    /\ uuids w' = uuids w
    /\ trace w' = trace w.
Proof.
  intros Ht Hs.
  destruct (getParticipantId_profile env w Ht) as (w' & Hrun & _ & Hss & Hu & Htr & _).
  rewrite Hs in Hrun. exists w'. auto.
Qed.


(** The id of a profile whose id is the number 10^21. *)
Example large_numeric_id_run :
  let env := largeIdEnv (fun _ => statusReply (VStr "CONFIRMED")) (fun _ => acknowledged) in
  fst (getParticipantId env (sampleWorld withLargeIdProfile attendeeJoining))
  = Normal (Some "user-1e+21-meeting-M1").
Proof. vm_compute. reflexivity. Qed.

Lemma participant_id_from_profile_witness :
  let env := visitorEnv (fun _ => statusReply (VStr "CONFIRMED")) (fun _ => acknowledged) in
  let w := sampleWorld withEmailProfile attendeeJoining in
  (truthy (storedUserId env (localStorage w)) = true
   /\ toStringJs (storedUserId env (localStorage w)) = Normal "lan@example.org")
  /\ exists w', getParticipantId env w
                = (Normal (Some "user-lan@example.org-meeting-M1"), w').
Proof.
  intros env w.
  split; [split; reflexivity|].
  destruct (participant_id_from_profile env w "lan@example.org") as (w' & H & _);
    [reflexivity | reflexivity |].
  exists w'. exact H.
Defined.

(** X26. When the stored profile gives no user id (there is none, it is
    empty, it does not parse, it is not an object, or its id, user id and
    email address are all falsy) the participant id is the temporary id of
    the tab and the call never fails: an id already kept in tab storage is
    returned as it is with no draw and no write, and otherwise one id is
    drawn, written to tab storage and returned.  Durable storage is not
    changed. *)
Theorem participant_id_temporary env w :
  truthy (storedUserId env (localStorage w)) = false ->
  exists id w',
    getParticipantId env w = (Normal (Some id), w')
    /\ sessionStorage w' !! "tempParticipantId" = Some id
    /\ (if truthyText (sessionStorage w !! "tempParticipantId")
        then sessionStorage w !! "tempParticipantId" = Some id
             /\ sessionStorage w' = sessionStorage w
             /\ uuids w' = uuids w
             /\ trace w' = trace w
        else id = randomUUID env (uuids w)
             /\ uuids w' = S (uuids w)
             /\ emits w w' [ESessionSet "tempParticipantId" id])
    /\ localStorage w' = localStorage w.
Proof.
  intros Ht.
  destruct (getParticipantId_temporary env w Ht)
    as (id & w' & Hrun & Hkey & Hcase & Hls & _).
  exists id, w'. auto.
Qed.


Lemma participant_id_temporary_witness :
  let env := visitorEnv (fun _ => statusReply (VStr "CONFIRMED")) (fun _ => acknowledged) in
  let w := sampleWorld {[ "userProfile" := "{oops" ]} attendeeJoining in
  truthy (storedUserId env (localStorage w)) = false
  /\ exists id w', getParticipantId env w = (Normal (Some id), w')
                   /\ id = "00000000-0000-4000-8000-000000000000".
Proof.
  intros env w.
  split; [reflexivity|].
  destruct (participant_id_temporary env w) as (id & w' & H1 & _ & H2 & _); [reflexivity|].
  exists id, w'. split; [exact H1|]. exact (proj1 H2).
Defined.

(** X28. Rendering the page again shows the same screen and changes
    nothing more: the second render returns what the first returned (for the
    meeting screen the same participant id, drawn at most once and then read
    from tab storage; the same error when the id cannot be computed), and it
    issues nothing, draws nothing and writes nothing.  The generator is
    assumed not to draw the empty text. *)
Theorem rerender_keeps_participant_id env w :
  randomUUID env (uuids w) <> "" ->
  exists c w1 w2,
    render env w = (c, w1)
    /\ render env w1 = (c, w2)
    /\ trace w2 = trace w1
    /\ sessionStorage w2 = sessionStorage w1
    /\ uuids w2 = uuids w1
    /\ ui w2 = ui w.
Proof.
  intros Huuid.
  destruct w as [ls ss nf nc nu ts tr co fo
                 [mid name started busy err consultant osd oed note audio video ref]].
  unfold render. unfold_monad. cbn.
  destruct busy, started; cbn; destruct (err =? "") eqn:E2; cbn.
  all: try (eexists _, _, _; split; [reflexivity|]; cbn; rewrite ?E2; cbn;
            repeat split; fail).
  all: match goal with
       | |- context [getParticipantId ?e ?w0] =>
           destruct (getParticipantId e w0) as [c w1] eqn:Hrun;
           destruct (getParticipantId_again env w0 c w1 Huuid Hrun)
             as (w2 & Hsecond & Hss & Hu & Htr & Hls & Hui);
           assert (Hui1 : ui w1 = ui w0);
           [ destruct (truthy (storedUserId env (localStorage w0))) eqn:T;
             [ destruct (getParticipantId_profile env w0 T)
                 as (w' & Hf & _ & _ & _ & _ & Hx)
             | destruct (getParticipantId_temporary env w0 T)
                 as (id & w' & Hf & _ & _ & _ & Hx) ];
             rewrite Hrun in Hf; injection Hf as Hc Hw; subst w'; exact Hx
           | ]
       end.
  all: destruct w1 as [ls1 ss1 nf1 nc1 nu1 ts1 tr1 co1 fo1 mu1]; cbn in Hui1; subst mu1.
  all: destruct w2 as [ls2 ss2 nf2 nc2 nu2 ts2 tr2 co2 fo2 mu2]; cbn in Hss, Hu, Htr, Hls, Hui;
       subst.
  all: destruct c as [pid|e]; cbn.
  all: eexists _, _, _; split; [reflexivity|]; cbn; rewrite ?E2; cbn.
  all: rewrite Hsecond; cbn; repeat split.
Qed.

Lemma rerender_keeps_participant_id_witness :
  let env := sampleEnv (fun _ => statusReply (VStr "CONFIRMED")) (fun _ => acknowledged) in
  let w := sampleWorld ∅ attendeeInMeeting in
  randomUUID env (uuids w) <> ""
  /\ exists c w1 w2, render env w = (c, w1) /\ render env w1 = (c, w2).
Proof.
  intros env w.
  split; [vm_compute; discriminate|].
  destruct (rerender_keeps_participant_id env w) as (c & w1 & w2 & H1 & H2 & _);
    [vm_compute; discriminate|].
  exists c, w1, w2. split; assumption.
Defined.

(** Two renders of the meeting of an anonymous participant, run. *)
Example rerender_run :
  let env := sampleEnv (fun _ => statusReply (VStr "CONFIRMED")) (fun _ => acknowledged) in
  let first := render env (sampleWorld ∅ attendeeInMeeting) in
  let second := render env (snd first) in
  fst first = Normal (ScreenMeeting "M1" "Minh" (Some "00000000-0000-4000-8000-000000000000"))
  /\ fst second = fst first
  /\ uuids (snd second) = 1.
Proof. vm_compute. repeat split. Qed.

(** ** From the login to the meeting *)

(** X27. The tokens a Google sign-in persists are the ones the meeting
    page presents afterwards: after a sign-in whose reply gave an access token
    with text [ta] and a refresh token with text [tr], both not empty, durable
    storage holds them under accessToken and refreshToken (the flush of a
    queued survey and the redirect leave them alone), the first request of a
    status fetch carries [ta] as bearer and the request of a token refresh
    carries [tr]. *)
Theorem login_tokens_are_presented env response w credential data a ta r tr :
  getProp response "credential" = Normal credential ->
  serviceReply env (calls w) = Normal data ->
  getProp data "accessToken" = Normal a ->
  toStringJs a = Normal ta ->
  ta <> "" ->
  getProp data "refreshToken" = Normal r ->
  toStringJs r = Normal tr ->
  tr <> "" ->
  exists w',
    handleGoogleLoginResponse env response w = (Normal tt, w')
    /\ localStorage w' !! "accessToken" = Some ta
    /\ localStorage w' !! "refreshToken" = Some tr
    /\ (exists d w2 rest,
          fetchAppointmentWithTokenRefresh env false w' = (Normal d, w2)
          /\ emits w' w2 (getAppointment env ta :: rest))
    /\ (exists c w2 rest,
          refreshAccessToken env w' = (c, w2)
          /\ emits w' w2 (postRefresh env tr :: rest)).
Proof.
  intros Hc Hs Ha Hta Hnea Hr Htr Hner.
  assert (Hrun : exists w',
             handleGoogleLoginResponse env response w = (Normal tt, w')
             /\ localStorage w' !! "accessToken" = Some ta
             /\ localStorage w' !! "refreshToken" = Some tr).
  { destruct w as [ls ss nf nc nu ts tr0 co [un pw sp busy errs] mu]. cbn in Hs.
    unfold handleGoogleLoginResponse, callService, redirectAfterLoginSuccess.
    unfold_ui. unfold_monad. cbn.
    rewrite Hc. cbn. rewrite Hs. cbn. rewrite Ha. cbn. rewrite Hr. cbn.
    rewrite Hta. cbn. rewrite Htr. cbn.
    match goal with
    | |- context [handlePendingSurveySubmission env ?w3] =>
        destruct (handlePendingSurveySubmission_events env w3)
          as (sent & w4 & fl & Hflush & _ & Hss & _ & Hls & _)
    end.
    expose_result w4. cbn in Hls, Hss. subst. rewrite Hflush. cbn.
    destruct (truthyText (ss !! "redirectAfterLogin")); cbn;
      [|destruct (truthyText (returnUrl env)); cbn].
    all: eexists; split; [reflexivity|]; cbn.
    all: rewrite !Hls by discriminate.
    all: split; [rewrite !lookup_insert_ne by discriminate; apply lookup_insert_eq|].
    all: rewrite lookup_insert_ne by discriminate; apply lookup_insert_eq. }
  destruct Hrun as (w' & Hrun & Hat & Hrt).
  exists w'. split; [exact Hrun|]. split; [exact Hat|]. split; [exact Hrt|].
  split.
  - apply fetchAppointment_first_request; assumption.
  - apply refreshAccessToken_request; assumption.
Qed.

Lemma login_tokens_are_presented_witness :
  let env := sampleEnv (fun _ => statusReply (VStr "CONFIRMED")) (fun _ => loginReply) in
  let w := sampleWorld queuedSurvey joiningScreen in
  let response := VObj [("credential", VStr "id-token")] in
  let data := VObj [("accessToken", VStr "tok"); ("refreshToken", VStr "ref")] in
  (getProp response "credential" = Normal (VStr "id-token")
   /\ serviceReply env (calls w) = Normal data
   /\ getProp data "accessToken" = Normal (VStr "tok")
   /\ toStringJs (VStr "tok") = Normal "tok"
   /\ "tok" <> ""
   /\ getProp data "refreshToken" = Normal (VStr "ref")
   /\ toStringJs (VStr "ref") = Normal "ref"
   /\ "ref" <> "")
  /\ exists w', handleGoogleLoginResponse env response w = (Normal tt, w')
                /\ localStorage w' !! "accessToken" = Some "tok"
                /\ localStorage w' !! "refreshToken" = Some "ref".
Proof.
  intros env w response data.
  split; [repeat split; try reflexivity; discriminate|].
  destruct (login_tokens_are_presented env response w (VStr "id-token") data
              (VStr "tok") "tok" (VStr "ref") "ref")
    as (w' & H1 & H2 & H3 & _);
    [reflexivity | reflexivity | reflexivity | reflexivity | discriminate | reflexivity
    | reflexivity | discriminate |].
  exists w'. repeat split; assumption.
Defined.
